(** * anthropic_openai_bridge: request/response mappers, SSE framer and
      stream transducer

    A shallow embedding of the Python sources
      - [anthropic_openai_bridge/exceptions.py]
      - [anthropic_openai_bridge/transformers/request.py]
      - [anthropic_openai_bridge/transformers/response.py]
      - [anthropic_openai_bridge/streaming.py]
      - [anthropic_openai_bridge/types.py] (the tables and event classes)
      - [anthropic_openai_bridge/messages.py] ([Messages.create])
      - [anthropic_openai_bridge/client.py] (the base URL)
      - [anthropic_openai_bridge/utils.py] (the sanitizers)
    followed by the properties of the mappers, of the transducer, of
    [Messages.create] and of the sanitizers.

    Python values of the JSON shape are the type [pyval]; a [dict] is an
    association list in insertion order.  Code that can raise returns a
    [result]; the generator of [streaming.py] is a function from a state to
    a new state, the events yielded so far and an outcome, so that events
    yielded before an exception stay yielded, as they do in Python. *)

From Stdlib Require Import List String Ascii ZArith Bool Arith Lia DecimalString.
From Equations Require Import Equations.
Import ListNotations.
Open Scope string_scope.
Open Scope list_scope.

Set Implicit Arguments.
Set Warnings "-register-all".

(* ===================================================================== *)
(** * Python values *)
(* ===================================================================== *)

(** A float is carried as the decimal it was written as: [FDec m e] is the
    binary64 number nearest to [m * 10^e].  Nothing below computes with
    floats; only their truth value is ever observed. *)
Inductive pyfloat : Type :=
| FNan
| FInf (negative : bool)
| FDec (m e : Z).

Inductive pyval : Type :=
| PNone
| PBool (b : bool)
| PInt (n : Z)
| PFloat (f : pyfloat)
| PStr (s : string)
| PList (items : list pyval)
| PDict (entries : list (string * pyval)).

(** [Dict[str, Any]]: keys in insertion order, looked up from the front. *)
Definition dict : Type := list (string * pyval).

Module Dict.

Fixpoint get (k : string) (d : dict) : option pyval :=
  match d with
  | [] => None
  | (k', v) :: d' => if String.eqb k k' then Some v else get k d'
  end.

Definition has (k : string) (d : dict) : bool :=
  match get k d with Some _ => true | None => false end.

(** [d[k] = v]: an existing key keeps its place, a new key goes last. *)
Fixpoint set (k : string) (v : pyval) (d : dict) : dict :=
  match d with
  | [] => [(k, v)]
  | (k', v') :: d' =>
      if String.eqb k k' then (k', v) :: d' else (k', v') :: set k v d'
  end.

Definition keys (d : dict) : list string := map fst d.

(** [d.get(k, default)] *)
Definition get_default (k : string) (default : pyval) (d : dict) : pyval :=
  match get k d with Some v => v | None => default end.

End Dict.

(** The binary64 nearest to [m * 10^e] is zero exactly when
    [|m| * 10^e <= 2^-1075] (ties go to the even neighbour, which is 0). *)
Definition float_is_zero (f : pyfloat) : bool :=
  match f with
  | FNan | FInf _ => false
  | FDec m e =>
      if (m =? 0)%Z then true
      else if (0 <=? e)%Z then false
      else (Z.abs m * 2 ^ 1075 <=? 10 ^ (- e))%Z
  end.

(** [bool(v)] *)
Definition truthy (v : pyval) : bool :=
  match v with
  | PNone => false
  | PBool b => b
  | PInt n => negb (n =? 0)%Z
  | PFloat f => negb (float_is_zero f)
  | PStr s => negb (String.eqb s "")
  | PList l => match l with [] => false | _ => true end
  | PDict d => match d with [] => false | _ => true end
  end.

(* ===================================================================== *)
(** * Exceptions *)
(* ===================================================================== *)

Inductive exn : Type :=
| KeyError | IndexError | TypeError | AttributeError | JSONDecodeError.

Inductive result (A : Type) : Type :=
| Ok (a : A)
| Raise (e : exn).
Arguments Ok {A} a.
Arguments Raise {A} e.

Definition rbind {A B} (c : result A) (k : A -> result B) : result B :=
  match c with
  | Ok a => k a
  | Raise e => Raise e
  end.

Declare Scope result_scope.
Delimit Scope result_scope with result.
Notation "x <- c ;; k" := (rbind c (fun x => k))
  (at level 61, c at next level, right associativity) : result_scope.

(* ===================================================================== *)
(** * Strings *)
(* ===================================================================== *)

Definition nl_char : ascii := ascii_of_nat 10.
Definition nl : string := String nl_char "".
Definition dq : string := String (ascii_of_nat 34) "".

(** A [string] stands for Python text in UTF-8.  An ASCII byte, and the
    bytes of one of the white-space characters below, occur in UTF-8 text
    only as that character, so text is split at newlines and colons and
    stripped of white space on its bytes. *)

(** [str.isspace] on the characters of one byte: U+0009 to U+000D and
    U+001C to U+0020. *)
Definition is_space (c : ascii) : bool :=
  let n := nat_of_ascii c in
  (((9 <=? n) && (n <=? 13)) || ((28 <=? n) && (n <=? 32)))%nat.

(** On those of two bytes: U+0085 and U+00A0. *)
Definition is_space2 (c1 c2 : ascii) : bool :=
  let a := nat_of_ascii c1 in
  let b := nat_of_ascii c2 in
  ((a =? 194) && ((b =? 133) || (b =? 160)))%nat.

(** On those of three bytes: U+1680, U+2000 to U+200A, U+2028, U+2029,
    U+202F, U+205F and U+3000. *)
Definition is_space3 (c1 c2 c3 : ascii) : bool :=
  let a := nat_of_ascii c1 in
  let b := nat_of_ascii c2 in
  let c := nat_of_ascii c3 in
  (((a =? 225) && (b =? 154) && (c =? 128))
   || ((a =? 226) && (b =? 128)
       && (((128 <=? c) && (c <=? 138)) || (c =? 168) || (c =? 169) || (c =? 175)))
   || ((a =? 226) && (b =? 129) && (c =? 159))
   || ((a =? 227) && (b =? 128) && (c =? 128)))%nat.

(** When [s] begins with a white-space character, the text after it. *)
Definition space_prefix (s : string) : option string :=
  match s with
  | "" => None
  | String c1 r1 =>
      if is_space c1 then Some r1
      else match r1 with
           | "" => None
           | String c2 r2 =>
               if is_space2 c1 c2 then Some r2
               else match r2 with
                    | "" => None
                    | String c3 r3 =>
                        if is_space3 c1 c2 c3 then Some r3 else None
                    end
           end
  end.

(** [s.lstrip()] *)
Fixpoint lstrip (s : string) : string :=
  match s with
  | "" => ""
  | String c1 r1 =>
      if is_space c1 then lstrip r1
      else match r1 with
           | "" => s
           | String c2 r2 =>
               if is_space2 c1 c2 then lstrip r2
               else match r2 with
                    | "" => s
                    | String c3 r3 =>
                        if is_space3 c1 c2 c3 then lstrip r3 else s
                    end
           end
  end.

(** [s.rstrip()]: what is left of [s] once its end is stripped is empty
    when the first byte and the stripped rest make up one white-space
    character, and is the first byte before the stripped rest otherwise. *)
Fixpoint rstrip (s : string) : string :=
  match s with
  | "" => ""
  | String c r =>
      match space_prefix (String c (rstrip r)) with
      | Some "" => ""
      | _ => String c (rstrip r)
      end
  end.

(** [s.strip()] *)
Definition strip (s : string) : string := rstrip (lstrip s).

Fixpoint drop (n : nat) (s : string) : string :=
  match n, s with
  | S n', String _ r => drop n' r
  | _, _ => s
  end.

(** [s.split(sep, 1)] when [sep in s]: the text before and after the
    leftmost occurrence of [sep]; [None] when [sep] does not occur. *)
Fixpoint split_once (sep s : string) : option (string * string) :=
  if prefix sep s then Some ("", drop (String.length sep) s)
  else match s with
       | "" => None
       | String c r =>
           match split_once sep r with
           | Some (a, b) => Some (String c a, b)
           | None => None
           end
       end.

(** [sub in s] *)
Definition contains (sub s : string) : bool :=
  match split_once sub s with Some _ => true | None => false end.

(** [s.split("\n")] *)
Fixpoint split_lines (s : string) : list string :=
  match s with
  | "" => [""]
  | String c r =>
      if Ascii.eqb c nl_char then "" :: split_lines r
      else match split_lines r with
           | h :: t => String c h :: t
           | [] => [String c ""]
           end
  end.

(** [sep.join(parts)] on strings. *)
Fixpoint join (sep : string) (parts : list string) : string :=
  match parts with
  | [] => ""
  | [p] => p
  | p :: ps => p ++ sep ++ join sep ps
  end.

(** The one-character strings of [s], as [iter(s)] gives them. *)
Fixpoint chars (s : string) : list pyval :=
  match s with
  | "" => []
  | String c r => PStr (String c "") :: chars r
  end.

(* ===================================================================== *)
(** * Python operations on values *)
(* ===================================================================== *)

Open Scope result_scope.

(** [v.get(k, default)]: only a dict has [get]. *)
Definition py_get (v : pyval) (k : string) (default : pyval) : result pyval :=
  match v with
  | PDict d => Ok (Dict.get_default k default d)
  | _ => Raise AttributeError
  end.

(** [v[k]] for a string key. *)
Definition py_item (v : pyval) (k : string) : result pyval :=
  match v with
  | PDict d => match Dict.get k d with Some x => Ok x | None => Raise KeyError end
  | _ => Raise TypeError
  end.

(** [v[0]].  The dicts here have string keys only, so [d[0]] is a
    [KeyError]. *)
Definition py_item0 (v : pyval) : result pyval :=
  match v with
  | PList (x :: _) => Ok x
  | PList [] => Raise IndexError
  | PStr (String c _) => Ok (PStr (String c ""))
  | PStr "" => Raise IndexError
  | PDict _ => Raise KeyError
  | _ => Raise TypeError
  end.

Definition is_str (k : string) (v : pyval) : bool :=
  match v with PStr s => String.eqb s k | _ => false end.

(** [k in v] for a string [k]. *)
Definition py_in (k : string) (v : pyval) : result bool :=
  match v with
  | PDict d => Ok (Dict.has k d)
  | PList l => Ok (existsb (is_str k) l)
  | PStr s => Ok (contains k s)
  | _ => Raise TypeError
  end.

(** [iter(v)], as a [for] loop or [enumerate] consumes it. *)
Definition py_iter (v : pyval) : result (list pyval) :=
  match v with
  | PList l => Ok l
  | PStr s => Ok (chars s)
  | PDict d => Ok (map (fun kv => PStr (fst kv)) d)
  | _ => Raise TypeError
  end.

(** A dict key must be hashable: lists and dicts are not. *)
Definition hashable (v : pyval) : bool :=
  match v with PList _ | PDict _ => false | _ => true end.

(** ["\n".join(parts)]: every part must be a [str]. *)
Fixpoint str_items (parts : list pyval) : result (list string) :=
  match parts with
  | [] => Ok []
  | PStr s :: r => ss <- str_items r ;; Ok (s :: ss)
  | _ :: _ => Raise TypeError
  end.

Definition py_join (sep : string) (parts : list pyval) : result string :=
  ss <- str_items parts ;; Ok (join sep ss).

(* ===================================================================== *)
(** * The library boundary *)
(* ===================================================================== *)

(** [json.loads], [json.dumps] and [repr] belong to Python, not to this
    repository: the embedding takes them as a parameter.  [json_loads s] is
    [None] when [json.loads(s)] raises [JSONDecodeError]. *)
Record Library : Type := {
  json_loads : string -> option pyval;
  json_dumps : pyval -> string;
  py_repr : pyval -> string
}.

(** [json.loads(v)]: a [TypeError] unless [v] is a [str]. *)
Definition py_json_loads (lib : Library) (v : pyval) : result pyval :=
  match v with
  | PStr s =>
      match json_loads lib s with
      | Some x => Ok x
      | None => Raise JSONDecodeError
      end
  | _ => Raise TypeError
  end.

(** [str(v)] *)
Definition py_str (lib : Library) (v : pyval) : string :=
  match v with
  | PStr s => s
  | _ => py_repr lib v
  end.

(* ===================================================================== *)
(** * exceptions.py *)
(* ===================================================================== *)

(** [APIError] and its subclasses.  An error object holds the message it
    was built with, [request] and [response]; no class has a field for the
    status code. *)
Inductive error_class : Type :=
| APIError
| AuthenticationError
| BadRequestError
| ConflictError
| InternalServerError
| NotFoundError
| PermissionDeniedError
| RateLimitError
| UnprocessableEntityError.

(** What the code reads of an [httpx.Response]. *)
Record http_response : Type := {
  status_code : Z;
  json_body : option pyval
}.

Record api_error : Type := {
  err_class : error_class;
  err_message : pyval;
  err_request : option unit;
  err_response : option http_response
}.

Definition error_message (lib : Library) (error_data : option dict) : pyval :=
  let message := PStr "Unknown error" in
  match error_data with
  | Some d =>
      if truthy (PDict d) then
        match Dict.get "error" d with
        | Some (PDict e) => Dict.get_default "message" message e
        | Some v => PStr (py_str lib v)
        | None =>
            match Dict.get "message" d with
            | Some m => m
            | None => message
            end
        end
      else message
  | None => message
  end.

Definition error_class_of_status (status : Z) : error_class :=
  if (status =? 400)%Z then BadRequestError
  else if (status =? 401)%Z then AuthenticationError
  else if (status =? 403)%Z then PermissionDeniedError
  else if (status =? 404)%Z then NotFoundError
  else if (status =? 409)%Z then ConflictError
  else if (status =? 422)%Z then UnprocessableEntityError
  else if (status =? 429)%Z then RateLimitError
  else if (500 <=? status)%Z then InternalServerError
  else APIError.

Definition map_openai_error_to_anthropic (lib : Library)
    (status : Z) (error_data : option dict) (response : option http_response)
  : api_error :=
  {| err_class := error_class_of_status status;
     err_message := error_message lib error_data;
     err_request := None;
     err_response := response |}.

(* ===================================================================== *)
(** * types.py: content blocks, messages, the stop-reason table *)
(* ===================================================================== *)

Record ContentBlock : Type := {
  cb_type : string;
  cb_text : pyval
}.

Record ToolUse : Type := {
  tu_id : pyval;
  tu_name : pyval;
  tu_input : pyval;
  tu_type : string
}.

(** [ContentBlockType = Union[ContentBlock, ToolUse]] *)
Inductive ContentBlockType : Type :=
| Block (b : ContentBlock)
| Tool (t : ToolUse).

Record Usage : Type := {
  input_tokens : pyval;
  output_tokens : pyval
}.

Record Message : Type := {
  msg_id : pyval;
  msg_type : string;
  msg_role : string;
  msg_content : list ContentBlockType;
  msg_model : pyval;
  msg_stop_reason : option string;
  msg_stop_sequence : option string;
  msg_usage : Usage
}.

Definition OPENAI_TO_ANTHROPIC_STOP_REASON_MAP : list (string * string) :=
  [ ("stop", "end_turn");
    ("length", "max_tokens");
    ("function_call", "tool_use");
    ("tool_calls", "tool_use");
    ("content_filter", "end_turn") ].

Fixpoint assoc (k : string) (table : list (string * string)) : option string :=
  match table with
  | [] => None
  | (k', v) :: t => if String.eqb k k' then Some v else assoc k t
  end.

(** [table.get(key, default)] for a table with string keys: an unhashable
    key is a [TypeError], a key that is no [str] is never found. *)
Definition table_get (table : list (string * string)) (key : pyval)
    (default : string) : result string :=
  match key with
  | PStr s => Ok (match assoc s table with Some v => v | None => default end)
  | _ => if hashable key then Ok default else Raise TypeError
  end.

(* ===================================================================== *)
(** * transformers/response.py *)
(* ===================================================================== *)

Definition _map_finish_reason_to_stop_reason (finish_reason : pyval)
  : result (option string) :=
  match finish_reason with
  | PNone => Ok None
  | _ =>
      r <- table_get OPENAI_TO_ANTHROPIC_STOP_REASON_MAP finish_reason "end_turn" ;;
      Ok (Some r)
  end.

(** [try: json.loads(x) except json.JSONDecodeError: {}] *)
Definition loads_or_empty (lib : Library) (x : pyval) : result pyval :=
  match py_json_loads lib x with
  | Ok v => Ok v
  | Raise JSONDecodeError => Ok (PDict [])
  | Raise e => Raise e
  end.

(** The body of the loop over [message["tool_calls"]]: the [ToolUse] to
    append, if any. *)
Definition response_tool_use (lib : Library) (tool_call : pyval)
  : result (option ToolUse) :=
  f <- py_get tool_call "function" PNone ;;
  if truthy f then
    a <- py_get f "arguments" (PStr "{}") ;;
    arguments <- loads_or_empty lib a ;;
    i <- py_get tool_call "id" (PStr "") ;;
    n <- py_get f "name" (PStr "") ;;
    Ok (Some {| tu_id := i; tu_name := n; tu_input := arguments;
                tu_type := "tool_use" |})
  else Ok None.

Fixpoint response_tool_uses (lib : Library) (calls : list pyval)
  : result (list ContentBlockType) :=
  match calls with
  | [] => Ok []
  | c :: r =>
      t <- response_tool_use lib c ;;
      ts <- response_tool_uses lib r ;;
      Ok (match t with Some u => Tool u :: ts | None => ts end)
  end.

(** [openai_response["choices"][0] if openai_response.get("choices") else {}] *)
Definition first_choice (openai_response : dict) : result pyval :=
  if truthy (Dict.get_default "choices" PNone openai_response) then
    cs <- py_item (PDict openai_response) "choices" ;;
    py_item0 cs
  else Ok (PDict []).

Definition response_content (lib : Library) (message : pyval)
  : result (list ContentBlockType) :=
  c <- py_get message "content" PNone ;;
  text <- (if truthy c then
             t <- py_item message "content" ;;
             Ok [Block {| cb_type := "text"; cb_text := t |}]
           else Ok []) ;;
  tc <- py_get message "tool_calls" PNone ;;
  tools <- (if truthy tc then
              l <- py_item message "tool_calls" ;;
              calls <- py_iter l ;;
              response_tool_uses lib calls
            else Ok []) ;;
  Ok (text ++ tools).

(** [uuid4_hex] is the value of [uuid.uuid4().hex] drawn by this call. *)
Definition transform_openai_to_anthropic (lib : Library) (uuid4_hex : string)
    (openai_response : dict) : result Message :=
  choice <- first_choice openai_response ;;
  message <- py_get choice "message" (PDict []) ;;
  content_blocks <- response_content lib message ;;
  finish_reason <- py_get choice "finish_reason" PNone ;;
  stop_reason <- _map_finish_reason_to_stop_reason finish_reason ;;
  let usage_data := Dict.get_default "usage" (PDict []) openai_response in
  it <- py_get usage_data "prompt_tokens" (PInt 0) ;;
  ot <- py_get usage_data "completion_tokens" (PInt 0) ;;
  Ok {| msg_id := Dict.get_default "id" (PStr ("msg_" ++ uuid4_hex)) openai_response;
        msg_type := "message";
        msg_role := "assistant";
        msg_content := content_blocks;
        msg_model := Dict.get_default "model" (PStr "unknown") openai_response;
        msg_stop_reason := stop_reason;
        msg_stop_sequence := None;
        msg_usage := {| input_tokens := it; output_tokens := ot |} |}.

(* ===================================================================== *)
(** * transformers/request.py *)
(* ===================================================================== *)

Definition nonempty {A} (l : list A) : bool :=
  match l with [] => false | _ => true end.

Definition _transform_tool_choice (anthropic_tool_choice : pyval) : pyval :=
  match anthropic_tool_choice with
  | PStr s =>
      if String.eqb s "auto" then PStr "auto"
      else if String.eqb s "any" || String.eqb s "required" then PStr "required"
      else PStr "auto"
  | PDict d =>
      let tool_type := Dict.get_default "type" PNone d in
      if is_str "tool" tool_type then
        let tool_name := Dict.get_default "name" PNone d in
        if truthy tool_name then
          PDict [("type", PStr "function");
                 ("function", PDict [("name", tool_name)])]
        else PStr "auto"
      else PStr "auto"
  | _ => PStr "auto"
  end.

Definition transform_tool (tool : pyval) : result pyval :=
  n <- py_get tool "name" (PStr "") ;;
  d <- py_get tool "description" (PStr "") ;;
  s <- py_get tool "input_schema" (PDict []) ;;
  Ok (PDict [("type", PStr "function");
             ("function", PDict [("name", n); ("description", d);
                                 ("parameters", s)])]).

Fixpoint transform_tool_list (tools : list pyval) : result (list pyval) :=
  match tools with
  | [] => Ok []
  | t :: r =>
      o <- transform_tool t ;;
      os <- transform_tool_list r ;;
      Ok (o :: os)
  end.

Definition _transform_tools_to_functions (anthropic_tools : pyval)
  : result (list pyval) :=
  tools <- py_iter anthropic_tools ;;
  transform_tool_list tools.

(** The three lists that the loop of [_transform_content_blocks] fills. *)
Record block_parts : Type := {
  text_parts : list pyval;
  tool_calls : list pyval;
  tool_results : list pyval
}.

Definition no_parts : block_parts :=
  {| text_parts := []; tool_calls := []; tool_results := [] |}.

Definition tool_call_of_block (lib : Library) (block : dict) : pyval :=
  PDict [("id", Dict.get_default "id" (PStr "") block);
         ("type", PStr "function");
         ("function",
          PDict [("name", Dict.get_default "name" (PStr "") block);
                 ("arguments",
                  PStr (json_dumps lib (Dict.get_default "input" (PDict []) block)))])].

Definition tool_result_of_block (lib : Library) (block : dict) : pyval :=
  PDict [("role", PStr "tool");
         ("tool_call_id", Dict.get_default "tool_use_id" (PStr "") block);
         ("content", PStr (py_str lib (Dict.get_default "content" (PStr "") block)))].

(** One turn of [for block in content_blocks]. *)
Definition add_block (lib : Library) (acc : block_parts) (block : pyval)
  : result block_parts :=
  match block with
  | PDict b =>
      let block_type := Dict.get_default "type" PNone b in
      if is_str "text" block_type && Dict.has "text" b then
        Ok {| text_parts := text_parts acc ++ [Dict.get_default "text" PNone b];
              tool_calls := tool_calls acc;
              tool_results := tool_results acc |}
      else if is_str "tool_use" block_type then
        Ok {| text_parts := text_parts acc;
              tool_calls := tool_calls acc ++ [tool_call_of_block lib b];
              tool_results := tool_results acc |}
      else if is_str "tool_result" block_type then
        Ok {| text_parts := text_parts acc;
              tool_calls := tool_calls acc;
              tool_results := tool_results acc ++ [tool_result_of_block lib b] |}
      else Ok acc
  | _ => Raise AttributeError
  end.

Fixpoint add_blocks (lib : Library) (acc : block_parts) (blocks : list pyval)
  : result block_parts :=
  match blocks with
  | [] => Ok acc
  | b :: r => acc' <- add_block lib acc b ;; add_blocks lib acc' r
  end.

(** [main_message], when [text_parts or tool_calls]. *)
Definition main_message (role : pyval) (p : block_parts) : result (list pyval) :=
  if nonempty (text_parts p) || nonempty (tool_calls p) then
    let m0 := [("role", role)] in
    m1 <- (if nonempty (text_parts p) then
             c <- py_join nl (text_parts p) ;;
             Ok (Dict.set "content" (PStr c) m0)
           else Ok m0) ;;
    let m2 :=
      if nonempty (tool_calls p) then
        let m := Dict.set "tool_calls" (PList (tool_calls p)) m1 in
        if nonempty (text_parts p) then m else Dict.set "content" (PStr "") m
      else m1 in
    Ok [PDict m2]
  else Ok [].

(** The value returned is a dict (one message, or the empty dict) or a list
    of messages. *)
Definition _transform_content_blocks (lib : Library) (role : pyval)
    (content_blocks : list pyval) : result pyval :=
  p <- add_blocks lib no_parts content_blocks ;;
  main <- main_message role p ;;
  let messages := main ++ tool_results p in
  if (List.length messages =? 1)%nat && nonempty (tool_results p) then
    Ok (PList messages)
  else if (List.length messages =? 1)%nat then
    Ok (hd (PDict []) messages)
  else if (1 <? List.length messages)%nat then
    Ok (PList messages)
  else Ok (PDict []).

(** One turn of [for msg in anthropic_messages]: the messages appended to
    [openai_messages]. *)
Definition transform_message (lib : Library) (msg : pyval) : result (list pyval) :=
  role <- py_item msg "role" ;;
  content <- py_item msg "content" ;;
  match content with
  | PStr _ => Ok [PDict [("role", role); ("content", content)]]
  | PList blocks =>
      transformed_msg <- _transform_content_blocks lib role blocks ;;
      if truthy transformed_msg then
        match transformed_msg with
        | PList l => Ok l
        | _ => Ok [transformed_msg]
        end
      else Ok []
  | _ => Ok []
  end.

Fixpoint transform_message_list (lib : Library) (msgs : list pyval)
  : result (list pyval) :=
  match msgs with
  | [] => Ok []
  | m :: r =>
      o <- transform_message lib m ;;
      os <- transform_message_list lib r ;;
      Ok (o ++ os)
  end.

Definition _transform_messages (lib : Library) (anthropic_messages : pyval)
    (system_prompt : pyval) : result (list pyval) :=
  let system :=
    if truthy system_prompt
    then [PDict [("role", PStr "system"); ("content", system_prompt)]]
    else [] in
  msgs <- py_iter anthropic_messages ;;
  out <- transform_message_list lib msgs ;;
  Ok (system ++ out).

(** [if src in params: out[dst] = params[src]] *)
Definition copy_key (src dst : string) (params out : dict) : dict :=
  match Dict.get src params with
  | Some v => Dict.set dst v out
  | None => out
  end.

Definition transform_anthropic_to_openai (lib : Library) (params : dict)
  : result dict :=
  model <- py_item (PDict params) "model" ;;
  let o := Dict.set "model" model [] in
  msgs <- py_item (PDict params) "messages" ;;
  messages <- _transform_messages lib msgs (Dict.get_default "system" PNone params) ;;
  let o := Dict.set "messages" (PList messages) o in
  let o := copy_key "max_tokens" "max_tokens" params o in
  let o := copy_key "temperature" "temperature" params o in
  let o := copy_key "top_p" "top_p" params o in
  let o := copy_key "stop_sequences" "stop" params o in
  let o := copy_key "stream" "stream" params o in
  o <- (match Dict.get "tools" params with
        | Some tools =>
            if truthy tools then
              t <- _transform_tools_to_functions tools ;;
              Ok (Dict.set "tools" (PList t) o)
            else Ok o
        | None => Ok o
        end) ;;
  let o :=
    match Dict.get "tool_choice" params with
    | Some tc =>
        if truthy tc then Dict.set "tool_choice" (_transform_tool_choice tc) o
        else o
    | None => o
    end in
  Ok o.

(* ===================================================================== *)
(** * messages.py: the parameters [Messages.create] hands to the mapper *)
(* ===================================================================== *)

(** [if value is not None: d[k] = value] *)
Definition set_unless_none (k : string) (value : pyval) (d : dict) : dict :=
  match value with
  | PNone => d
  | _ => Dict.set k value d
  end.

(** [d.update(kwargs)] *)
Definition dict_update (d kwargs : dict) : dict :=
  fold_left (fun acc kv => Dict.set (fst kv) (snd kv) acc) kwargs d.

Definition create_params
    (model messages max_tokens temperature top_p stop_sequences stream
     system tools tool_choice : pyval) (kwargs : dict) : dict :=
  let p := [("model", model); ("messages", messages); ("max_tokens", max_tokens)] in
  let p := set_unless_none "temperature" temperature p in
  let p := set_unless_none "top_p" top_p p in
  let p := set_unless_none "stop_sequences" stop_sequences p in
  let p := set_unless_none "stream" stream p in
  let p := set_unless_none "system" system p in
  let p := set_unless_none "tools" tools p in
  let p := set_unless_none "tool_choice" tool_choice p in
  dict_update p kwargs.

(* ===================================================================== *)
(** * streaming.py: the SSE parser *)
(* ===================================================================== *)

Module SSEParser.

(** [parse_line]: the single [key: value] pair of the line, if any. *)
Definition parse_line (line : string) : option (string * string) :=
  let line := strip line in
  if String.eqb line "" || prefix ":" line then None
  else match split_once ":" line with
       | Some (key, value) => Some (strip key, strip value)
       | None => Some (line, "")
       end.

(** The parsed lines of a record, in order. *)
Fixpoint fields (lines : list string) : list (string * string) :=
  match lines with
  | [] => []
  | l :: r =>
      match parse_line l with
      | Some kv => kv :: fields r
      | None => fields r
      end
  end.

(** The two accumulators of the loop of [parse_event]: [event] takes
    every field but [data], [data_lines] takes the [data] values. *)
Definition headers (fs : list (string * string)) : dict :=
  fold_left
    (fun event kv =>
       if String.eqb (fst kv) "data" then event
       else Dict.set (fst kv) (PStr (snd kv)) event)
    fs [].

Definition data_lines (fs : list (string * string)) : list string :=
  map snd (filter (fun kv => String.eqb (fst kv) "data") fs).

Definition parse_event (lib : Library) (lines : string) : option dict :=
  let fs := fields (split_lines lines) in
  let event := headers fs in
  let dl := data_lines fs in
  if nonempty dl then
    let data := join nl dl in
    if String.eqb data "[DONE]" then Some [("event", PStr "done")]
    else
      match json_loads lib data with
      | Some v => Some (Dict.set "data" v event)
      | None => Some (Dict.set "data" (PStr data) event)
      end
  else if nonempty event then Some event else None.

End SSEParser.

(** What the body of the [while] loop of [parse_openai_streaming_response]
    does with one record: [return], [yield event["data"]], or nothing. *)
Inductive record_action : Type :=
| Stop
| Emit (data : pyval)
| Skip.

Definition handle_record (lib : Library) (event_data : string) : record_action :=
  match SSEParser.parse_event lib event_data with
  | Some event =>
      if is_str "done" (Dict.get_default "event" PNone event) then Stop
      else match Dict.get "data" event with
           | Some v => Emit v
           | None => Skip
           end
  | None => Skip
  end.

Definition delimiter : string := nl ++ nl.

Lemma drop_length (n : nat) (s : string) :
  String.length (drop n s) <= String.length s.
Proof.
  revert s; induction n as [|n IH]; intros [|c r]; simpl; auto.
Qed.

Lemma split_once_shorter (c : ascii) (sep' s a b : string) :
  split_once (String c sep') s = Some (a, b) ->
  String.length b < String.length s.
Proof.
  revert a b; induction s as [|x r IH]; intros a b.
  - simpl. discriminate.
  - cbn [split_once].
    destruct (prefix (String c sep') (String x r)) eqn:Hp.
    + intros H; inversion H; subst. cbn [String.length drop].
      pose proof (drop_length (String.length sep') r); lia.
    + destruct (split_once (String c sep') r) as [[a' b']|] eqn:Hs;
        [|discriminate].
      intros H; inversion H; subst. specialize (IH _ _ eq_refl).
      cbn [String.length]; lia.
Qed.

Definition inspect {A} (a : A) : {b : A | a = b} := exist _ a eq_refl.

(** [while "\n\n" in buffer: ...]: the payloads yielded, the buffer left,
    and whether the generator returned. *)
Equations? drain (lib : Library) (buffer : string) : list pyval * string * bool
  by wf (String.length buffer) lt :=
  drain lib buffer with inspect (split_once delimiter buffer) := {
    | exist _ (Some (event_data, rest)) _ with handle_record lib event_data := {
        | Stop => ([], rest, true)
        | Emit v => let r := drain lib rest in (v :: fst (fst r), snd (fst r), snd r)
        | Skip => drain lib rest }
    | exist _ None _ => ([], buffer, false) }.
Proof.
  all: eapply split_once_shorter; unfold delimiter, nl in *; simpl in *; eassumption.
Qed.

(** [for chunk in response.iter_text(): buffer += chunk; while ...] *)
Fixpoint feed (lib : Library) (buffer : string) (fragments : list string)
  : list pyval :=
  match fragments with
  | [] => []
  | chunk :: r =>
      let d := drain lib (buffer ++ chunk) in
      fst (fst d) ++ (if snd d then [] else feed lib (snd (fst d)) r)
  end.

Definition parse_openai_streaming_response (lib : Library)
    (fragments : list string) : list pyval :=
  feed lib "" fragments.

(* ===================================================================== *)
(** * types.py: streaming events *)
(* ===================================================================== *)

Record StreamingMessage : Type := {
  sm_id : pyval;
  sm_type : string;
  sm_role : pyval;
  sm_content : list ContentBlockType;
  sm_model : pyval;
  sm_stop_reason : option string;
  sm_stop_sequence : option string;
  sm_usage : option Usage
}.

(** The [delta] dict of a [ContentBlockDelta]: [{"text": c}] or
    [{"input": i}]. *)
Inductive block_delta : Type :=
| TextDelta (text : pyval)
| InputDelta (input : pyval).

(** An event is recorded as it is when it is yielded.  (In Python
    [MessageStart] and [ContentBlockStart] hold references to objects that
    later turns of the loop update; no property below reads an event after
    such an update.) *)
Inductive StreamingEvent : Type :=
| MessageStart (message : StreamingMessage)
| ContentBlockStart (index : nat) (content_block : ContentBlockType)
| ContentBlockDelta (index : nat) (delta : block_delta)
| ContentBlockStop (index : nat)
| MessageDelta (stop_reason : option string) (usage : option Usage)
| MessageStop.

(* ===================================================================== *)
(** * streaming.py: the stream transducer *)
(* ===================================================================== *)

(** The two locals of [transform_openai_stream_to_anthropic].  The same
    block objects are appended to [content_blocks] and to
    [current_message.content]. *)
Record stream_state : Type := {
  current_message : StreamingMessage;
  content_blocks : list ContentBlockType
}.

Definition initial_state : stream_state :=
  {| current_message :=
       {| sm_id := PStr ""; sm_type := "message"; sm_role := PStr "assistant";
          sm_content := []; sm_model := PStr ""; sm_stop_reason := None;
          sm_stop_sequence := None; sm_usage := None |};
     content_blocks := [] |}.

(** A piece of the generator's body: from a state to the new state, the
    events yielded, and how the piece ended.  After [Raise] the state and
    the events reached so far are kept. *)
Definition gen (A : Type) : Type :=
  stream_state -> stream_state * list StreamingEvent * result A.

Definition gret {A} (a : A) : gen A := fun st => (st, [], Ok a).

Definition gbind {A B} (c : gen A) (k : A -> gen B) : gen B :=
  fun st =>
    match c st with
    | (st1, evs1, Ok a) =>
        match k a st1 with
        | (st2, evs2, r) => (st2, evs1 ++ evs2, r)
        end
    | (st1, evs1, Raise e) => (st1, evs1, Raise e)
    end.

Definition lift {A} (r : result A) : gen A := fun st => (st, [], r).
Definition yield (e : StreamingEvent) : gen unit := fun st => (st, [e], Ok tt).
Definition get_state : gen stream_state := fun st => (st, [], Ok st).
Definition modify (f : stream_state -> stream_state) : gen unit :=
  fun st => (f st, [], Ok tt).

Declare Scope gen_scope.
Delimit Scope gen_scope with gen.
Notation "x <- c ;; k" := (gbind c (fun x => k))
  (at level 61, c at next level, right associativity) : gen_scope.
Notation "c ;; k" := (gbind c (fun _ => k))
  (at level 61, right associativity) : gen_scope.

Definition set_message (f : StreamingMessage -> StreamingMessage)
    (st : stream_state) : stream_state :=
  {| current_message := f (current_message st);
     content_blocks := content_blocks st |}.

(** [content_blocks.append(b); current_message.content.append(b)] *)
Definition append_block (b : ContentBlockType) (st : stream_state) : stream_state :=
  {| current_message :=
       let m := current_message st in
       {| sm_id := sm_id m; sm_type := sm_type m; sm_role := sm_role m;
          sm_content := sm_content m ++ [b]; sm_model := sm_model m;
          sm_stop_reason := sm_stop_reason m;
          sm_stop_sequence := sm_stop_sequence m; sm_usage := sm_usage m |};
     content_blocks := content_blocks st ++ [b] |}.

Definition replace_head {A} (x : A) (l : list A) : list A :=
  match l with
  | [] => []
  | _ :: r => x :: r
  end.

(** The object at index 0 of both lists gets a new [text]. *)
Definition set_head_block (b : ContentBlockType) (st : stream_state) : stream_state :=
  {| current_message :=
       let m := current_message st in
       {| sm_id := sm_id m; sm_type := sm_type m; sm_role := sm_role m;
          sm_content := replace_head b (sm_content m); sm_model := sm_model m;
          sm_stop_reason := sm_stop_reason m;
          sm_stop_sequence := sm_stop_sequence m; sm_usage := sm_usage m |};
     content_blocks := replace_head b (content_blocks st) |}.

(** [text += content] on the text of a block: the text of a block of the
    stream is a [str]; adding anything but a [str] to it is a [TypeError]. *)
Definition add_text (text content : pyval) : result pyval :=
  match text, content with
  | PStr a, PStr b => Ok (PStr (a ++ b))
  | _, _ => Raise TypeError
  end.

Open Scope gen_scope.

(** [# Message start] *)
Definition message_start (event delta : pyval) : gen unit :=
  r <- lift (py_get delta "role" PNone) ;;
  if truthy r then
    i <- lift (py_get event "id" (PStr "")) ;;
    modify (set_message (fun m =>
      {| sm_id := i; sm_type := sm_type m; sm_role := sm_role m;
         sm_content := sm_content m; sm_model := sm_model m;
         sm_stop_reason := sm_stop_reason m;
         sm_stop_sequence := sm_stop_sequence m; sm_usage := sm_usage m |})) ;;
    mo <- lift (py_get event "model" (PStr "")) ;;
    modify (set_message (fun m =>
      {| sm_id := sm_id m; sm_type := sm_type m; sm_role := sm_role m;
         sm_content := sm_content m; sm_model := mo;
         sm_stop_reason := sm_stop_reason m;
         sm_stop_sequence := sm_stop_sequence m; sm_usage := sm_usage m |})) ;;
    ro <- lift (py_item delta "role") ;;
    modify (set_message (fun m =>
      {| sm_id := sm_id m; sm_type := sm_type m; sm_role := ro;
         sm_content := sm_content m; sm_model := sm_model m;
         sm_stop_reason := sm_stop_reason m;
         sm_stop_sequence := sm_stop_sequence m; sm_usage := sm_usage m |})) ;;
    st <- get_state ;;
    yield (MessageStart (current_message st))
  else gret tt.

(** [# Content delta] *)
Definition content_delta (delta : pyval) : gen unit :=
  has <- lift (py_in "content" delta) ;;
  c <- (if has then lift (py_item delta "content") else gret PNone) ;;
  if has && truthy c then
    let content := c in
    st <- get_state ;;
    (if nonempty (content_blocks st) then gret tt
     else
       let content_block := Block {| cb_type := "text"; cb_text := PStr "" |} in
       modify (append_block content_block) ;;
       yield (ContentBlockStart 0 content_block)) ;;
    st <- get_state ;;
    match content_blocks st with
    | Block b :: _ =>
        t <- lift (add_text (cb_text b) content) ;;
        modify (set_head_block (Block {| cb_type := cb_type b; cb_text := t |}))
    | Tool _ :: _ => gret tt
    | [] => lift (Raise IndexError)
    end ;;
    yield (ContentBlockDelta 0 (TextDelta content))
  else gret tt.

(** One turn of [for i, tool_call in enumerate(delta["tool_calls"])]. *)
Definition tool_call_delta (lib : Library) (i : nat) (tool_call : pyval)
  : gen unit :=
  f <- lift (py_get tool_call "function" PNone) ;;
  if truthy f then
    let func := f in
    id <- lift (py_get tool_call "id" (PStr "")) ;;
    name <- lift (py_get func "name" (PStr "")) ;;
    a <- lift (py_get func "arguments" PNone) ;;
    input <- (if truthy a then
                a' <- lift (py_get func "arguments" (PStr "{}")) ;;
                lift (py_json_loads lib a')
              else gret (PDict [])) ;;
    let tool_use :=
      {| tu_id := id; tu_name := name; tu_input := input;
         tu_type := "tool_use" |} in
    st <- get_state ;;
    (if (List.length (content_blocks st) <=? i)%nat then
       modify (append_block (Tool tool_use)) ;;
       yield (ContentBlockStart i (Tool tool_use))
     else gret tt) ;;
    yield (ContentBlockDelta i (InputDelta (tu_input tool_use)))
  else gret tt.

Fixpoint tool_call_loop (lib : Library) (i : nat) (calls : list pyval)
  : gen unit :=
  match calls with
  | [] => gret tt
  | c :: r => tool_call_delta lib i c ;; tool_call_loop lib (S i) r
  end.

(** [# Tool calls] *)
Definition tool_call_deltas (lib : Library) (delta : pyval) : gen unit :=
  has <- lift (py_in "tool_calls" delta) ;;
  if has then
    l <- lift (py_item delta "tool_calls") ;;
    calls <- lift (py_iter l) ;;
    tool_call_loop lib 0 calls
  else gret tt.

Fixpoint yield_all (evs : list StreamingEvent) : gen unit :=
  match evs with
  | [] => gret tt
  | e :: r => yield e ;; yield_all r
  end.

(** The table local to the transducer. *)
Definition stop_reason_map : list (string * string) :=
  [ ("stop", "end_turn");
    ("length", "max_tokens");
    ("tool_calls", "tool_use");
    ("function_call", "tool_use");
    ("content_filter", "end_turn") ].

(** [# Finish reason] *)
Definition finish (event choice : pyval) : gen unit :=
  finish_reason <- lift (py_get choice "finish_reason" PNone) ;;
  if truthy finish_reason then
    st <- get_state ;;
    yield_all (map ContentBlockStop (seq 0 (List.length (content_blocks st)))) ;;
    sr <- lift (table_get stop_reason_map finish_reason "end_turn") ;;
    modify (set_message (fun m =>
      {| sm_id := sm_id m; sm_type := sm_type m; sm_role := sm_role m;
         sm_content := sm_content m; sm_model := sm_model m;
         sm_stop_reason := Some sr;
         sm_stop_sequence := sm_stop_sequence m; sm_usage := sm_usage m |})) ;;
    has <- lift (py_in "usage" event) ;;
    (if has then
       usage_data <- lift (py_item event "usage") ;;
       it <- lift (py_get usage_data "prompt_tokens" (PInt 0)) ;;
       ot <- lift (py_get usage_data "completion_tokens" (PInt 0)) ;;
       modify (set_message (fun m =>
         {| sm_id := sm_id m; sm_type := sm_type m; sm_role := sm_role m;
            sm_content := sm_content m; sm_model := sm_model m;
            sm_stop_reason := sm_stop_reason m;
            sm_stop_sequence := sm_stop_sequence m;
            sm_usage := Some {| input_tokens := it; output_tokens := ot |} |}))
     else gret tt) ;;
    st <- get_state ;;
    yield (MessageDelta (sm_stop_reason (current_message st))
                        (sm_usage (current_message st))) ;;
    yield MessageStop
  else gret tt.

(** The clauses of the loop body that come before [# Finish reason]. *)
Definition before_finish (lib : Library) (event delta : pyval) : gen unit :=
  message_start event delta ;;
  content_delta delta ;;
  tool_call_deltas lib delta.

(** The body of [try:] for one element of [openai_events]. *)
Definition process_event (lib : Library) (event : pyval) : gen unit :=
  has <- lift (py_in "choices" event) ;;
  if has then
    cs <- lift (py_item event "choices") ;;
    choice <- lift (py_item0 cs) ;;
    delta <- lift (py_get choice "delta" (PDict [])) ;;
    before_finish lib event delta ;;
    finish event choice
  else gret tt.

Close Scope gen_scope.

(** [for event in openai_events: try: ... except Exception: continue]:
    whatever the outcome of one turn, the loop goes on with the next
    element, from the state that turn left. *)
Fixpoint run_stream (lib : Library) (st : stream_state) (openai_events : list pyval)
  : list StreamingEvent :=
  match openai_events with
  | [] => []
  | event :: r =>
      let o := process_event lib event st in
      snd (fst o) ++ run_stream lib (fst (fst o)) r
  end.

Definition transform_openai_stream_to_anthropic (lib : Library)
    (openai_events : list pyval) : list StreamingEvent :=
  run_stream lib initial_state openai_events.

(* ===================================================================== *)
(** * transformers/request.py: the legacy text extractor *)
(* ===================================================================== *)

(** The loop of [_extract_text_from_content_blocks]: the [text] of every
    block whose [type] is ["text"] and which has a [text]. *)
Fixpoint text_blocks (content_blocks : list pyval) : result (list pyval) :=
  match content_blocks with
  | [] => Ok []
  | block :: r =>
      t <- py_get block "type" PNone ;;
      has <- (if is_str "text" t then py_in "text" block else Ok false) ;;
      here <- (if has then x <- py_item block "text" ;; Ok [x] else Ok []) ;;
      rest <- text_blocks r ;;
      Ok (here ++ rest)
  end.

Definition _extract_text_from_content_blocks (content_blocks : list pyval)
  : result string :=
  parts <- text_blocks content_blocks ;;
  if nonempty parts then py_join nl parts else Ok "".

(* ===================================================================== *)
(** * messages.py: [Messages.create] *)
(* ===================================================================== *)

(** [s.rstrip(ch)] for a single character [ch]. *)
Fixpoint rstrip_char (ch : ascii) (s : string) : string :=
  match s with
  | "" => ""
  | String c r =>
      match rstrip_char ch r with
      | "" => if Ascii.eqb c ch then "" else String c ""
      | r' => String c r'
      end
  end.

Definition slash : ascii := ascii_of_nat 47.

(** What [http_client.post] does with a request: it returns a response,
    whose text [iter_text] gives in fragments, or it raises. *)
Inductive post_result : Type :=
| Responded (response : http_response) (text : list string)
| HTTPError (message : string)
| OtherException (message : string).

(** A [Messages] object.  [post url headers json] stands for
    [http_client.post(url, headers=headers, json=json, timeout=60.0)]. *)
Record Messages : Type := {
  api_key : string;
  base_url : string;
  post : string -> dict -> dict -> post_result
}.

(** [Messages.__init__] *)
Definition Messages_init (key url : string)
    (http_client : string -> dict -> dict -> post_result) : Messages :=
  {| api_key := key; base_url := rstrip_char slash url; post := http_client |}.

Definition request_headers (self : Messages) : dict :=
  [("Authorization", PStr ("Bearer " ++ api_key self));
   ("Content-Type", PStr "application/json")].

Definition request_url (self : Messages) : string :=
  (base_url self ++ "/chat/completions")%string.

(** [map_openai_error_to_anthropic] reads the body of an error response
    with [in], indexing and [get]; [response.json()] need not be an
    object, and on a body of another type these can raise. *)
Definition error_message_of_body (lib : Library) (error_data : pyval)
  : result pyval :=
  let message := PStr "Unknown error" in
  if truthy error_data then
    has <- py_in "error" error_data ;;
    if has then
      e <- py_item error_data "error" ;;
      match e with
      | PDict _ => py_get e "message" message
      | _ => Ok (PStr (py_str lib e))
      end
    else
      has <- py_in "message" error_data ;;
      if has then py_item error_data "message" else Ok message
  else Ok message.

(** [map_openai_error_to_anthropic(response.status_code, error_data,
    response)], with [error_data] what [response.json()] returned, or
    [None] when it raised. *)
Definition error_of_response (lib : Library) (response : http_response)
  : result api_error :=
  message <- error_message_of_body lib
               (match json_body response with Some v => v | None => PNone end) ;;
  Ok {| err_class := error_class_of_status (status_code response);
        err_message := message;
        err_request := None;
        err_response := Some response |}.

(** [map_openai_error_to_anthropic(500, {"error": {"message": str(e)}})] *)
Definition internal_server_error (lib : Library) (text : string) : api_error :=
  map_openai_error_to_anthropic lib 500
    (Some [("error", PDict [("message", PStr text)])]) None.

(** How a call of [create] ends.  [RaisedWrapped e] is the
    [InternalServerError] that the handler [except Exception] builds from
    an exception of the kind [e] raised inside the [try] block; its
    message is the text of that exception.  [Propagated e] is an exception
    of the request mapper, which runs before the [try] block. *)
Inductive create_result : Type :=
| Returned (message : Message)
| Streaming (stream_events : list StreamingEvent)
| RaisedAPIError (error : api_error)
| RaisedWrapped (cause : exn)
| Propagated (e : exn).

(** [transform_openai_to_anthropic(response.json())] *)
Definition message_of_response (lib : Library) (uuid4_hex : string)
    (response : http_response) : result Message :=
  match json_body response with
  | None => Raise JSONDecodeError
  | Some (PDict openai_response) =>
      transform_openai_to_anthropic lib uuid4_hex openai_response
  | Some _ => Raise AttributeError
  end.

(** The [try] block of [create] and its handlers.  Logging is left out:
    it changes no value. *)
Definition send (lib : Library) (uuid4_hex : string) (self : Messages)
    (stream : pyval) (openai_params : dict) : create_result :=
  match post self (request_url self) (request_headers self) openai_params with
  | Responded response text =>
      if negb (status_code response =? 200)%Z then
        match error_of_response lib response with
        | Ok error => RaisedAPIError error
        | Raise e => RaisedWrapped e
        end
      else if truthy stream then
        Streaming (transform_openai_stream_to_anthropic lib
                     (parse_openai_streaming_response lib text))
      else
        match message_of_response lib uuid4_hex response with
        | Ok anthropic_response => Returned anthropic_response
        | Raise e => RaisedWrapped e
        end
  | HTTPError message => RaisedAPIError (internal_server_error lib message)
  | OtherException message => RaisedAPIError (internal_server_error lib message)
  end.

Definition create (lib : Library) (uuid4_hex : string) (self : Messages)
    (model messages max_tokens temperature top_p stop_sequences stream
     system tools tool_choice : pyval) (kwargs : dict) : create_result :=
  let anthropic_params :=
    create_params model messages max_tokens temperature top_p stop_sequences
      stream system tools tool_choice kwargs in
  match transform_anthropic_to_openai lib anthropic_params with
  | Ok openai_params => send lib uuid4_hex self stream openai_params
  | Raise e => Propagated e
  end.

(* ===================================================================== *)
(** * utils.py *)
(* ===================================================================== *)

(** [str.lower] belongs to Python: the functions below take it as the
    parameter [lower]. *)
Definition masked : pyval := PStr "***".

(** The dict comprehension of [log_request]. *)
Definition sanitized_headers (lower : string -> string) (headers : dict) : dict :=
  fold_left
    (fun acc kv =>
       Dict.set (fst kv)
         (if contains "authorization" (lower (fst kv)) then masked else snd kv)
         acc)
    headers [].

Definition sensitive_words : list string :=
  ["api_key"; "token"; "authorization"; "password"].

Definition is_sensitive (lower : string -> string) (key : string) : bool :=
  existsb (fun sensitive => contains sensitive (lower key)) sensitive_words.

Fixpoint sanitize_for_logging (lower : string -> string) (data : pyval) : pyval :=
  match data with
  | PDict d =>
      PDict
        (fold_left
           (fun sanitized kv =>
              if is_sensitive lower (fst kv) then Dict.set (fst kv) masked sanitized
              else match snd kv with
                   | PDict _ | PList _ =>
                       Dict.set (fst kv) (sanitize_for_logging lower (snd kv))
                         sanitized
                   | value => Dict.set (fst kv) value sanitized
                   end)
           d [])
  | PList l => PList (map (sanitize_for_logging lower) l)
  | _ => data
  end.

(* ===================================================================== *)
(** * client.py *)
(* ===================================================================== *)

(** [AnthropicClient.__init__] with an [http_client] given: the client
    strips the base URL and hands it to its [Messages] object. *)
Definition AnthropicClient_init (key url : string)
    (http_client : string -> dict -> dict -> post_result) : Messages :=
  Messages_init key (rstrip_char slash url) http_client.

(* ===================================================================== *)
(** * A reference instance of the library *)
(* ===================================================================== *)

(** A decoder, an encoder and a [repr] to evaluate the embedding on
    concrete inputs.  A [string] stands for Python text in UTF-8.  The
    decoder follows the grammar [json.loads] accepts (RFC 8259 plus
    [NaN], [Infinity], [-Infinity]); the printers are exact on values
    whose floats have at most 15 significant digits. *)
Module Ref.

Definition code (c : ascii) : N := N_of_ascii c.
Definition chr (n : N) : string := String (ascii_of_N n) "".

Definition is_ws (c : ascii) : bool :=
  let n := code c in ((n =? 32) || (n =? 9) || (n =? 10) || (n =? 13))%N.

Fixpoint skip_ws (s : string) : string :=
  match s with
  | String c r => if is_ws c then skip_ws r else s
  | "" => ""
  end.

Definition is_digit (c : ascii) : bool :=
  ((48 <=? code c) && (code c <=? 57))%N.

(** The longest prefix of digits, and the rest. *)
Fixpoint span_digits (s : string) : string * string :=
  match s with
  | String c r =>
      if is_digit c then let (d, t) := span_digits r in (String c d, t)
      else ("", s)
  | "" => ("", "")
  end.

Fixpoint digits_value (acc : Z) (s : string) : Z :=
  match s with
  | String c r => digits_value (10 * acc + Z.of_N (code c - 48))%Z r
  | "" => acc
  end.

Definition signed (negative : bool) (z : Z) : Z :=
  if negative then (- z)%Z else z.

(** A number at the head of [s]: an optional minus sign, then 0 or a
    digit string with no leading 0, then an optional fraction (a point and
    digits) and an optional exponent (e or E, an optional sign, digits). *)
Definition number (s : string) : option (pyval * string) :=
  let (neg, s1) :=
    match s with
    | String "-" r => (true, r)
    | _ => (false, s)
    end in
  let int_part :=
    match s1 with
    | String "0" r => Some ("0", r)
    | String c _ => if is_digit c then Some (span_digits s1) else None
    | "" => None
    end in
  match int_part with
  | None => None
  | Some (ds, r) =>
      let (fs, r1) :=
        match r with
        | String "." t =>
            let (f, t') := span_digits t in
            if String.eqb f "" then ("", r) else (f, t')
        | _ => ("", r)
        end in
      let (ex, r2) :=
        match r1 with
        | String c t =>
            if ((code c =? 101) || (code c =? 69))%N then
              let (eneg, t1) :=
                match t with
                | String "-" u => (true, u)
                | String "+" u => (false, u)
                | _ => (false, t)
                end in
              let (e, t2) := span_digits t1 in
              if String.eqb e "" then (None, r1)
              else (Some (signed eneg (digits_value 0 e)), t2)
            else (None, r1)
        | "" => (None, r1)
        end in
      match fs, ex with
      | "", None => Some (PInt (signed neg (digits_value 0 ds)), r2)
      | _, _ =>
          let e := match ex with Some e => e | None => 0%Z end in
          Some (PFloat (FDec (signed neg (digits_value 0 (ds ++ fs)%string))
                             (e - Z.of_nat (String.length fs))), r2)
      end
  end.

Definition hex_value (c : ascii) : option N :=
  let n := code c in
  if ((48 <=? n) && (n <=? 57))%N then Some (n - 48)%N
  else if ((97 <=? n) && (n <=? 102))%N then Some (n - 87)%N
  else if ((65 <=? n) && (n <=? 70))%N then Some (n - 55)%N
  else None.

(** Four hex digits at the head of [s]. *)
Definition hex4 (s : string) : option (N * string) :=
  match s with
  | String a (String b (String c (String d r))) =>
      match hex_value a, hex_value b, hex_value c, hex_value d with
      | Some x, Some y, Some z, Some w => Some ((((x * 16 + y) * 16 + z) * 16 + w)%N, r)
      | _, _, _, _ => None
      end
  | _ => None
  end.

Definition utf8 (cp : N) : string :=
  (if cp <? 128 then chr cp
   else if cp <? 2048 then (chr (192 + cp / 64) ++ chr (128 + cp mod 64))%string
   else if cp <? 65536 then
     (chr (224 + cp / 4096) ++ chr (128 + (cp / 64) mod 64)
        ++ chr (128 + cp mod 64))%string
   else
     (chr (240 + cp / 262144) ++ chr (128 + (cp / 4096) mod 64)
        ++ chr (128 + (cp / 64) mod 64) ++ chr (128 + cp mod 64))%string)%N.

(** The text of a string literal after its opening quote, up to the
    closing quote.  [fuel] is at least the length of [s]. *)
Fixpoint scan_string (fuel : nat) (s : string) : option (string * string) :=
  match fuel with
  | O => None
  | S fuel' =>
      match s with
      | "" => None
      | String c r =>
          if (code c =? 34)%N then Some ("", r)
          else if (code c <? 32)%N then None
          else if (code c =? 92)%N then
            match r with
            | "" => None
            | String e t =>
                let simple (x : string) :=
                  match scan_string fuel' t with
                  | Some (u, v) => Some ((x ++ u)%string, v)
                  | None => None
                  end in
                let n := code e in
                if (n =? 34)%N then simple (chr 34)
                else if (n =? 92)%N then simple (chr 92)
                else if (n =? 47)%N then simple (chr 47)
                else if (n =? 98)%N then simple (chr 8)
                else if (n =? 102)%N then simple (chr 12)
                else if (n =? 110)%N then simple (chr 10)
                else if (n =? 114)%N then simple (chr 13)
                else if (n =? 116)%N then simple (chr 9)
                else if (n =? 117)%N then
                  match hex4 t with
                  | None => None
                  | Some (hi, t1) =>
                      let pair :=
                        if ((55296 <=? hi) && (hi <=? 56319))%N then
                          match t1 with
                          | String b (String u t2) =>
                              if ((code b =? 92) && (code u =? 117))%N then
                                match hex4 t2 with
                                | Some (lo, t3) =>
                                    if ((56320 <=? lo) && (lo <=? 57343))%N
                                    then Some ((65536 + (hi - 55296) * 1024 + (lo - 56320))%N, t3)
                                    else None
                                | None => None
                                end
                              else None
                          | _ => None
                          end
                        else None in
                      let (cp, t') := match pair with Some p => p | None => (hi, t1) end in
                      match scan_string fuel' t' with
                      | Some (u, v) => Some ((utf8 cp ++ u)%string, v)
                      | None => None
                      end
                  end
                else None
            end
          else
            match scan_string fuel' r with
            | Some (u, v) => Some (String c u, v)
            | None => None
            end
      end
  end.

Definition literal (s : string) : option (pyval * string) :=
  if prefix "null" s then Some (PNone, drop 4 s)
  else if prefix "true" s then Some (PBool true, drop 4 s)
  else if prefix "false" s then Some (PBool false, drop 5 s)
  else match number s with
       | Some r => Some r
       | None =>
           if prefix "NaN" s then Some (PFloat FNan, drop 3 s)
           else if prefix "Infinity" s then Some (PFloat (FInf false), drop 8 s)
           else if prefix "-Infinity" s then Some (PFloat (FInf true), drop 9 s)
           else None
       end.

(** One JSON value at the head of [s] (no leading blank), and the rest. *)
Fixpoint value (fuel : nat) (s : string) : option (pyval * string) :=
  match fuel with
  | O => None
  | S f =>
      match s with
      | "" => None
      | String c r =>
          if (code c =? 34)%N then
            match scan_string (String.length s) r with
            | Some (t, r') => Some (PStr t, r')
            | None => None
            end
          else if (code c =? 123)%N then
            match skip_ws r with
            | String "}" r' => Some (PDict [], r')
            | r1 => members f r1 []
            end
          else if (code c =? 91)%N then
            match skip_ws r with
            | String "]" r' => Some (PList [], r')
            | r1 => elements f r1 []
            end
          else literal s
      end
  end
with elements (fuel : nat) (s : string) (acc : list pyval)
  : option (pyval * string) :=
  match fuel with
  | O => None
  | S f =>
      match value f s with
      | Some (v, r) =>
          match skip_ws r with
          | String "," r' => elements f (skip_ws r') (v :: acc)
          | String "]" r' => Some (PList (rev (v :: acc)), r')
          | _ => None
          end
      | None => None
      end
  end
with members (fuel : nat) (s : string) (acc : dict)
  : option (pyval * string) :=
  match fuel with
  | O => None
  | S f =>
      match s with
      | String q r =>
          if (code q =? 34)%N then
            match scan_string (String.length s) r with
            | Some (k, r1) =>
                match skip_ws r1 with
                | String ":" r2 =>
                    match value f (skip_ws r2) with
                    | Some (v, r3) =>
                        match skip_ws r3 with
                        | String "," r4 => members f (skip_ws r4) (Dict.set k v acc)
                        | String "}" r4 => Some (PDict (Dict.set k v acc), r4)
                        | _ => None
                        end
                    | None => None
                    end
                | _ => None
                end
            | None => None
            end
          else None
      | "" => None
      end
  end.

(** [json.loads]: blanks, one value, blanks, end of text. *)
Definition loads (s : string) : option pyval :=
  match value (2 * String.length s + 2) (skip_ws s) with
  | Some (v, r) => if String.eqb (skip_ws r) "" then Some v else None
  | None => None
  end.

Definition Z_to_string (z : Z) : string := NilZero.string_of_int (Z.to_int z).

Fixpoint repeat_string (x : string) (n : nat) : string :=
  match n with
  | O => ""
  | S n' => (x ++ repeat_string x n')%string
  end.

Fixpoint take (n : nat) (s : string) : string :=
  match n, s with
  | S n', String c r => String c (take n' r)
  | _, _ => ""
  end.

(** [m] without its trailing zeros, and how many were dropped. *)
Fixpoint strip_zeros (fuel : nat) (m : Z) (dropped : Z) : Z * Z :=
  match fuel with
  | O => (m, dropped)
  | S f =>
      if ((m mod 10 =? 0) && negb (m =? 0))%Z
      then strip_zeros f (m / 10)%Z (dropped + 1)%Z
      else (m, dropped)
  end.

(** [repr] of the float [m * 10^e], in the short form of [float.__repr__]. *)
Definition float_repr (f : pyfloat) : string :=
  match f with
  | FNan => "nan"
  | FInf negative => if negative then "-inf" else "inf"
  | FDec m e =>
      if float_is_zero f then "0.0"
      else
        let sign := if (m <? 0)%Z then "-" else "" in
        let (m', k) := strip_zeros (String.length (Z_to_string m)) (Z.abs m) 0 in
        let ds := Z_to_string m' in
        let n := Z.of_nat (String.length ds) in
        let decpt := (n + e + k)%Z in
        if (309 <? decpt)%Z then (sign ++ "inf")%string
        else if ((-4 <? decpt) && (decpt <=? 16))%Z then
          if (decpt <=? 0)%Z then
            (sign ++ "0." ++ repeat_string "0" (Z.to_nat (- decpt)) ++ ds)%string
          else if (n <=? decpt)%Z then
            (sign ++ ds ++ repeat_string "0" (Z.to_nat (decpt - n)) ++ ".0")%string
          else
            (sign ++ take (Z.to_nat decpt) ds ++ "." ++ drop (Z.to_nat decpt) ds)%string
        else
          let x := (decpt - 1)%Z in
          let xs := Z_to_string (Z.abs x) in
          (sign ++ take 1 ds
             ++ (if (1 <? n)%Z then "." ++ drop 1 ds else "")
             ++ "e" ++ (if (x <? 0)%Z then "-" else "+")
             ++ (if (String.length xs <? 2)%nat then "0" ++ xs else xs))%string
  end.

Definition hex_digit (n : N) : string :=
  if (n <? 10)%N then chr (48 + n) else chr (87 + n).

Definition hex2 (n : N) : string :=
  (hex_digit (n / 16) ++ hex_digit (n mod 16))%string.

Definition hex4_of (n : N) : string :=
  (hex2 (n / 256) ++ hex2 (n mod 256))%string.

(** The code points of UTF-8 text; a byte that starts no well-formed
    sequence stands for itself. *)
Fixpoint code_points (fuel : nat) (s : string) : list N :=
  match fuel with
  | O => []
  | S f =>
      match s with
      | "" => []
      | String a r =>
          let x := code a in
          let cont (c : ascii) := ((128 <=? code c) && (code c <? 192))%N in
          match r with
          | String b r1 =>
              if ((192 <=? x) && (x <? 224))%N && cont b then
                ((x - 192) * 64 + (code b - 128))%N :: code_points f r1
              else
                match r1 with
                | String c r2 =>
                    if ((224 <=? x) && (x <? 240))%N && cont b && cont c then
                      (((x - 224) * 64 + (code b - 128)) * 64 + (code c - 128))%N
                        :: code_points f r2
                    else
                      match r2 with
                      | String d r3 =>
                          if ((240 <=? x) && (x <? 248))%N && cont b && cont c && cont d
                          then
                            ((((x - 240) * 64 + (code b - 128)) * 64
                                + (code c - 128)) * 64 + (code d - 128))%N
                              :: code_points f r3
                          else x :: code_points f r
                      | "" => x :: code_points f r
                      end
                | "" => x :: code_points f r
                end
          | "" => [x]
          end
      end
  end.

(** [json.dumps] of one code point of a string ([ensure_ascii=True]). *)
Definition dumps_char (cp : N) : string :=
  (if cp =? 34 then chr 92 ++ chr 34
   else if cp =? 92 then chr 92 ++ chr 92
   else if cp =? 10 then chr 92 ++ "n"
   else if cp =? 13 then chr 92 ++ "r"
   else if cp =? 9 then chr 92 ++ "t"
   else if cp =? 8 then chr 92 ++ "b"
   else if cp =? 12 then chr 92 ++ "f"
   else if (32 <=? cp) && (cp <=? 126) then chr cp
   else if cp <? 65536 then chr 92 ++ "u" ++ hex4_of cp
   else
     let v := cp - 65536 in
     chr 92 ++ "u" ++ hex4_of (55296 + v / 1024)
       ++ chr 92 ++ "u" ++ hex4_of (56320 + v mod 1024))%N%string.

Definition dumps_string (s : string) : string :=
  (chr 34 ++ String.concat "" (map dumps_char (code_points (String.length s) s))
     ++ chr 34)%string.

Fixpoint dumps (v : pyval) : string :=
  match v with
  | PNone => "null"
  | PBool b => if b then "true" else "false"
  | PInt n => Z_to_string n
  | PFloat FNan => "NaN"
  | PFloat (FInf negative) => if negative then "-Infinity" else "Infinity"
  | PFloat f => float_repr f
  | PStr s => dumps_string s
  | PList l => ("[" ++ join ", " (map dumps l) ++ "]")%string
  | PDict d =>
      ("{" ++ join ", "
                (map (fun kv : string * pyval =>
                        let (k, x) := kv in (dumps_string k ++ ": " ++ dumps x)%string) d)
           ++ "}")%string
  end.

Definition repr_char (quote : N) (c : ascii) : string :=
  let n := code c in
  (if n =? 92 then chr 92 ++ chr 92
   else if n =? quote then chr 92 ++ chr quote
   else if n =? 10 then chr 92 ++ "n"
   else if n =? 13 then chr 92 ++ "r"
   else if n =? 9 then chr 92 ++ "t"
   else if (n <? 32) || (n =? 127) then chr 92 ++ "x" ++ hex2 n
   else chr n)%N%string.

Fixpoint repr_chars (quote : N) (s : string) : string :=
  match s with
  | "" => ""
  | String c r => (repr_char quote c ++ repr_chars quote r)%string
  end.

(** [repr] of a [str]: single quotes, unless the text has a single quote
    and no double quote. *)
Definition repr_string (s : string) : string :=
  let quote := if contains (chr 39) s && negb (contains (chr 34) s) then 34%N else 39%N in
  (chr quote ++ repr_chars quote s ++ chr quote)%string.

Fixpoint repr (v : pyval) : string :=
  match v with
  | PNone => "None"
  | PBool b => if b then "True" else "False"
  | PInt n => Z_to_string n
  | PFloat f => float_repr f
  | PStr s => repr_string s
  | PList l => ("[" ++ join ", " (map repr l) ++ "]")%string
  | PDict d =>
      ("{" ++ join ", "
                (map (fun kv : string * pyval =>
                        let (k, x) := kv in (repr_string k ++ ": " ++ repr x)%string) d)
           ++ "}")%string
  end.

Definition lib : Library :=
  {| json_loads := loads; json_dumps := dumps; py_repr := repr |}.


End Ref.

(* ===================================================================== *)
(** * The vocabulary of the statements, and example inputs *)
(* ===================================================================== *)

(** ** Response mapper *)

(** [choice.get("finish_reason")] of the first choice of a response. *)
Definition response_finish_reason (openai_response : dict) : pyval :=
  match first_choice openai_response with
  | Ok (PDict choice) => Dict.get_default "finish_reason" PNone choice
  | _ => PNone
  end.

(** The response of the repository's own test of the table. *)
Definition finish_reason_response (reason : pyval) : dict :=
  [("id", PStr "test");
   ("choices", PList [PDict [("finish_reason", reason);
                             ("message", PDict [("content", PStr "test")])]]);
   ("usage", PDict [("prompt_tokens", PInt 1); ("completion_tokens", PInt 1);
                    ("total_tokens", PInt 2)])].

(** ** Error mapper *)

Definition teapot_body : dict :=
  [("error", PDict [("message", PStr "teapot")])].

(** ** Request mapper *)

(** The keys a target request can have. *)
Definition openai_param_keys : list string :=
  ["model"; "messages"; "max_tokens"; "temperature"; "top_p"; "stop";
   "stream"; "tools"; "tool_choice"].

(** The target request before its [tools] and [tool_choice] entries. *)
Definition sampling_params (params : dict) (model : pyval) (messages : list pyval)
  : dict :=
  copy_key "stream" "stream" params
    (copy_key "stop_sequences" "stop" params
       (copy_key "top_p" "top_p" params
          (copy_key "temperature" "temperature" params
             (copy_key "max_tokens" "max_tokens" params
                (Dict.set "messages" (PList messages)
                   (Dict.set "model" model [])))))).

(** A call of [Messages.create] with two extra keyword arguments. *)
Definition create_params_example : dict :=
  create_params (PStr "gpt-3.5-turbo")
    (PList [PDict [("role", PStr "user"); ("content", PStr "Hello")]])
    (PInt 100) PNone PNone PNone PNone PNone PNone PNone
    [("user", PStr "u-1"); ("seed", PInt 7)].

Definition empty_tool_choice_request : dict :=
  [("model", PStr "m");
   ("messages", PList [PDict [("role", PStr "user"); ("content", PStr "Hello")]]);
   ("tool_choice", PStr "")].

Definition tool_choice_request : dict :=
  [("model", PStr "m");
   ("messages", PList [PDict [("role", PStr "user"); ("content", PStr "Hello")]]);
   ("tool_choice", PDict [("type", PStr "tool"); ("name", PStr "get_weather")])].

Definition tool_choice_target : dict :=
  [("model", PStr "m");
   ("messages", PList [PDict [("role", PStr "user"); ("content", PStr "Hello")]]);
   ("tool_choice",
    PDict [("type", PStr "function");
           ("function", PDict [("name", PStr "get_weather")])])].

(** ** Response mapper: the message returned *)

(** The shape of a ChatCompletion response, as far as the mapper reads it:
    [choices] is absent or falsy, or a list whose first element is an
    object; its [message] is absent or an object; [tool_calls] is absent or
    falsy, or a list of objects whose [function] is absent or falsy, or an
    object with [arguments] absent or a string; [finish_reason] is
    hashable; [usage] is absent or an object. *)
Definition function_ok (f : pyval) : bool :=
  negb (truthy f) ||
  match f with
  | PDict fd =>
      match Dict.get "arguments" fd with
      | None | Some (PStr _) => true
      | Some _ => false
      end
  | _ => false
  end.

Definition tool_call_ok (tool_call : pyval) : bool :=
  match tool_call with
  | PDict d => function_ok (Dict.get_default "function" PNone d)
  | _ => false
  end.

Definition tool_calls_ok (v : pyval) : bool :=
  negb (truthy v) ||
  match v with
  | PList l => forallb tool_call_ok l
  | _ => false
  end.

Definition message_ok (message : pyval) : bool :=
  match message with
  | PDict d => tool_calls_ok (Dict.get_default "tool_calls" PNone d)
  | _ => false
  end.

Definition choice_ok (choice : pyval) : bool :=
  match choice with
  | PDict d =>
      message_ok (Dict.get_default "message" (PDict []) d)
      && hashable (Dict.get_default "finish_reason" PNone d)
  | _ => false
  end.

Definition response_shape_ok (openai_response : dict) : bool :=
  (let cs := Dict.get_default "choices" PNone openai_response in
   negb (truthy cs) ||
   match cs with
   | PList (c :: _) => choice_ok c
   | _ => false
   end)
  && match Dict.get_default "usage" (PDict []) openai_response with
     | PDict _ => true
     | _ => false
     end.

(** [choice.get("message", {})] of the first choice. *)
Definition response_message (openai_response : dict) : pyval :=
  match first_choice openai_response with
  | Ok (PDict choice) => Dict.get_default "message" (PDict []) choice
  | _ => PDict []
  end.

(** The repository's test [test_transform_openai_to_anthropic_empty_response]. *)
Definition empty_response : dict := [("choices", PList []); ("usage", PDict [])].

(** ** Request mapper: tool results *)




(** A block the loop can take: an object whose [text], when it is a text
    block, is a string. *)
Definition block_ok (block : pyval) : bool :=
  match block with
  | PDict b =>
      if is_str "text" (Dict.get_default "type" PNone b) && Dict.has "text" b
      then match Dict.get_default "text" PNone b with PStr _ => true | _ => false end
      else true
  | _ => false
  end.

Definition all_str (l : list pyval) : bool :=
  forallb (fun v => match v with PStr _ => true | _ => false end) l.



(** A message with text, a tool call and two tool results around it. *)
Definition mixed_blocks : list pyval :=
  [PDict [("type", PStr "tool_result"); ("tool_use_id", PStr "t1");
          ("content", PStr "4")];
   PDict [("type", PStr "text"); ("text", PStr "and now")];
   PDict [("type", PStr "tool_use"); ("id", PStr "t2"); ("name", PStr "add");
          ("input", PDict [("a", PInt 1)])];
   PDict [("type", PStr "tool_result"); ("tool_use_id", PStr "t0")]].



(** ** SSE framer *)

(** The complete records of a text, in the words of the specification: a
    record is the text before an occurrence of the blank-line delimiter,
    read from the left; what follows the last delimiter is the remainder.
    [cur] is the part of the current record already read. *)
Fixpoint records_from (cur s : string) : list string * string :=
  match s with
  | "" => ([], cur)
  | String c1 t =>
      match t with
      | String c2 r =>
          if Ascii.eqb c1 nl_char && Ascii.eqb c2 nl_char
          then let rr := records_from "" r in (cur :: fst rr, snd rr)
          else records_from (cur ++ String c1 "") t
      | "" => ([], (cur ++ String c1 "")%string)
      end
  end.

Definition complete_records (s : string) : list string := fst (records_from "" s).
Definition remainder (s : string) : string := snd (records_from "" s).

(** The text of all fragments. *)
Definition joined (fragments : list string) : string :=
  fold_right String.append "" fragments.

(** A record read in the words of the claim, without the parser of the
    code.  [cut_at_colon s] is the text before and the text after the
    first colon of [s]. *)
Fixpoint cut_at_colon (s : string) : option (string * string) :=
  match s with
  | "" => None
  | String c r =>
      if Ascii.eqb c ":" then Some ("", r)
      else match cut_at_colon r with
           | Some (k, v) => Some (String c k, v)
           | None => None
           end
  end.

(** The field of a line: the line is stripped; an empty line and a line
    that begins with a colon have none; otherwise the name is the text
    before the first colon and the value the text after it, both
    stripped, and a line with no colon is a name with an empty value. *)
Definition line_field (line : string) : option (string * string) :=
  match strip line with
  | "" => None
  | String c r =>
      if Ascii.eqb c ":" then None
      else match cut_at_colon (String c r) with
           | Some (k, v) => Some (strip k, strip v)
           | None => Some (String c r, "")
           end
  end.

(** The values of the fields with the given name, in the order of the
    lines. *)
Fixpoint field_values (name : string) (lines : list string) : list string :=
  match lines with
  | [] => []
  | l :: r =>
      match line_field l with
      | Some (k, v) =>
          if String.eqb k name then v :: field_values name r
          else field_values name r
      | None => field_values name r
      end
  end.

(** The payload of a record: its [data] values joined by newlines. *)
Definition data_payload (record : string) : option string :=
  match field_values "data" (split_lines record) with
  | [] => None
  | values => Some (join nl values)
  end.

(** The value of the last [event] field of a record. *)
Definition event_field (record : string) : option string :=
  last (map Some (field_values "event" (split_lines record))) None.

(** A payload decoded: the JSON value, or the text itself when it is not
    JSON. *)
Definition decode_payload (lib : Library) (data : string) : pyval :=
  match json_loads lib data with
  | Some v => v
  | None => PStr data
  end.

(** The claim as it is stated: the sentinel stops the stream, any other
    payload is yielded decoded, a record with no payload yields nothing. *)
Definition spec_action (lib : Library) (record : string) : record_action :=
  match data_payload record with
  | Some d => if String.eqb d "[DONE]" then Stop else Emit (decode_payload lib d)
  | None => Skip
  end.

(** A record that ends the stream: its payload is the sentinel, or its
    last [event] field is [done]. *)
Definition is_stop_record (record : string) : bool :=
  match data_payload record with
  | Some d => String.eqb d "[DONE]"
  | None => false
  end
  || match event_field record with
     | Some e => String.eqb e "done"
     | None => false
     end.

(** The amended claim: a stop record ends the stream and yields nothing;
    any other record yields its payload decoded, if it has one. *)
Definition amended_action (lib : Library) (record : string) : record_action :=
  if is_stop_record record then Stop
  else match data_payload record with
       | Some d => Emit (decode_payload lib d)
       | None => Skip
       end.

(** The payloads of a list of records, up to the first [Stop]; and whether
    there was one. *)
Fixpoint walk (action : string -> record_action) (records : list string)
  : list pyval * bool :=
  match records with
  | [] => ([], false)
  | r :: rest =>
      match action r with
      | Stop => ([], true)
      | Emit v => let w := walk action rest in (v :: fst w, snd w)
      | Skip => walk action rest
      end
  end.

Definition spec_events (lib : Library) (records : list string) : list pyval :=
  fst (walk (spec_action lib) records).

Definition amended_events (lib : Library) (records : list string) : list pyval :=
  fst (walk (amended_action lib) records).

(** The records before the first one whose payload is the sentinel. *)
Fixpoint before_sentinel (records : list string) : list string :=
  match records with
  | [] => []
  | r :: rest =>
      match data_payload r with
      | Some d =>
          if String.eqb d "[DONE]" then [] else r :: before_sentinel rest
      | None => r :: before_sentinel rest
      end
  end.

(** The last [event] field of the record, if it has one, is not [done]. *)
Definition no_done_event (record : string) : bool :=
  match event_field record with
  | Some e => negb (String.eqb e "done")
  | None => true
  end.

(** A line that holds only white space, or whose first character after
    white space is a colon. *)
Definition blank_or_comment (line : string) : bool :=
  match lstrip line with
  | "" => true
  | String c _ => Ascii.eqb c ":"
  end.

(** U+00A0 and U+2003, two white-space characters outside ASCII. *)
Definition nbsp : string :=
  String (ascii_of_nat 194) (String (ascii_of_nat 160) "").

Definition em_space : string :=
  String (ascii_of_nat 226)
    (String (ascii_of_nat 128) (String (ascii_of_nat 131) "")).

Definition done_header_stream : list string :=
  [("event: done" ++ nl ++ "data: 1" ++ nl ++ nl ++ "data: 2" ++ nl ++ nl)%string].

(** A stream cut across the delimiters and inside the sentinel, with a
    no-break space after the sentinel, text after it and an unfinished
    record at the end. *)
Definition ragged_stream : list string :=
  [("data: 1" ++ nl)%string;
   (nl ++ ": ping" ++ nl ++ nl ++ "data: {x" ++ nl ++ nl ++ "data: [DO")%string;
   ("NE]" ++ nbsp ++ nl)%string;
   (nl ++ "data: 3" ++ nl ++ nl ++ "data: 4")%string].

(** ** Stream transducer *)

(** The events and the final state of a piece of the generator. *)
Definition events {A} (o : stream_state * list StreamingEvent * result A)
  : list StreamingEvent := snd (fst o).
Definition state_of {A} (o : stream_state * list StreamingEvent * result A)
  : stream_state := fst (fst o).
Definition outcome {A} (o : stream_state * list StreamingEvent * result A)
  : result A := snd o.

Definition is_message_start (e : StreamingEvent) : bool :=
  match e with MessageStart _ => true | _ => false end.

Definition is_message_stop (e : StreamingEvent) : bool :=
  match e with MessageStop => true | _ => false end.

(** The choice and the delta that the loop body reads from a chunk, when
    it gets that far. *)
Definition chunk_choice (event : pyval) : option pyval :=
  match py_in "choices" event with
  | Ok true =>
      match rbind (py_item event "choices") py_item0 with
      | Ok c => Some c
      | Raise _ => None
      end
  | _ => None
  end.

Definition chunk_delta (event : pyval) : option pyval :=
  match chunk_choice event with
  | Some c =>
      match py_get c "delta" (PDict []) with
      | Ok d => Some d
      | Raise _ => None
      end
  | None => None
  end.

(** The chunk has a delta with a truthy [role]. *)
Definition carries_role (event : pyval) : bool :=
  match chunk_delta event with
  | Some d =>
      match py_get d "role" PNone with
      | Ok r => truthy r
      | Raise _ => false
      end
  | None => false
  end.


(** The state in which the loop is after the given chunks. *)
Fixpoint run_state (lib : Library) (st : stream_state) (openai_events : list pyval)
  : stream_state :=
  match openai_events with
  | [] => st
  | event :: r => run_state lib (state_of (process_event lib event st)) r
  end.




(** The chunks of the repository's streaming tests. *)
Definition role_chunk : pyval :=
  PDict [("id", PStr "chatcmpl-123");
         ("choices", PList [PDict [("delta", PDict [("role", PStr "assistant")])]])].

Definition text_chunk (text : string) : pyval :=
  PDict [("id", PStr "chatcmpl-123");
         ("choices", PList [PDict [("delta", PDict [("content", PStr text)])]])].

Definition finish_chunk_dict : dict :=
  [("id", PStr "chatcmpl-123");
   ("choices", PList [PDict [("finish_reason", PStr "stop")]]);
   ("usage", PDict [("prompt_tokens", PInt 3); ("completion_tokens", PInt 2)])].

Definition finish_chunk : pyval := PDict finish_chunk_dict.

Definition started_message : StreamingMessage :=
  {| sm_id := PStr "chatcmpl-123"; sm_type := "message";
     sm_role := PStr "assistant"; sm_content := []; sm_model := PStr "";
     sm_stop_reason := None; sm_stop_sequence := None; sm_usage := None |}.

Definition empty_text_block : ContentBlockType :=
  Block {| cb_type := "text"; cb_text := PStr "" |}.

(** ** Tool-call arguments that are not JSON *)

Definition bad_arguments_call : pyval :=
  PDict [("id", PStr "call_1");
         ("function", PDict [("name", PStr "get_weather");
                             ("arguments", PStr "{bad json")])].

Definition bad_arguments_response : dict :=
  [("id", PStr "chatcmpl-1");
   ("choices",
    PList [PDict [("message", PDict [("content", PNone);
                                     ("tool_calls", PList [bad_arguments_call])]);
                  ("finish_reason", PStr "tool_calls")]])].

Definition bad_arguments_chunk : pyval :=
  PDict [("id", PStr "chatcmpl-1");
         ("choices",
          PList [PDict [("delta", PDict [("tool_calls", PList [bad_arguments_call])])]])].

Definition empty_input_tool_use : ToolUse :=
  {| tu_id := PStr "call_1"; tu_name := PStr "get_weather";
     tu_input := PDict []; tu_type := "tool_use" |}.

(** ** Stream transducer: blocks, indices and text *)

Definition is_block_start (e : StreamingEvent) : bool :=
  match e with ContentBlockStart _ _ => true | _ => false end.

Definition is_text_start (e : StreamingEvent) : bool :=
  match e with ContentBlockStart _ (Block _) => true | _ => false end.

(** The number of [ContentBlockStart] events. *)
Definition block_starts (evs : list StreamingEvent) : nat :=
  List.length (filter is_block_start evs).

(** Every [ContentBlockStop] has an index below the number of
    [ContentBlockStart] events that come before it; [n] is the number of
    those before [evs]. *)
Fixpoint stops_in_range (n : nat) (evs : list StreamingEvent) : bool :=
  match evs with
  | [] => true
  | ContentBlockStart _ _ :: r => stops_in_range (S n) r
  | ContentBlockStop i :: r => (i <? n)%nat && stops_in_range n r
  | _ :: r => stops_in_range n r
  end.

(** The texts of the text deltas, one after the other. *)
Fixpoint streamed_text (evs : list StreamingEvent) : string :=
  match evs with
  | [] => ""
  | ContentBlockDelta _ (TextDelta (PStr s)) :: r => (s ++ streamed_text r)%string
  | _ :: r => streamed_text r
  end.

(** The events about the text block carry the index 0. *)
Definition text_index_zero (e : StreamingEvent) : bool :=
  match e with
  | ContentBlockStart i (Block _) => (i =? 0)%nat
  | ContentBlockDelta i (TextDelta _) => (i =? 0)%nat
  | _ => true
  end.

Definition is_tool_block (b : ContentBlockType) : bool :=
  match b with Tool _ => true | Block _ => false end.

(** A chunk that gets as far as the clauses of the loop body. *)
Definition has_delta (event : pyval) : bool :=
  match chunk_delta event with Some _ => true | None => false end.

(** What holds of the state of the loop and of the events yielded so far,
    after every chunk. *)
Definition stream_inv (st : stream_state) (evs : list StreamingEvent) : Prop :=
  sm_content (current_message st) = content_blocks st /\
  List.length (content_blocks st) = block_starts evs /\
  stops_in_range 0 evs = true /\
  forallb is_tool_block (tl (content_blocks st)) = true /\
  List.length (filter is_text_start evs)
    = match content_blocks st with Block _ :: _ => 1 | _ => 0 end /\
  match content_blocks st with
  | [] => streamed_text evs = ""
  | Block b :: _ => cb_text b = PStr (streamed_text evs)
  | Tool _ :: _ => True
  end.

(** A piece of the generator keeps [stream_inv], from the state [st] and
    from every state. *)
Definition keeps_inv_at {A} (c : gen A) (st : stream_state) : Prop :=
  forall evs,
    stream_inv st evs ->
    stream_inv (state_of (c st)) (evs ++ events (c st)).

Definition keeps_inv {A} (c : gen A) : Prop := forall st, keeps_inv_at c st.

(** Every [MessageStop] comes right after a [MessageDelta]; [after_delta]
    tells whether the event before [evs] is one. *)
Fixpoint stop_after_delta (after_delta : bool) (evs : list StreamingEvent) : bool :=
  match evs with
  | [] => true
  | MessageStop :: r => after_delta && stop_after_delta false r
  | MessageDelta _ _ :: r => stop_after_delta true r
  | _ :: r => stop_after_delta false r
  end.

(** ** Request mapper: messages, parameters and tools *)

(** A source message with a role and a string as content, and the target
    message it becomes. *)
Definition plain_message (msg : pyval) : bool :=
  match msg with
  | PDict d =>
      match Dict.get "role" d, Dict.get "content" d with
      | Some _, Some (PStr _) => true
      | _, _ => false
      end
  | _ => false
  end.

Definition role_and_content (msg : pyval) : pyval :=
  match msg with
  | PDict d =>
      PDict [("role", Dict.get_default "role" PNone d);
             ("content", Dict.get_default "content" PNone d)]
  | _ => PNone
  end.

(** The system message put before the others. *)
Definition system_message (system_prompt : pyval) : list pyval :=
  if truthy system_prompt
  then [PDict [("role", PStr "system"); ("content", system_prompt)]]
  else [].

(** A block that is neither a text block with a text, nor a tool use, nor
    a tool result. *)
Definition unknown_block (block : pyval) : bool :=
  match block with
  | PDict b =>
      let block_type := Dict.get_default "type" PNone b in
      negb (is_str "text" block_type && Dict.has "text" b)
      && negb (is_str "tool_use" block_type)
      && negb (is_str "tool_result" block_type)
  | _ => false
  end.

(** A source message with a role whose content is neither a string nor a
    list, or a list of unknown blocks only. *)
Definition silent_message (msg : pyval) : bool :=
  match msg with
  | PDict d =>
      match Dict.get "role" d, Dict.get "content" d with
      | Some _, Some (PStr _) => false
      | Some _, Some (PList blocks) => forallb unknown_block blocks
      | Some _, Some _ => true
      | _, _ => false
      end
  | _ => false
  end.

(** The function definition that a tool becomes. *)
Definition tool_function (tool f : pyval) : Prop :=
  exists d,
    tool = PDict d /\
    f = PDict [("type", PStr "function");
               ("function",
                PDict [("name", Dict.get_default "name" (PStr "") d);
                       ("description", Dict.get_default "description" (PStr "") d);
                       ("parameters", Dict.get_default "input_schema" (PDict []) d)])].

(** The [ToolUse] that a [tool_use] block of a request describes. *)
Definition tool_use_of_block (block : dict) : ToolUse :=
  {| tu_id := Dict.get_default "id" (PStr "") block;
     tu_name := Dict.get_default "name" (PStr "") block;
     tu_input := Dict.get_default "input" (PDict []) block;
     tu_type := "tool_use" |}.

Definition weather_block : dict :=
  [("type", PStr "tool_use"); ("id", PStr "toolu_1");
   ("name", PStr "get_weather");
   ("input", PDict [("location", PStr "San Francisco"); ("days", PInt 3)])].

Definition weather_tools : pyval :=
  PList [PDict [("name", PStr "get_weather");
                ("description", PStr "Get weather information");
                ("input_schema", PDict [("type", PStr "object")])];
         PDict [("name", PStr "noop")]].

Definition weather_request : dict :=
  [("model", PStr "gpt-4");
   ("messages", PList [PDict [("role", PStr "user"); ("content", PStr "Hello")];
                       PDict [("role", PStr "assistant"); ("content", PStr "Hi");
                              ("name", PStr "bot")]]);
   ("max_tokens", PInt 100);
   ("stop_sequences", PList [PStr "END"]);
   ("system", PStr "Be brief.");
   ("tools", weather_tools)].

(** ** Response mapper: the content of the message *)

(** A tool call with a truthy [function]. *)
Definition has_function (tool_call : pyval) : bool :=
  match tool_call with
  | PDict d => truthy (Dict.get_default "function" PNone d)
  | _ => false
  end.

(** The tool calls that the response mapper reads. *)
Definition response_tool_calls (message : dict) : list pyval :=
  let tc := Dict.get_default "tool_calls" PNone message in
  if truthy tc then
    match py_iter tc with
    | Ok calls => calls
    | Raise _ => []
    end
  else [].

(** The text block of a message with a truthy [content]. *)
Definition response_text (message : dict) : list ContentBlockType :=
  let c := Dict.get_default "content" PNone message in
  if truthy c then [Block {| cb_type := "text"; cb_text := c |}] else [].

(** The block is the [ToolUse] of the tool call: it has the id of the
    call, the name of its function and, as input, the arguments decoded,
    or the empty object when they are not JSON. *)
Definition tool_use_of_call (lib : Library) (tool_call : pyval)
    (block : ContentBlockType) : Prop :=
  exists d fd a,
    tool_call = PDict d /\
    Dict.get_default "function" PNone d = PDict fd /\
    Dict.get_default "arguments" (PStr "{}") fd = PStr a /\
    block =
    Tool {| tu_id := Dict.get_default "id" (PStr "") d;
            tu_name := Dict.get_default "name" (PStr "") fd;
            tu_input := match json_loads lib a with
                        | Some v => v
                        | None => PDict []
                        end;
            tu_type := "tool_use" |}.

(** ** [Messages.create] *)

(** The call ended with an exception. *)
Definition is_raised (r : create_result) : bool :=
  match r with
  | Returned _ | Streaming _ => false
  | _ => true
  end.

(** A client whose server answers every request with the same response. *)
Definition fixed_server (response : http_response) (text : list string)
  : Messages :=
  Messages_init "sk-test" "https://api.openai.com/v1/"
    (fun _ _ _ => Responded response text).

Definition unauthorized : http_response :=
  {| status_code := 401;
     json_body := Some (PDict [("error", PDict [("message", PStr "Invalid API key")])]) |}.

(** ** utils.py *)

(** [str.lower] on ASCII text. *)
Definition ascii_lower_char (c : ascii) : ascii :=
  let n := nat_of_ascii c in
  if ((65 <=? n) && (n <=? 90))%nat then ascii_of_nat (n + 32) else c.

Fixpoint ascii_lower (s : string) : string :=
  match s with
  | "" => ""
  | String c r => String (ascii_lower_char c) (ascii_lower r)
  end.

(** No entry with a sensitive key, at any depth, has a value other than
    the mask. *)
Fixpoint no_secret (lower : string -> string) (data : pyval) : bool :=
  match data with
  | PDict d =>
      forallb
        (fun kv =>
           if is_sensitive lower (fst kv) then is_str "***" (snd kv)
           else no_secret lower (snd kv))
        d
  | PList l => forallb (no_secret lower) l
  | _ => true
  end.

(** The value that [sanitize_for_logging] stores for an entry. *)
Definition sanitized_value (lower : string -> string) (kv : string * pyval)
  : pyval :=
  if is_sensitive lower (fst kv) then masked
  else sanitize_for_logging lower (snd kv).

(** ** [Messages.create]: the arguments *)

(** The names of the parameters of [create]; the extra keyword arguments
    of a call have other names. *)
Definition named_parameters : list string :=
  ["model"; "messages"; "max_tokens"; "temperature"; "top_p";
   "stop_sequences"; "stream"; "system"; "tools"; "tool_choice"].

(** The optional entries of a target request. *)
Definition optional_keys : list string :=
  ["temperature"; "top_p"; "stop"; "stream"; "tools"; "tool_choice"].

(** ** Tool calls on both paths *)

(** The [arguments] of the tool call, when it is a non-empty string, is
    JSON. *)
Definition arguments_are_json (lib : Library) (tool_call : pyval) : bool :=
  match tool_call with
  | PDict d =>
      match Dict.get_default "function" PNone d with
      | PDict fd =>
          match Dict.get "arguments" fd with
          | Some (PStr s) =>
              String.eqb s "" ||
              match json_loads lib s with Some _ => true | None => false end
          | _ => true
          end
      | _ => true
      end
  | _ => true
  end.

Definition weather_call : pyval :=
  PDict [("id", PStr "call_123");
         ("function",
          PDict [("name", PStr "get_weather");
                 ("arguments",
                  PStr ("{" ++ dq ++ "location" ++ dq ++ ": " ++ dq ++ "Paris"
                          ++ dq ++ "}"))])].

(** ** Request mapper: requests that are mapped *)

(** A source message the mapper can take: an object with a role and a
    content; when the content is a list, its blocks are objects and the
    text of a text block is a string. *)
Definition source_message_ok (msg : pyval) : bool :=
  match msg with
  | PDict d =>
      match Dict.get "role" d, Dict.get "content" d with
      | Some _, Some (PList blocks) => forallb block_ok blocks
      | Some _, Some _ => true
      | _, _ => false
      end
  | _ => false
  end.

Definition is_object (v : pyval) : bool :=
  match v with PDict _ => true | _ => false end.

(** A request with a model, a list of such messages, and tools that are
    absent, falsy, or a list of objects. *)
Definition request_ok (params : dict) : bool :=
  Dict.has "model" params
  && match Dict.get "messages" params with
     | Some (PList msgs) => forallb source_message_ok msgs
     | _ => false
     end
  && match Dict.get "tools" params with
     | Some tools =>
         negb (truthy tools)
         || match tools with PList l => forallb is_object l | _ => false end
     | None => true
     end.

(* ===================================================================== *)
(** * Properties: general lemmas *)
(* ===================================================================== *)

Lemma rbind_ok {A B} (c : result A) (k : A -> result B) (b : B) :
  rbind c k = Ok b -> exists a, c = Ok a /\ k a = Ok b.
Proof.
  destruct c as [a|e]; simpl; [eauto | discriminate].
Qed.

(** Split a hypothesis [x <- c ;; k = Ok b] into its two halves. *)
Ltac bind_inv H :=
  let a := fresh "a" in
  let Ha := fresh "Ha" in
  apply rbind_ok in H; destruct H as (a & Ha & H).

Lemma py_get_ok (v : pyval) (k : string) (default x : pyval) :
  py_get v k default = Ok x ->
  exists d, v = PDict d /\ x = Dict.get_default k default d.
Proof.
  destruct v; simpl; try discriminate.
  intros H; inversion H; eauto.
Qed.

Lemma dict_get_set_same (k : string) (v : pyval) (d : dict) :
  Dict.get k (Dict.set k v d) = Some v.
Proof.
  induction d as [|[k' v'] d IH]; simpl.
  - rewrite String.eqb_refl; reflexivity.
  - destruct (String.eqb k k') eqn:E; simpl; rewrite E; auto.
Qed.

Lemma dict_get_set_other (k k' : string) (v : pyval) (d : dict) :
  k <> k' -> Dict.get k (Dict.set k' v d) = Dict.get k d.
Proof.
  intros Hne; induction d as [|[k2 v2] d IH]; simpl.
  - destruct (String.eqb_spec k k'); [contradiction | reflexivity].
  - destruct (String.eqb_spec k' k2) as [->|Hk]; simpl.
    + destruct (String.eqb_spec k k2); [contradiction | reflexivity].
    + destruct (String.eqb k k2); auto.
Qed.

Lemma dict_keys_set (k : string) (v : pyval) (d : dict) (x : string) :
  In x (Dict.keys (Dict.set k v d)) -> x = k \/ In x (Dict.keys d).
Proof.
  unfold Dict.keys; induction d as [|[k' v'] d IH]; simpl.
  - intros [H|[]]; auto.
  - destruct (String.eqb k k'); simpl; intros [H|H]; auto.
    destruct (IH H); auto.
Qed.

(* ===================================================================== *)
(** * Properties of the response mapper *)
(* ===================================================================== *)

Lemma transform_response_stop_reason (lib : Library) (u : string)
    (resp : dict) (m : Message) :
  transform_openai_to_anthropic lib u resp = Ok m ->
  _map_finish_reason_to_stop_reason (response_finish_reason resp)
    = Ok (msg_stop_reason m).
Proof.
  unfold transform_openai_to_anthropic, response_finish_reason; intros H.
  destruct (first_choice resp) as [choice|] eqn:Hc; simpl in H; [|discriminate].
  destruct choice; simpl in H; try discriminate.
  destruct (response_content lib _); simpl in H; [|discriminate].
  destruct (_map_finish_reason_to_stop_reason _) eqn:Hm; simpl in H;
    [|discriminate].
  destruct (py_get _ "prompt_tokens" _); simpl in H; [|discriminate].
  destruct (py_get _ "completion_tokens" _); simpl in H; [|discriminate].
  inversion H; subst; reflexivity.
Qed.

(** C5: the response mapper sends finish_reason [stop] to [end_turn],
    [length] to [max_tokens], [tool_calls] and [function_call] to
    [tool_use], [content_filter] to [end_turn], every other string to
    [end_turn], and an absent or null finish_reason to a null stop_reason;
    the stop_reason of the message returned is the image of the first
    choice's finish_reason. *)
Theorem finish_reason_table :
  _map_finish_reason_to_stop_reason (PStr "stop") = Ok (Some "end_turn") /\
  _map_finish_reason_to_stop_reason (PStr "length") = Ok (Some "max_tokens") /\
  _map_finish_reason_to_stop_reason (PStr "tool_calls") = Ok (Some "tool_use") /\
  _map_finish_reason_to_stop_reason (PStr "function_call") = Ok (Some "tool_use") /\
  _map_finish_reason_to_stop_reason (PStr "content_filter") = Ok (Some "end_turn") /\
  (forall s : string,
      s <> "stop" -> s <> "length" -> s <> "tool_calls" ->
      s <> "function_call" -> s <> "content_filter" ->
      _map_finish_reason_to_stop_reason (PStr s) = Ok (Some "end_turn")) /\
  _map_finish_reason_to_stop_reason PNone = Ok None /\
  (forall (lib : Library) (u : string) (resp : dict) (m : Message),
      transform_openai_to_anthropic lib u resp = Ok m ->
      _map_finish_reason_to_stop_reason (response_finish_reason resp)
        = Ok (msg_stop_reason m)) /\
  (forall (lib : Library) (u : string) (resp : dict) (m : Message),
      transform_openai_to_anthropic lib u resp = Ok m ->
      response_finish_reason resp = PNone -> msg_stop_reason m = None).
Proof.
  repeat split; try reflexivity.
  - intros s H1 H2 H3 H4 H5. cbn.
    repeat match goal with
           | |- context [String.eqb s ?k] =>
               destruct (String.eqb_spec s k); [contradiction|]
           end.
    reflexivity.
  - intros; eapply transform_response_stop_reason; eassumption.
  - intros lib u resp m H Hn.
    apply transform_response_stop_reason in H. rewrite Hn in H.
    simpl in H. inversion H; reflexivity.
Qed.

Lemma finish_reason_table_witness :
  exists m : Message,
    transform_openai_to_anthropic Ref.lib "0" (finish_reason_response (PStr "length")) = Ok m /\
    Ok (msg_stop_reason m) = Ok (Some "max_tokens").
Proof.
  eexists; split; [reflexivity|].
  pose proof (proj1 (proj2 (proj2 (proj2 (proj2 (proj2 (proj2
    (proj2 finish_reason_table))))))) Ref.lib "0"
    (finish_reason_response (PStr "length")) _ eq_refl) as H.
  symmetry; exact H.
Defined.

(* ===================================================================== *)
(** * Properties of the error mapper *)
(* ===================================================================== *)

(** C9, as the claim states it, fails: the error returned does not carry
    the status code.  Two calls that differ in the status code only (418
    and 402, the same body, no response object) return the same error
    value, so no function of that value gives the code back.  The message
    also departs from the claim's rule at two bodies: with an [error]
    object that has no message the top-level [message] is not used, and an
    [error] that is no object is turned into the message. *)
Lemma error_forgets_status_code :
  map_openai_error_to_anthropic Ref.lib 418 (Some teapot_body) None
    = map_openai_error_to_anthropic Ref.lib 402 (Some teapot_body) None /\
  ~ (exists code_of : api_error -> Z,
        forall (status : Z) (body : option dict) (r : option http_response),
          code_of (map_openai_error_to_anthropic Ref.lib status body r) = status) /\
  err_message (map_openai_error_to_anthropic Ref.lib 418
                 (Some [("error", PDict []); ("message", PStr "m")]) None)
    = PStr "Unknown error" /\
  err_message (map_openai_error_to_anthropic Ref.lib 418
                 (Some [("error", PStr "boom")]) None)
    = PStr "boom".
Proof.
  split; [reflexivity|]. split; [|split; reflexivity].
  intros [code_of H].
  pose proof (H 418%Z (Some teapot_body) None) as H1.
  pose proof (H 402%Z (Some teapot_body) None) as H2.
  change (map_openai_error_to_anthropic Ref.lib 402 (Some teapot_body) None)
    with (map_openai_error_to_anthropic Ref.lib 418 (Some teapot_body) None) in H2.
  rewrite H1 in H2; discriminate.
Qed.

(** C9 (amended): the error returned holds a class, a message, no request
    and the response object passed in (it has no field for the status
    code).  The class is fixed by the status: 400 BadRequest, 401
    Authentication, 403 PermissionDenied, 404 NotFound, 409 Conflict, 422
    UnprocessableEntity, 429 RateLimit, 500 and above InternalServer,
    anything else the generic [APIError].  The message is ["Unknown error"]
    for an absent or empty body; for a body with an [error] key it is that
    object's [message] (["Unknown error"] if it has none) when [error] is
    an object and [str(error)] otherwise; for a body with no [error] key it
    is the body's [message], else ["Unknown error"].  Status 418 with body
    [{"error": {"message": "teapot"}}] gives the generic class with
    message ["teapot"]. *)
Theorem error_mapping (lib : Library) (status : Z) (body : option dict)
    (response : option http_response) :
  let e := map_openai_error_to_anthropic lib status body response in
  err_response e = response /\ err_request e = None /\
  (status = 400%Z -> err_class e = BadRequestError) /\
  (status = 401%Z -> err_class e = AuthenticationError) /\
  (status = 403%Z -> err_class e = PermissionDeniedError) /\
  (status = 404%Z -> err_class e = NotFoundError) /\
  (status = 409%Z -> err_class e = ConflictError) /\
  (status = 422%Z -> err_class e = UnprocessableEntityError) /\
  (status = 429%Z -> err_class e = RateLimitError) /\
  ((500 <= status)%Z -> err_class e = InternalServerError) /\
  ((status < 500)%Z ->
   ~ In status [400; 401; 403; 404; 409; 422; 429]%Z -> err_class e = APIError) /\
  (body = None \/ body = Some [] -> err_message e = PStr "Unknown error") /\
  (forall d x,
      body = Some d -> Dict.get "error" d = Some (PDict x) ->
      err_message e = Dict.get_default "message" (PStr "Unknown error") x) /\
  (forall d v,
      body = Some d -> Dict.get "error" d = Some v ->
      (forall x, v <> PDict x) -> err_message e = PStr (py_str lib v)) /\
  (forall d,
      body = Some d -> Dict.get "error" d = None ->
      err_message e = Dict.get_default "message" (PStr "Unknown error") d) /\
  (let t := map_openai_error_to_anthropic lib 418 (Some teapot_body) response in
   err_class t = APIError /\ err_message t = PStr "teapot").
Proof.
  cbv zeta. unfold map_openai_error_to_anthropic; simpl.
  split; [reflexivity|]. split; [reflexivity|].
  unfold error_class_of_status.
  repeat split.
  1-7: intros ->; reflexivity.
  - intros H.
    repeat match goal with
           | |- context [(status =? ?k)%Z] =>
               destruct (Z.eqb_spec status k); [lia|]
           end.
    destruct (Z.leb_spec 500 status); [reflexivity | lia].
  - intros Hlt Hnot. simpl in Hnot.
    repeat match goal with
           | |- context [(status =? ?k)%Z] =>
               destruct (Z.eqb_spec status k); [exfalso; apply Hnot; auto 10|]
           end.
    destruct (Z.leb_spec 500 status); [lia | reflexivity].
  - intros [-> | ->]; reflexivity.
  - intros d x -> Hx. unfold error_message.
    destruct d as [|kv d]; [discriminate|].
    cbn [truthy]. rewrite Hx. reflexivity.
  - intros d v -> Hv Hnd. unfold error_message.
    destruct d as [|kv d]; [discriminate|].
    cbn [truthy]. rewrite Hv.
    destruct v; try reflexivity. exfalso; eapply Hnd; reflexivity.
  - intros d -> Hn. unfold error_message.
    destruct d as [|kv d]; [reflexivity|].
    cbn [truthy]. rewrite Hn. unfold Dict.get_default.
    destruct (Dict.get "message" (kv :: d)); reflexivity.
Qed.

Lemma error_mapping_witness :
  err_class (map_openai_error_to_anthropic Ref.lib 418 (Some teapot_body) None)
    = APIError /\
  err_message (map_openai_error_to_anthropic Ref.lib 503 (Some teapot_body) None)
    = PStr "teapot".
Proof.
  split.
  - pose proof (error_mapping Ref.lib 418 (Some teapot_body) None) as H.
    cbv zeta in H.
    destruct H as (_ & _ & _ & _ & _ & _ & _ & _ & _ & _ & H & _).
    apply H; [lia | simpl; intuition discriminate].
  - pose proof (error_mapping Ref.lib 503 (Some teapot_body) None) as H.
    cbv zeta in H.
    destruct H as (_ & _ & _ & _ & _ & _ & _ & _ & _ & _ & _ & _ & H & _).
    apply (H teapot_body [("message", PStr "teapot")] eq_refl eq_refl).
Defined.

(* ===================================================================== *)
(** * Properties of the request mapper *)
(* ===================================================================== *)

Lemma keys_set_incl (k : string) (v : pyval) (d : dict) (allowed : list string) :
  In k allowed -> incl (Dict.keys d) allowed ->
  incl (Dict.keys (Dict.set k v d)) allowed.
Proof.
  intros Hk Hd x Hx. apply dict_keys_set in Hx as [->|Hx]; auto.
Qed.

Lemma keys_copy_incl (src dst : string) (params d : dict) (allowed : list string) :
  In dst allowed -> incl (Dict.keys d) allowed ->
  incl (Dict.keys (copy_key src dst params d)) allowed.
Proof.
  intros Hk Hd. unfold copy_key.
  destruct (Dict.get src params); auto using keys_set_incl.
Qed.

Lemma get_copy_other (k src dst : string) (params d : dict) :
  k <> dst -> Dict.get k (copy_key src dst params d) = Dict.get k d.
Proof.
  intros Hne. unfold copy_key.
  destruct (Dict.get src params); auto using dict_get_set_other.
Qed.

Lemma transform_request_shape (lib : Library) (params out : dict) :
  transform_anthropic_to_openai lib params = Ok out ->
  exists model messages o,
    (o = sampling_params params model messages \/
     exists t, o = Dict.set "tools" (PList t) (sampling_params params model messages)) /\
    out = match Dict.get "tool_choice" params with
          | Some tc =>
              if truthy tc then Dict.set "tool_choice" (_transform_tool_choice tc) o
              else o
          | None => o
          end.
Proof.
  unfold transform_anthropic_to_openai; intros H.
  bind_inv H. bind_inv H. bind_inv H. bind_inv H.
  inversion H; subst out; clear H.
  exists a, a1, a2; split; [|reflexivity].
  fold (sampling_params params a a1) in Ha2.
  destruct (Dict.get "tools" params) as [tools|]; [|inversion Ha2; auto].
  destruct (truthy tools); [|inversion Ha2; auto].
  bind_inv Ha2. inversion Ha2; eauto.
Qed.

Lemma sampling_params_keys (params : dict) (model : pyval) (messages : list pyval) :
  incl (Dict.keys (sampling_params params model messages)) openai_param_keys.
Proof.
  unfold sampling_params.
  repeat (first [apply keys_copy_incl | apply keys_set_incl];
          [unfold openai_param_keys; simpl; tauto|]).
  intros x [].
Qed.

Lemma sampling_params_no_tool_choice (params : dict) (model : pyval)
    (messages : list pyval) :
  Dict.get "tool_choice" (sampling_params params model messages) = None.
Proof.
  unfold sampling_params.
  repeat (rewrite get_copy_other by discriminate).
  repeat (rewrite dict_get_set_other by discriminate).
  reflexivity.
Qed.

(** C10: every key of the target request is one of [model], [messages],
    [max_tokens], [temperature], [top_p], [stop], [stream], [tools],
    [tool_choice]; no other key of the source request is copied, also not a
    key that [Messages.create] merged in from its [kwargs]. *)
Theorem target_keys_fixed (lib : Library) (params out : dict) :
  transform_anthropic_to_openai lib params = Ok out ->
  incl (Dict.keys out) openai_param_keys.
Proof.
  intros H. apply transform_request_shape in H.
  destruct H as (model & messages & o & Ho & ->).
  assert (Hk : incl (Dict.keys o) openai_param_keys).
  { destruct Ho as [->|[t ->]].
    - apply sampling_params_keys.
    - apply keys_set_incl; [unfold openai_param_keys; simpl; tauto|].
      apply sampling_params_keys. }
  destruct (Dict.get "tool_choice" params) as [tc|]; [|exact Hk].
  destruct (truthy tc); [|exact Hk].
  apply keys_set_incl; [unfold openai_param_keys; simpl; tauto | exact Hk].
Qed.

Lemma target_keys_fixed_witness :
  In "seed" (Dict.keys create_params_example) /\
  exists out,
    transform_anthropic_to_openai Ref.lib create_params_example = Ok out /\
    incl (Dict.keys out) openai_param_keys.
Proof.
  split; [simpl; tauto|].
  eexists; split; [reflexivity|].
  apply (target_keys_fixed Ref.lib create_params_example). reflexivity.
Defined.

(** C7, as the claim states it, fails: [tool_choice] is the empty string
    here, a string other than [auto], [any] and [required]; the claim wants
    the target's [tool_choice] to be [auto], and the target has no
    [tool_choice] at all. *)
Lemma empty_tool_choice_is_dropped :
  Dict.get "tool_choice" empty_tool_choice_request = Some (PStr "") /\
  transform_anthropic_to_openai Ref.lib empty_tool_choice_request
    = Ok [("model", PStr "m");
          ("messages",
           PList [PDict [("role", PStr "user"); ("content", PStr "Hello")]])].
Proof.
  split; reflexivity.
Qed.

(** C7 (amended): when [tool_choice] is present in the source request and
    truthy, the target's [tool_choice] is [auto] for the string [auto],
    [required] for [any] and [required], [auto] for any other string,
    [{type: function, function: {name: n}}] for an object of type [tool]
    with a truthy name [n], and [auto] for anything else; when it is
    present and falsy (null, the empty string, the empty object, 0, false),
    the target has no [tool_choice]. *)
Theorem tool_choice_mapping (lib : Library) (params out : dict) (tc : pyval) :
  transform_anthropic_to_openai lib params = Ok out ->
  Dict.get "tool_choice" params = Some tc ->
  (truthy tc = false -> Dict.get "tool_choice" out = None) /\
  (truthy tc = true ->
   exists r, Dict.get "tool_choice" out = Some r /\
     (tc = PStr "auto" -> r = PStr "auto") /\
     (tc = PStr "any" \/ tc = PStr "required" -> r = PStr "required") /\
     (forall s, tc = PStr s -> s <> "any" -> s <> "required" -> r = PStr "auto") /\
     (forall d n,
         tc = PDict d -> Dict.get "type" d = Some (PStr "tool") ->
         Dict.get "name" d = Some n -> truthy n = true ->
         r = PDict [("type", PStr "function"); ("function", PDict [("name", n)])]) /\
     (forall d,
         tc = PDict d ->
         is_str "tool" (Dict.get_default "type" PNone d) = false \/
         truthy (Dict.get_default "name" PNone d) = false ->
         r = PStr "auto") /\
     ((forall s, tc <> PStr s) -> (forall d, tc <> PDict d) -> r = PStr "auto")).
Proof.
  intros H Htc. apply transform_request_shape in H.
  destruct H as (model & messages & o & Ho & ->).
  assert (Hn : Dict.get "tool_choice" o = None).
  { destruct Ho as [->|[t ->]].
    - apply sampling_params_no_tool_choice.
    - rewrite dict_get_set_other by discriminate.
      apply sampling_params_no_tool_choice. }
  rewrite Htc. split; intros Ht; rewrite Ht; [exact Hn|].
  exists (_transform_tool_choice tc). rewrite dict_get_set_same.
  split; [reflexivity|].
  repeat split.
  - intros ->; reflexivity.
  - intros [-> | ->]; reflexivity.
  - intros s -> H1 H2. simpl.
    destruct (String.eqb_spec s "auto"); [reflexivity|].
    destruct (String.eqb_spec s "any"); [contradiction|].
    destruct (String.eqb_spec s "required"); [contradiction|]. reflexivity.
  - intros d n -> Hty Hname Hn'. simpl. unfold Dict.get_default.
    rewrite Hty, Hname. simpl. rewrite Hn'. reflexivity.
  - intros d -> [H|H]; simpl; rewrite H; [reflexivity|].
    destruct (is_str "tool" _); reflexivity.
  - intros Hs Hd. destruct tc; try reflexivity.
    + exfalso; eapply Hs; reflexivity.
    + exfalso; eapply Hd; reflexivity.
Qed.

Lemma tool_choice_mapping_witness :
  transform_anthropic_to_openai Ref.lib tool_choice_request = Ok tool_choice_target /\
  exists r,
    Dict.get "tool_choice" tool_choice_target = Some r /\
    r = PDict [("type", PStr "function");
               ("function", PDict [("name", PStr "get_weather")])].
Proof.
  split; [reflexivity|].
  destruct (tool_choice_mapping Ref.lib tool_choice_request
              (out := tool_choice_target)
              (tc := PDict [("type", PStr "tool"); ("name", PStr "get_weather")])
              eq_refl eq_refl) as [_ H].
  destruct (H eq_refl) as (r & Hr & _ & _ & _ & Hd & _).
  exists r; split; [exact Hr|].
  eapply Hd; reflexivity.
Defined.

(* ===================================================================== *)
(** * Properties of the response mapper: the message returned *)
(* ===================================================================== *)

Lemma response_tool_use_total (lib : Library) (tool_call : pyval) :
  tool_call_ok tool_call = true ->
  exists r, response_tool_use lib tool_call = Ok r.
Proof.
  destruct tool_call as [| | | | |l|d]; simpl; try discriminate.
  unfold response_tool_use, function_ok; simpl.
  destruct (truthy (Dict.get_default "function" PNone d)) eqn:Ht; simpl;
    [|eauto].
  destruct (Dict.get_default "function" PNone d) as [| | | | |l|fd];
    try discriminate.
  simpl. unfold Dict.get_default, loads_or_empty.
  destruct (Dict.get "arguments" fd) as [[| | | |s|l|x]|]; try discriminate;
    intros _; simpl; destruct (json_loads lib _); simpl; eauto.
Qed.

Lemma response_tool_uses_total (lib : Library) (calls : list pyval) :
  forallb tool_call_ok calls = true ->
  exists r, response_tool_uses lib calls = Ok r.
Proof.
  induction calls as [|c r IH]; simpl; [eauto|].
  intros H; apply andb_prop in H as [Hc Hr].
  destruct (response_tool_use_total lib c Hc) as [t ->].
  destruct (IH Hr) as [ts ->]. simpl; eauto.
Qed.

Lemma response_content_total (lib : Library) (message : pyval) :
  message_ok message = true ->
  exists r, response_content lib message = Ok r /\
    (forall d, message = PDict d ->
       truthy (Dict.get_default "content" PNone d) = false ->
       truthy (Dict.get_default "tool_calls" PNone d) = false -> r = []).
Proof.
  destruct message as [| | | | |l|d]; simpl; try discriminate.
  unfold response_content, tool_calls_ok; simpl.
  intros H.
  assert (Hc : exists text,
             (if truthy (Dict.get_default "content" PNone d)
              then rbind (match Dict.get "content" d with
                          | Some x => Ok x | None => Raise KeyError end)
                     (fun t => Ok [Block {| cb_type := "text"; cb_text := t |}])
              else Ok []) = Ok text /\
             (truthy (Dict.get_default "content" PNone d) = false -> text = [])).
  { unfold Dict.get_default.
    destruct (Dict.get "content" d) as [x|]; simpl.
    - destruct (truthy x); simpl; eexists; split; eauto; discriminate.
    - eauto. }
  destruct Hc as (text & -> & Htext). simpl.
  destruct (truthy (Dict.get_default "tool_calls" PNone d)) eqn:Ht; simpl in H.
  - assert (Hts : exists ts,
               rbind (match Dict.get "tool_calls" d with
                      | Some x => Ok x | None => Raise KeyError end)
                 (fun l => rbind (py_iter l) (response_tool_uses lib)) = Ok ts).
    { unfold Dict.get_default in H, Ht.
      destruct (Dict.get "tool_calls" d) as [[| | | | |l|x]|]; try discriminate.
      simpl. apply response_tool_uses_total; exact H. }
    destruct Hts as [ts Hts].
    change (rbind (match Dict.get "tool_calls" d with
                   | Some x => Ok x | None => Raise KeyError end)
              (fun l => rbind (py_iter l) (fun calls => response_tool_uses lib calls)))
      with (rbind (match Dict.get "tool_calls" d with
                   | Some x => Ok x | None => Raise KeyError end)
              (fun l => rbind (py_iter l) (response_tool_uses lib))).
    rewrite Hts. simpl.
    eexists; split; [reflexivity|].
    intros d' Hd _ Hf. inversion Hd; subst d'. rewrite Ht in Hf; discriminate.
  - simpl. eexists; split; [reflexivity|].
    intros d' Hd Hcf _. inversion Hd; subst d'. rewrite (Htext Hcf). reflexivity.
Qed.

Lemma first_choice_total (resp : dict) :
  (let cs := Dict.get_default "choices" PNone resp in
   negb (truthy cs) ||
   match cs with
   | PList (c :: _) => choice_ok c
   | _ => false
   end) = true ->
  exists choice, first_choice resp = Ok (PDict choice) /\
                 choice_ok (PDict choice) = true /\
                 (truthy (Dict.get_default "choices" PNone resp) = false ->
                  choice = []).
Proof.
  cbv zeta. unfold first_choice, Dict.get_default; simpl.
  destruct (Dict.get "choices" resp) as [cs|]; simpl.
  - destruct (truthy cs) eqn:Ht; simpl.
    + destruct cs as [| | | | |[|c l]|x]; try discriminate.
      destruct c as [| | | | |l'|d]; try discriminate. simpl.
      intros H; exists d; repeat split; auto. discriminate.
    + intros _; exists []; repeat split; auto.
  - intros _; exists []; repeat split; auto.
Qed.

Lemma response_tool_use_shape (lib : Library) (tool_call : pyval)
    (r : option ToolUse) :
  response_tool_use lib tool_call = Ok r -> tool_call_ok tool_call = true.
Proof.
  unfold response_tool_use. intros H. bind_inv H.
  apply py_get_ok in Ha as (d & -> & ->). simpl. unfold function_ok.
  destruct (truthy (Dict.get_default "function" PNone d)); [|reflexivity].
  bind_inv H. apply py_get_ok in Ha as (fd & -> & ->).
  bind_inv H. clear H. simpl.
  unfold Dict.get_default, loads_or_empty, py_json_loads in *.
  destruct (Dict.get "arguments" fd) as [[| | | |s|l|x]|];
    try discriminate; reflexivity.
Qed.

Lemma response_tool_uses_shape (lib : Library) (calls : list pyval) :
  forall r, response_tool_uses lib calls = Ok r ->
            forallb tool_call_ok calls = true.
Proof.
  induction calls as [|c cs IH]; intros r H; simpl in *; [reflexivity|].
  bind_inv H. bind_inv H.
  rewrite (response_tool_use_shape _ _ Ha), (IH _ Ha0). reflexivity.
Qed.

Lemma response_content_shape (lib : Library) (message : pyval)
    (r : list ContentBlockType) :
  response_content lib message = Ok r -> message_ok message = true.
Proof.
  unfold response_content. intros H.
  destruct message as [| | | | |l|md]; try discriminate. simpl in H |- *.
  destruct (if truthy (Dict.get_default "content" PNone md)
            then rbind (match Dict.get "content" md with
                        | Some x => Ok x | None => Raise KeyError end)
                   (fun t => Ok [Block {| cb_type := "text"; cb_text := t |}])
            else Ok []) as [text|]; [|discriminate].
  simpl in H. unfold tool_calls_ok.
  destruct (truthy (Dict.get_default "tool_calls" PNone md)) eqn:Ht;
    [|reflexivity].
  unfold Dict.get_default in *.
  destruct (Dict.get "tool_calls" md) as [tc|]; [|discriminate].
  simpl in H.
  destruct (py_iter tc) as [calls|] eqn:Hi; [|discriminate]. simpl in H.
  destruct (response_tool_uses lib calls) as [ts|] eqn:Hts; [|discriminate].
  pose proof (response_tool_uses_shape _ _ Hts) as Hok.
  destruct tc as [| | | |s|l|x]; simpl in Hi; try discriminate;
    inversion Hi; subst calls; simpl.
  - destruct s as [|ch s]; [discriminate|]. simpl in Hok. discriminate.
  - exact Hok.
  - destruct x as [|[k v] x]; [discriminate|]. simpl in Hok. discriminate.
Qed.

(** The shape is exactly what the mapper needs: it raises on every other
    response. *)
Lemma response_shape_necessary (lib : Library) (u : string) (resp : dict)
    (m : Message) :
  transform_openai_to_anthropic lib u resp = Ok m -> response_shape_ok resp = true.
Proof.
  unfold transform_openai_to_anthropic, response_shape_ok. intros H.
  destruct (first_choice resp) as [choice|] eqn:Hfc; [|discriminate].
  simpl in H.
  destruct choice as [| | | | |l|c]; try discriminate. simpl in H.
  destruct (response_content lib _) as [content|] eqn:Hcontent; [|discriminate].
  simpl in H.
  destruct (_map_finish_reason_to_stop_reason _) as [sr|] eqn:Hsr; [|discriminate].
  simpl in H.
  destruct (Dict.get_default "usage" (PDict []) resp) as [| | | | |l|usage];
    try discriminate.
  clear H. apply andb_true_intro; split; [|reflexivity].
  assert (Hchoice : choice_ok (PDict c) = true).
  { simpl. apply andb_true_intro; split.
    - eapply response_content_shape; eassumption.
    - unfold _map_finish_reason_to_stop_reason, table_get in Hsr.
      destruct (Dict.get_default "finish_reason" PNone c); try reflexivity;
        simpl in Hsr; discriminate. }
  cbv zeta. unfold first_choice in Hfc.
  destruct (truthy (Dict.get_default "choices" PNone resp)) eqn:Ht;
    [|reflexivity].
  simpl in Hfc. unfold Dict.get_default in *.
  destruct (Dict.get "choices" resp) as [cs|]; [|discriminate].
  simpl in Hfc |- *.
  destruct cs as [| | | |s|[|x l]|x]; simpl in Hfc; try discriminate.
  - destruct s; simpl in Hfc; discriminate.
  - inversion Hfc; subst x. exact Hchoice.
Qed.

(** C8: on a response of the shape above the mapper returns a message;
    its id is the response's [id], or, when the response has none,
    ["msg_"] followed by the UUID drawn by the call (so it is not empty,
    and two calls that draw different UUIDs give different ids); its model
    is the response's [model], or ["unknown"]; its usage takes
    [prompt_tokens] and [completion_tokens] from [usage], each 0 when
    absent; and its content is empty when the message has neither content
    nor tool calls, in particular when [choices] is absent or empty. *)
Theorem response_message_fields (lib : Library) (u : string) (resp : dict) :
  response_shape_ok resp = true ->
  exists m : Message,
    transform_openai_to_anthropic lib u resp = Ok m /\
    (forall i, Dict.get "id" resp = Some i -> msg_id m = i) /\
    (Dict.get "id" resp = None ->
       msg_id m = PStr ("msg_" ++ u) /\ truthy (msg_id m) = true /\
       prefix "msg_" ("msg_" ++ u) = true /\
       forall u', msg_id m = PStr ("msg_" ++ u') -> u' = u) /\
    (forall x, Dict.get "model" resp = Some x -> msg_model m = x) /\
    (Dict.get "model" resp = None -> msg_model m = PStr "unknown") /\
    (forall usage,
        Dict.get_default "usage" (PDict []) resp = PDict usage ->
        input_tokens (msg_usage m) = Dict.get_default "prompt_tokens" (PInt 0) usage /\
        output_tokens (msg_usage m) = Dict.get_default "completion_tokens" (PInt 0) usage /\
        (Dict.get "prompt_tokens" usage = None -> input_tokens (msg_usage m) = PInt 0) /\
        (Dict.get "completion_tokens" usage = None -> output_tokens (msg_usage m) = PInt 0)) /\
    (forall message,
        response_message resp = PDict message ->
        truthy (Dict.get_default "content" PNone message) = false ->
        truthy (Dict.get_default "tool_calls" PNone message) = false ->
        msg_content m = []) /\
    (truthy (Dict.get_default "choices" PNone resp) = false -> msg_content m = []).
Proof.
  unfold response_shape_ok. intros H. apply andb_prop in H as [Hc Hu].
  destruct (first_choice_total resp Hc) as (choice & Hfc & Hok & Hempty).
  simpl in Hok. apply andb_prop in Hok as [Hm Hh].
  destruct (response_content_total lib _ Hm) as (content & Hcontent & Hnil).
  destruct (Dict.get_default "usage" (PDict []) resp) as [| | | | |l|usage] eqn:Husage;
    try discriminate.
  assert (Hsr : exists sr,
             _map_finish_reason_to_stop_reason
               (Dict.get_default "finish_reason" PNone choice) = Ok sr).
  { unfold _map_finish_reason_to_stop_reason, table_get.
    destruct (Dict.get_default "finish_reason" PNone choice);
      simpl in *; try discriminate; eauto. }
  destruct Hsr as [sr Hsr].
  eexists. split.
  { unfold transform_openai_to_anthropic. rewrite Hfc. simpl.
    rewrite Hcontent. simpl. rewrite Hsr. simpl. rewrite Husage. simpl.
    reflexivity. }
  simpl. unfold Dict.get_default.
  assert (Hmsg : response_message resp
                 = Dict.get_default "message" (PDict []) choice).
  { unfold response_message. rewrite Hfc. reflexivity. }
  split; [intros i ->; reflexivity|].
  split.
  { intros ->. split; [reflexivity|]. split; [reflexivity|].
    split; [destruct u; reflexivity|].
    intros u' Hu'. inversion Hu'; reflexivity. }
  split; [intros x ->; reflexivity|].
  split; [intros ->; reflexivity|].
  split.
  { intros usage' Hu'. inversion Hu'; subst usage'.
    split; [reflexivity|]. split; [reflexivity|].
    split; intros ->; reflexivity. }
  split.
  - intros message Hrm. rewrite Hmsg in Hrm. eauto.
  - intros Hf. specialize (Hempty Hf). subst choice.
    eapply Hnil; reflexivity.
Qed.

Lemma response_message_fields_witness :
  exists m : Message,
    transform_openai_to_anthropic Ref.lib "0123abcd" empty_response = Ok m /\
    msg_id m = PStr "msg_0123abcd" /\
    msg_model m = PStr "unknown" /\
    msg_content m = [].
Proof.
  destruct (response_message_fields Ref.lib "0123abcd" empty_response eq_refl)
    as (m & Hm & _ & Hid & _ & Hmodel & _ & _ & Hnil).
  exists m. split; [exact Hm|]. split; [apply Hid; reflexivity|].
  split; [apply Hmodel; reflexivity | apply Hnil; reflexivity].
Defined.

(* ===================================================================== *)
(** * Properties of the request mapper: tool results *)
(* ===================================================================== *)



Lemma add_blocks_total (lib : Library) (blocks : list pyval) :
  forall acc,
    forallb block_ok blocks = true -> all_str (text_parts acc) = true ->
    exists p, add_blocks lib acc blocks = Ok p /\ all_str (text_parts p) = true.
Proof.
  induction blocks as [|b r IH]; intros acc Hb Hacc; simpl.
  - eauto.
  - simpl in Hb. apply andb_prop in Hb as [Hb Hr].
    destruct b as [| | | | |l|d]; simpl in Hb; try discriminate. simpl.
    destruct (is_str "text" (Dict.get_default "type" PNone d) && Dict.has "text" d).
    { apply IH; [exact Hr|]. simpl. unfold all_str in *.
      rewrite forallb_app, Hacc. simpl.
      destruct (Dict.get_default "text" PNone d); try discriminate; reflexivity. }
    destruct (is_str "tool_use" (Dict.get_default "type" PNone d));
      [apply IH; assumption|].
    destruct (is_str "tool_result" (Dict.get_default "type" PNone d));
      apply IH; assumption.
Qed.

Lemma str_items_total (l : list pyval) :
  all_str l = true -> exists ss, str_items l = Ok ss.
Proof.
  induction l as [|v r IH]; simpl; [eauto|].
  destruct v; try discriminate. intros H. destruct (IH H) as [ss ->].
  simpl; eauto.
Qed.







(* ===================================================================== *)
(** * Properties of the SSE framer *)
(* ===================================================================== *)

Lemma sappend_assoc (a b c : string) : ((a ++ b) ++ c = a ++ (b ++ c))%string.
Proof. induction a as [|x a IH]; simpl; [reflexivity | rewrite IH; reflexivity]. Qed.

Lemma sappend_nil_r (a : string) : (a ++ "")%string = a.
Proof. induction a as [|x a IH]; simpl; [reflexivity | rewrite IH; reflexivity]. Qed.

Lemma slength_append (a b : string) :
  String.length (a ++ b) = String.length a + String.length b.
Proof. induction a as [|x a IH]; simpl; [reflexivity | rewrite IH; reflexivity]. Qed.

Lemma prefix_length (sep s : string) :
  prefix sep s = true -> String.length sep <= String.length s.
Proof.
  revert s; induction sep as [|x sep IH]; intros s; destruct s as [|y s]; simpl.
  - lia.
  - lia.
  - discriminate.
  - destruct (ascii_dec x y); [|discriminate].
    intros H; apply IH in H; lia.
Qed.

Lemma prefix_app (sep s t : string) :
  String.length sep <= String.length s ->
  prefix sep (s ++ t) = prefix sep s.
Proof.
  revert s; induction sep as [|x sep IH]; intros s; destruct s as [|y s]; simpl.
  - destruct t; reflexivity.
  - reflexivity.
  - lia.
  - intros H. destruct (ascii_dec x y); [apply IH; lia | reflexivity].
Qed.

Lemma drop_app (n : nat) (s t : string) :
  n <= String.length s -> drop n (s ++ t) = (drop n s ++ t)%string.
Proof.
  revert s; induction n as [|n IH]; intros s; destruct s as [|y s]; simpl.
  - reflexivity.
  - reflexivity.
  - lia.
  - intros H; apply IH; lia.
Qed.

Lemma split_once_length (sep s a b : string) :
  split_once sep s = Some (a, b) -> String.length sep <= String.length s.
Proof.
  revert a b; induction s as [|y s IH]; intros a b; cbn [split_once].
  - destruct (prefix sep "") eqn:Hp; [|discriminate].
    intros _; apply prefix_length; exact Hp.
  - destruct (prefix sep (String y s)) eqn:Hp.
    + intros _; apply prefix_length; exact Hp.
    + destruct (split_once sep s) as [[a' b']|]; [|discriminate].
      intros _. specialize (IH _ _ eq_refl). simpl; lia.
Qed.

(** The leftmost delimiter of a text is still the leftmost one when more
    text arrives after it. *)
Lemma split_once_app (sep s t a b : string) :
  split_once sep s = Some (a, b) ->
  split_once sep (s ++ t) = Some (a, (b ++ t)%string).
Proof.
  revert a b; induction s as [|y s IH]; intros a b H.
  - cbn [split_once] in H. destruct (prefix sep "") eqn:Hp; [|discriminate].
    inversion H; subst. destruct sep; [|discriminate].
    simpl. destruct t; reflexivity.
  - pose proof (split_once_length _ _ H) as Hlen.
    cbn [split_once] in H. cbn [String.append split_once].
    change (String y (s ++ t)) with (String y s ++ t)%string.
    rewrite prefix_app by exact Hlen.
    destruct (prefix sep (String y s)) eqn:Hp.
    + inversion H; subst. rewrite drop_app by exact Hlen. reflexivity.
    + destruct (split_once sep s) as [[a' b']|] eqn:Hs; [|discriminate].
      inversion H; subst. rewrite (IH _ _ eq_refl). reflexivity.
Qed.

Lemma prefix_empty (s : string) : prefix "" s = true.
Proof. destruct s; reflexivity. Qed.

Lemma split_once_delimiter_cons (c1 : ascii) (t : string) :
  split_once delimiter (String c1 t) =
  match t with
  | String c2 r =>
      if Ascii.eqb c1 nl_char && Ascii.eqb c2 nl_char then Some ("", r)
      else match split_once delimiter t with
           | Some (a, b) => Some (String c1 a, b)
           | None => None
           end
  | "" => None
  end.
Proof.
  cbn [split_once]. unfold delimiter at 1 2, nl. cbn [String.append].
  destruct t as [|c2 r]; cbn [prefix String.length drop].
  - destruct (ascii_dec nl_char c1); reflexivity.
  - destruct (ascii_dec nl_char c1) as [<-|Hn1].
    + rewrite Ascii.eqb_refl.
      destruct (ascii_dec nl_char c2) as [<-|Hn2].
      * rewrite Ascii.eqb_refl, prefix_empty. reflexivity.
      * assert (E : Ascii.eqb c2 nl_char = false)
          by (apply Ascii.eqb_neq; congruence).
        rewrite E. reflexivity.
    + assert (E : Ascii.eqb c1 nl_char = false)
        by (apply Ascii.eqb_neq; congruence).
      rewrite E. reflexivity.
Qed.

(** [records_from] cuts at the leftmost delimiter, as [split] does. *)
Lemma records_from_split (s : string) :
  forall cur,
    records_from cur s =
    match split_once delimiter s with
    | Some (a, b) =>
        ((cur ++ a)%string :: fst (records_from "" b), snd (records_from "" b))
    | None => ([], (cur ++ s)%string)
    end.
Proof.
  induction s as [|c1 t IH]; intros cur.
  - simpl. rewrite sappend_nil_r. reflexivity.
  - rewrite split_once_delimiter_cons. cbn [records_from].
    destruct t as [|c2 r]; [reflexivity|].
    destruct (Ascii.eqb c1 nl_char && Ascii.eqb c2 nl_char).
    + rewrite sappend_nil_r. reflexivity.
    + rewrite IH.
      destruct (split_once delimiter (String c2 r)) as [[a b]|];
        rewrite sappend_assoc; reflexivity.
Qed.

Lemma drain_body (lib : Library) (buffer : string) :
  drain lib buffer =
  match split_once delimiter buffer with
  | Some (event_data, rest) =>
      match handle_record lib event_data with
      | Stop => ([], rest, true)
      | Emit v => let r := drain lib rest in (v :: fst (fst r), snd (fst r), snd r)
      | Skip => drain lib rest
      end
  | None => ([], buffer, false)
  end.
Proof.
  funelim (drain lib buffer);
    match goal with
    | e : split_once delimiter _ = _ |- _ => rewrite e
    end;
    try match goal with
        | h : handle_record _ _ = _ |- _ => rewrite h
        end;
    reflexivity.
Qed.

(** The inner loop yields what the records of the buffer yield, and leaves
    the remainder in the buffer. *)
Lemma drain_walk (lib : Library) (n : nat) :
  forall buffer,
    String.length buffer <= n ->
    fst (fst (drain lib buffer))
      = fst (walk (handle_record lib) (complete_records buffer)) /\
    snd (drain lib buffer)
      = snd (walk (handle_record lib) (complete_records buffer)) /\
    (snd (drain lib buffer) = false ->
     snd (fst (drain lib buffer)) = remainder buffer).
Proof.
  induction n as [|n IH]; intros buffer Hlen;
    rewrite drain_body; unfold complete_records, remainder;
    rewrite records_from_split;
    destruct (split_once delimiter buffer) as [[a b]|] eqn:E;
    try (simpl; auto; fail).
  - apply split_once_shorter in E. lia.
  - assert (Hb : String.length b <= n)
      by (apply split_once_shorter in E; lia).
    destruct (IH b Hb) as (H1 & H2 & H3).
    unfold complete_records, remainder in H1, H2, H3.
    cbn [fst snd walk String.append].
    destruct (handle_record lib a); cbn [fst snd].
    + split; [reflexivity|]. split; [reflexivity|]. intros Hf; discriminate Hf.
    + split; [rewrite H1; reflexivity|]. split; [exact H2 | exact H3].
    + split; [exact H1|]. split; [exact H2 | exact H3].
Qed.

Lemma remainder_no_delimiter (n : nat) :
  forall s, String.length s <= n -> split_once delimiter (remainder s) = None.
Proof.
  induction n as [|n IH]; intros s Hlen; unfold remainder;
    rewrite records_from_split;
    destruct (split_once delimiter s) as [[a b]|] eqn:E; simpl; auto.
  - apply split_once_shorter in E. lia.
  - apply IH. apply split_once_shorter in E. lia.
Qed.

Lemma no_delimiter_records (s : string) :
  split_once delimiter s = None -> complete_records s = [] /\ remainder s = s.
Proof.
  intros H. unfold complete_records, remainder.
  rewrite records_from_split, H. auto.
Qed.

(** The records of a text that arrives in two parts. *)
Lemma records_app (t : string) (n : nat) :
  forall s,
    String.length s <= n ->
    complete_records (s ++ t)
      = complete_records s ++ complete_records (remainder s ++ t) /\
    remainder (s ++ t) = remainder (remainder s ++ t).
Proof.
  induction n as [|n IH]; intros s Hlen;
    destruct (split_once delimiter s) as [[a b]|] eqn:E.
  - apply split_once_shorter in E. lia.
  - destruct (no_delimiter_records _ E) as [-> ->]. auto.
  - assert (Hb : String.length b <= n)
      by (pose proof (split_once_shorter _ _ _ E); lia).
    destruct (IH b Hb) as [H1 H2].
    pose proof (split_once_app _ _ t E) as Et.
    unfold complete_records, remainder in *.
    rewrite (records_from_split (s ++ t)), Et.
    rewrite (records_from_split s), E.
    cbn [fst snd]. rewrite H1, H2. auto.
  - destruct (no_delimiter_records _ E) as [-> ->]. auto.
Qed.

Lemma walk_app (action : string -> record_action) (rs rs' : list string) :
  walk action (rs ++ rs') =
  if snd (walk action rs) then walk action rs
  else (fst (walk action rs) ++ fst (walk action rs'), snd (walk action rs')).
Proof.
  induction rs as [|r rs IH]; simpl.
  - destruct (walk action rs'); reflexivity.
  - destruct (action r); cbn [fst snd].
    + reflexivity.
    + rewrite IH. destruct (snd (walk action rs)) eqn:E; cbn [fst snd];
        rewrite ?E; reflexivity.
    + exact IH.
Qed.

Lemma walk_ext (f g : string -> record_action) (rs : list string) :
  Forall (fun r => f r = g r) rs -> walk f rs = walk g rs.
Proof.
  induction 1 as [|r rs Hr _ IH]; simpl; [reflexivity|].
  rewrite Hr, IH. reflexivity.
Qed.

(** The framer, fragment by fragment, yields what the records of the whole
    text yield. *)
Lemma feed_walk (lib : Library) (fragments : list string) :
  forall buffer,
    split_once delimiter buffer = None ->
    feed lib buffer fragments
      = fst (walk (handle_record lib)
               (complete_records (buffer ++ joined fragments))).
Proof.
  induction fragments as [|chunk r IH]; intros buffer Hb.
  - simpl. rewrite sappend_nil_r.
    destruct (no_delimiter_records _ Hb) as [-> _]. reflexivity.
  - cbn [feed joined fold_right]. fold (joined r).
    rewrite <- sappend_assoc.
    destruct (@records_app (joined r) _ (buffer ++ chunk)%string (le_n _))
      as [-> _].
    rewrite walk_app.
    destruct (@drain_walk lib _ (buffer ++ chunk)%string (le_n _))
      as (H1 & H2 & H3).
    rewrite H1. rewrite <- H2.
    destruct (snd (drain lib (buffer ++ chunk))) eqn:Hstop.
    + rewrite app_nil_r. reflexivity.
    + rewrite (H3 eq_refl). cbn [fst]. f_equal.
      apply IH. eapply remainder_no_delimiter. apply le_n.
Qed.

Lemma headers_no_data (fs : list (string * string)) :
  forall acc,
    Dict.get "data" acc = None ->
    Dict.get "data"
      (fold_left
         (fun event kv =>
            if String.eqb (fst kv) "data" then event
            else Dict.set (fst kv) (PStr (snd kv)) event)
         fs acc) = None.
Proof.
  induction fs as [|[k v] fs IH]; intros acc Hacc; simpl; [exact Hacc|].
  apply IH. destruct (String.eqb_spec k "data"); [exact Hacc|].
  rewrite dict_get_set_other by congruence. exact Hacc.
Qed.

(** The text before and after the first colon, as [split] gives it. *)
Lemma split_once_colon (s : string) : split_once ":" s = cut_at_colon s.
Proof.
  induction s as [|c r IH]; [reflexivity|].
  cbn [split_once cut_at_colon prefix String.length drop].
  destruct (Ascii.eqb_spec c ":") as [->|Hc].
  - destruct (ascii_dec ":" ":") as [_|H]; [|congruence].
    rewrite prefix_empty. reflexivity.
  - destruct (ascii_dec ":" c) as [H|_]; [congruence|].
    rewrite IH. reflexivity.
Qed.

(** The parser of the code reads a line as the claim does. *)
Lemma parse_line_field (line : string) :
  SSEParser.parse_line line = line_field line.
Proof.
  unfold SSEParser.parse_line, line_field.
  destruct (strip line) as [|c r]; [reflexivity|].
  cbn [String.eqb orb]. rewrite split_once_colon.
  cbn [prefix]. destruct (Ascii.eqb_spec c ":") as [->|Hc].
  - destruct (ascii_dec ":" ":") as [_|H]; [|congruence].
    rewrite prefix_empty. reflexivity.
  - destruct (ascii_dec ":" c) as [H|_]; [congruence|]. reflexivity.
Qed.

Lemma fields_values (name : string) (lines : list string) :
  field_values name lines
    = map snd (filter (fun kv => String.eqb (fst kv) name) (SSEParser.fields lines)).
Proof.
  induction lines as [|l r IH]; [reflexivity|].
  cbn [field_values SSEParser.fields]. rewrite parse_line_field.
  destruct (line_field l) as [[k v]|]; [|exact IH].
  cbn [filter fst]. destruct (String.eqb k name); [|exact IH].
  cbn [map snd]. rewrite IH. reflexivity.
Qed.

Lemma last_some {A} (x : A) (l : list A) :
  last (Some x :: map Some l) None =
  match last (map Some l) None with
  | Some y => Some y
  | None => Some x
  end.
Proof.
  revert x. induction l as [|y l IH]; intros x; [reflexivity|].
  change (last (Some x :: map Some (y :: l)) None)
    with (last (Some y :: map Some l) None).
  rewrite IH. cbn [map]. rewrite IH.
  destruct (last (map Some l) None); reflexivity.
Qed.

(** The [event] entry of the headers is the last [event] field. *)
Lemma headers_event (fs : list (string * string)) :
  forall acc,
    Dict.get "event"
      (fold_left
         (fun event kv =>
            if String.eqb (fst kv) "data" then event
            else Dict.set (fst kv) (PStr (snd kv)) event)
         fs acc) =
    match last (map Some (map snd (filter (fun kv => String.eqb (fst kv) "event") fs)))
            None with
    | Some v => Some (PStr v)
    | None => Dict.get "event" acc
    end.
Proof.
  induction fs as [|[k v] fs IH]; intros acc; [reflexivity|].
  cbn [fold_left filter fst snd]. rewrite IH.
  destruct (String.eqb_spec k "data") as [->|Hd]; [reflexivity|].
  destruct (String.eqb_spec k "event") as [->|He].
  - cbn [map snd]. rewrite last_some, dict_get_set_same.
    destruct (last _ None); reflexivity.
  - rewrite dict_get_set_other by congruence. reflexivity.
Qed.

(** The loop body of the framer does with a record what the amended
    claim says. *)
Lemma handle_record_amended (lib : Library) (record : string) :
  handle_record lib record = amended_action lib record.
Proof.
  unfold handle_record, amended_action, is_stop_record, data_payload,
    event_field, SSEParser.parse_event, decode_payload.
  rewrite !fields_values. unfold SSEParser.data_lines.
  set (fs := SSEParser.fields (split_lines record)).
  set (dl := map snd (filter (fun kv => String.eqb (fst kv) "data") fs)).
  pose proof (headers_event fs []) as He. fold (SSEParser.headers fs) in He.
  cbn [Dict.get] in He.
  set (ev := last (map Some (map snd (filter (fun kv => String.eqb (fst kv) "event") fs)))
               None) in *.
  destruct dl as [|d0 dl'] eqn:Hdl; cbn [nonempty].
  - cbn [orb]. destruct (nonempty (SSEParser.headers fs)) eqn:Hn.
    + unfold Dict.get_default. rewrite He.
      unfold SSEParser.headers. rewrite headers_no_data by reflexivity.
      destruct ev as [e|]; cbn [is_str]; [|reflexivity].
      destruct (String.eqb e "done"); reflexivity.
    + destruct (SSEParser.headers fs); [|discriminate Hn].
      cbn [Dict.get] in He. destruct ev; [discriminate He|]. reflexivity.
  - destruct (String.eqb (join nl (d0 :: dl')) "[DONE]"); [reflexivity|].
    cbn [orb].
    destruct (json_loads lib (join nl (d0 :: dl')));
      unfold Dict.get_default;
      rewrite dict_get_set_other by (intros E; discriminate E);
      rewrite dict_get_set_same, He;
      destruct ev as [e|]; cbn [is_str]; try reflexivity;
      destruct (String.eqb e "done"); reflexivity.
Qed.

(** On a record with no [event] field [done] the amended claim is the
    claim as stated. *)
Lemma amended_action_spec (lib : Library) (record : string) :
  no_done_event record = true ->
  amended_action lib record = spec_action lib record.
Proof.
  unfold no_done_event, amended_action, spec_action, is_stop_record.
  intros H. destruct (event_field record) as [e|].
  - destruct (String.eqb e "done"); [discriminate H|].
    rewrite orb_false_r. destruct (data_payload record) as [d|]; [|reflexivity].
    destruct (String.eqb d "[DONE]"); reflexivity.
  - rewrite orb_false_r. destruct (data_payload record) as [d|]; [|reflexivity].
    destruct (String.eqb d "[DONE]"); reflexivity.
Qed.

Lemma amended_action_sentinel (lib : Library) (record d : string) :
  data_payload record = Some d -> String.eqb d "[DONE]" = true ->
  amended_action lib record = Stop /\ spec_action lib record = Stop.
Proof.
  unfold amended_action, spec_action, is_stop_record. intros -> ->.
  split; reflexivity.
Qed.

(** Before the first [[DONE]] record the claim as stated and the amended
    claim read the records alike. *)
Lemma walk_before_sentinel (lib : Library) (records : list string) :
  forallb no_done_event (before_sentinel records) = true ->
  walk (amended_action lib) records = walk (spec_action lib) records.
Proof.
  induction records as [|r rest IH]; intros H; [reflexivity|].
  cbn [walk before_sentinel] in *.
  destruct (data_payload r) as [d|] eqn:Hd.
  - destruct (String.eqb d "[DONE]") eqn:Hs.
    + destruct (amended_action_sentinel lib r Hd Hs) as [-> ->]. reflexivity.
    + cbn [forallb] in H. apply andb_prop in H as [Hr Hrest].
      rewrite (amended_action_spec lib r Hr), (IH Hrest). reflexivity.
  - cbn [forallb] in H. apply andb_prop in H as [Hr Hrest].
    rewrite (amended_action_spec lib r Hr), (IH Hrest). reflexivity.
Qed.

(** C4, as the claim states it, fails: this input has two complete
    records, with the payloads [1] and [2], and none with the payload
    [[DONE]]; the claim wants [1] and [2] yielded, and the framer yields
    nothing, because the first record has a field [event: done]. *)
Lemma done_header_stops_the_stream :
  complete_records (joined done_header_stream)
    = [("event: done" ++ nl ++ "data: 1")%string; "data: 2"] /\
  map data_payload (complete_records (joined done_header_stream))
    = [Some "1"; Some "2"] /\
  spec_events Ref.lib (complete_records (joined done_header_stream))
    = [PInt 1; PInt 2] /\
  parse_openai_streaming_response Ref.lib done_header_stream = [].
Proof.
  repeat split; vm_compute; reflexivity.
Qed.

(** C4 (amended): the framer yields what the complete records of the
    whole text yield, whatever the fragment boundaries, and the remainder
    after the last delimiter is never decoded.  A record is read line by
    line: a line is stripped; an empty line and a line that begins with a
    colon are passed over; the name of a field is the text before the first
    colon and its value the text after it, both stripped, and a line with
    no colon is a name with an empty value.  The payload of a record is its
    [data] values joined by newlines.  The payloads yielded are the decoded
    payloads of the complete records that have one, in order, up to the
    first stop record: a record whose payload is [[DONE]], or whose last
    [event] field is [done].  A stop record yields nothing and ends the
    sequence, whatever follows it.  When no record before the first
    [[DONE]] record has an [event] field [done], this is what the claim
    states. *)
Theorem sse_stream_parsing :
  (forall (lib : Library) (fragments : list string),
      parse_openai_streaming_response lib fragments
        = amended_events lib (complete_records (joined fragments))) /\
  (forall (lib : Library) (f1 f2 : list string),
      joined f1 = joined f2 ->
      parse_openai_streaming_response lib f1
        = parse_openai_streaming_response lib f2) /\
  (forall (lib : Library) (fragments pre post : list string) (r : string),
      complete_records (joined fragments) = pre ++ r :: post ->
      is_stop_record r = true ->
      parse_openai_streaming_response lib fragments = amended_events lib pre) /\
  (forall (lib : Library) (fragments : list string),
      forallb no_done_event
        (before_sentinel (complete_records (joined fragments))) = true ->
      parse_openai_streaming_response lib fragments
        = spec_events lib (complete_records (joined fragments))).
Proof.
  assert (Hmain : forall lib fragments,
             parse_openai_streaming_response lib fragments
             = amended_events lib (complete_records (joined fragments))).
  { intros lib fragments. unfold parse_openai_streaming_response, amended_events.
    rewrite feed_walk by reflexivity. f_equal. apply walk_ext.
    apply Forall_forall. intros r _. apply handle_record_amended. }
  split; [exact Hmain|]. split; [|split].
  - intros lib f1 f2 E. rewrite !Hmain, E. reflexivity.
  - intros lib fragments pre post r E Hstop. rewrite Hmain, E.
    assert (Hr : amended_action lib r = Stop)
      by (unfold amended_action; rewrite Hstop; reflexivity).
    unfold amended_events. rewrite walk_app. cbn [walk]. rewrite Hr.
    cbn [fst snd].
    destruct (snd (walk (amended_action lib) pre)); [reflexivity|].
    cbn [fst]. apply app_nil_r.
  - intros lib fragments Hall. rewrite Hmain. unfold amended_events, spec_events.
    rewrite (walk_before_sentinel lib _ Hall). reflexivity.
Qed.

Lemma sse_stream_parsing_witness :
  forallb no_done_event
    (before_sentinel (complete_records (joined ragged_stream))) = true /\
  parse_openai_streaming_response Ref.lib ragged_stream = [PInt 1; PStr "{x"] /\
  remainder (joined ragged_stream) = "data: 4".
Proof.
  assert (H : forallb no_done_event
                (before_sentinel (complete_records (joined ragged_stream))) = true).
  { vm_compute. reflexivity. }
  split; [exact H|]. split; [|vm_compute; reflexivity].
  rewrite (proj2 (proj2 (proj2 sse_stream_parsing)) Ref.lib ragged_stream H).
  vm_compute. reflexivity.
Defined.

(* ===================================================================== *)
(** * Properties of the stream transducer *)
(* ===================================================================== *)

Lemma gbind_events {A B} (c : gen A) (k : A -> gen B) (st : stream_state) :
  events (gbind c k st) =
  events (c st) ++
  match outcome (c st) with
  | Ok a => events (k a (state_of (c st)))
  | Raise _ => []
  end.
Proof.
  unfold gbind, events, outcome, state_of.
  destruct (c st) as [[st1 evs1] [a|e]]; simpl.
  - destruct (k a st1) as [[st2 evs2] r]; reflexivity.
  - rewrite app_nil_r; reflexivity.
Qed.

(** A property of every event of [c] and of every event of [k] holds of
    every event of [c] followed by [k]. *)
Lemma gbind_forall {A B} (p : StreamingEvent -> bool) (c : gen A) (k : A -> gen B) :
  (forall st, forallb p (events (c st)) = true) ->
  (forall a st, forallb p (events (k a st)) = true) ->
  forall st, forallb p (events (gbind c k st)) = true.
Proof.
  intros Hc Hk st. rewrite gbind_events, forallb_app, Hc.
  destruct (outcome (c st)); [apply Hk | reflexivity].
Qed.

Lemma lift_forall {A} (p : StreamingEvent -> bool) (r : result A) (st : stream_state) :
  forallb p (events (lift r st)) = true.
Proof. reflexivity. Qed.

(** Prove that every event of a piece of the generator satisfies a test
    that holds of the events the piece yields by name. *)
Ltac gen_forall :=
  repeat first
    [ apply gbind_forall; intros
    | progress (intros; cbn [events snd fst lift gret modify get_state yield
                               forallb andb])
    | reflexivity
    | match goal with
      | |- context [if ?b then _ else _] => destruct b
      | |- context [match ?x with _ => _ end] => destruct x
      end ].

Lemma message_start_events (event delta : pyval) (st : stream_state) (d : dict) :
  event = PDict d ->
  exists m,
    events (message_start event delta st) =
    match py_get delta "role" PNone with
    | Ok r => if truthy r then [MessageStart m] else []
    | Raise _ => []
    end.
Proof.
  intros ->. unfold message_start.
  destruct delta as [| | | | |l|dl]; try (exists (current_message st); reflexivity).
  cbn [py_get]. unfold gbind, lift at 1.
  destruct (truthy (Dict.get_default "role" PNone dl)) eqn:Ht.
  - assert (Hr : exists x, Dict.get "role" dl = Some x).
    { unfold Dict.get_default in Ht.
      destruct (Dict.get "role" dl); [eauto | discriminate]. }
    destruct Hr as [x Hr].
    cbn. rewrite Hr. cbn. eexists; reflexivity.
  - exists (current_message st); reflexivity.
Qed.

Lemma content_delta_forall (p : StreamingEvent -> bool) (delta : pyval) :
  (forall i b, p (ContentBlockStart i b) = true) ->
  (forall i d, p (ContentBlockDelta i d) = true) ->
  forall st, forallb p (events (content_delta delta st)) = true.
Proof.
  intros H1 H2. unfold content_delta. gen_forall; rewrite ?H1, ?H2; reflexivity.
Qed.

Lemma tool_call_delta_forall (p : StreamingEvent -> bool) (lib : Library)
    (i : nat) (tool_call : pyval) :
  (forall i b, p (ContentBlockStart i b) = true) ->
  (forall i d, p (ContentBlockDelta i d) = true) ->
  forall st, forallb p (events (tool_call_delta lib i tool_call st)) = true.
Proof.
  intros H1 H2. unfold tool_call_delta. gen_forall; rewrite ?H1, ?H2; reflexivity.
Qed.

Lemma tool_call_loop_forall (p : StreamingEvent -> bool) (lib : Library)
    (calls : list pyval) :
  (forall i b, p (ContentBlockStart i b) = true) ->
  (forall i d, p (ContentBlockDelta i d) = true) ->
  forall i st, forallb p (events (tool_call_loop lib i calls st)) = true.
Proof.
  intros H1 H2. induction calls as [|c r IH]; intros i st; cbn [tool_call_loop].
  - reflexivity.
  - apply gbind_forall; intros; [apply tool_call_delta_forall; assumption | apply IH].
Qed.

Lemma tool_call_deltas_forall (p : StreamingEvent -> bool) (lib : Library)
    (delta : pyval) :
  (forall i b, p (ContentBlockStart i b) = true) ->
  (forall i d, p (ContentBlockDelta i d) = true) ->
  forall st, forallb p (events (tool_call_deltas lib delta st)) = true.
Proof.
  intros H1 H2. unfold tool_call_deltas.
  apply gbind_forall; intros; [apply lift_forall|].
  destruct a; [|reflexivity].
  apply gbind_forall; intros; [apply lift_forall|].
  apply gbind_forall; intros; [apply lift_forall|].
  apply tool_call_loop_forall; assumption.
Qed.

Lemma gbind_lift {A B} (r : result A) (k : A -> gen B) (st : stream_state) :
  gbind (lift r) k st =
  match r with
  | Ok a => k a st
  | Raise e => (st, [], Raise e)
  end.
Proof.
  unfold gbind, lift. destruct r as [a|e]; [|reflexivity].
  destruct (k a st) as [[st2 evs2] r2]; reflexivity.
Qed.

Lemma yield_all_run (evs : list StreamingEvent) (st : stream_state) :
  yield_all evs st = (st, evs, Ok tt).
Proof.
  induction evs as [|e r IH]; cbn [yield_all]; [reflexivity|].
  unfold gbind, yield. rewrite IH. reflexivity.
Qed.

Lemma gbind_yield_all {B} (evs : list StreamingEvent) (k : unit -> gen B)
    (st : stream_state) :
  gbind (yield_all evs) k st =
  (state_of (k tt st), evs ++ events (k tt st), outcome (k tt st)).
Proof.
  unfold gbind. rewrite yield_all_run.
  destruct (k tt st) as [[st2 evs2] r2]; reflexivity.
Qed.

(** Without a choice and a delta the loop body yields nothing and leaves
    the state as it is. *)
Lemma process_event_skip (lib : Library) (event : pyval) (st : stream_state) :
  chunk_delta event = None ->
  events (process_event lib event st) = [] /\
  state_of (process_event lib event st) = st.
Proof.
  unfold chunk_delta, chunk_choice, process_event. rewrite gbind_lift.
  destruct (py_in "choices" event) as [[|]|e]; try (intros _; split; reflexivity).
  rewrite gbind_lift.
  destruct (py_item event "choices") as [cs|e]; cbn [rbind];
    try (intros _; split; reflexivity).
  rewrite gbind_lift.
  destruct (py_item0 cs) as [c|e]; try (intros _; split; reflexivity).
  rewrite gbind_lift.
  destruct (py_get c "delta" (PDict [])) as [d|e]; [discriminate|].
  intros _; split; reflexivity.
Qed.

(** With them it runs the clauses before the finish reason, then the
    finish clause. *)
Lemma process_event_run (lib : Library) (event delta : pyval) (st : stream_state) :
  chunk_delta event = Some delta ->
  exists d c,
    event = PDict d /\ chunk_choice event = Some (PDict c) /\
    delta = Dict.get_default "delta" (PDict []) c /\
    process_event lib event st
      = gbind (before_finish lib event delta)
          (fun _ => finish event (PDict c)) st.
Proof.
  unfold chunk_delta, chunk_choice, process_event. rewrite gbind_lift.
  destruct (py_in "choices" event) as [[|]|e]; try discriminate.
  rewrite gbind_lift.
  destruct (py_item event "choices") as [cs|e] eqn:Hcs; cbn [rbind];
    try discriminate.
  rewrite gbind_lift.
  destruct (py_item0 cs) as [c|e]; try discriminate.
  rewrite gbind_lift.
  destruct (py_get c "delta" (PDict [])) as [dl|e] eqn:Hd; [|discriminate].
  intros H; inversion H; subst dl.
  destruct event as [| | | | |l|d]; try discriminate.
  apply py_get_ok in Hd as (c' & -> & ->).
  exists d, c'. repeat split; reflexivity.
Qed.

Lemma before_finish_forall (p : StreamingEvent -> bool) (lib : Library)
    (event delta : pyval) :
  (forall m, p (MessageStart m) = true) ->
  (forall i b, p (ContentBlockStart i b) = true) ->
  (forall i d, p (ContentBlockDelta i d) = true) ->
  forall st, forallb p (events (before_finish lib event delta st)) = true.
Proof.
  intros H0 H1 H2. unfold before_finish.
  apply gbind_forall; intros.
  { unfold message_start. gen_forall; rewrite ?H0; reflexivity. }
  apply gbind_forall; intros.
  { apply content_delta_forall; assumption. }
  apply tool_call_deltas_forall; assumption.
Qed.



Lemma finish_forall (p : StreamingEvent -> bool) (event choice : pyval) :
  (forall i, p (ContentBlockStop i) = true) ->
  (forall s u, p (MessageDelta s u) = true) ->
  p MessageStop = true ->
  forall st, forallb p (events (finish event choice st)) = true.
Proof.
  intros H1 H2 H3. unfold finish.
  apply gbind_forall; intros; [apply lift_forall|].
  destruct (truthy a); [|reflexivity].
  apply gbind_forall; intros; [reflexivity|].
  apply gbind_forall; intros.
  { rewrite yield_all_run. cbn [events fst snd].
    apply forallb_forall. intros e He. apply in_map_iff in He as (i & <- & _).
    apply H1. }
  gen_forall; rewrite ?H2, ?H3; reflexivity.
Qed.

(** The events of one chunk: [MessageStart] first, if the chunk carries a
    role, and no other [MessageStart]. *)
Lemma process_event_starts (lib : Library) (event : pyval) (st : stream_state) :
  exists m tl,
    events (process_event lib event st)
      = (if carries_role event then [MessageStart m] else []) ++ tl /\
    forallb (fun e => negb (is_message_start e)) tl = true.
Proof.
  unfold carries_role.
  destruct (chunk_delta event) as [delta|] eqn:Hd.
  - destruct (@process_event_run lib _ _ st Hd) as (d & c & -> & Hc & -> & ->).
    rewrite gbind_events. unfold before_finish at 1. rewrite gbind_events.
    destruct (@message_start_events (PDict d)
                (Dict.get_default "delta" (PDict []) c) st d eq_refl) as [m ->].
    exists m. eexists. split.
    + rewrite <- app_assoc. f_equal.
      destruct (py_get _ "role" PNone) as [r|e]; [|reflexivity].
      reflexivity.
    + rewrite forallb_app. apply andb_true_intro; split.
      * destruct (outcome _); [|reflexivity].
        apply gbind_forall; intros;
          [apply content_delta_forall | apply tool_call_deltas_forall];
          reflexivity.
      * destruct (outcome _); [|reflexivity].
        apply finish_forall; reflexivity.
  - destruct (@process_event_skip lib _ st Hd) as [-> _].
    exists (current_message st), []. split; reflexivity.
Qed.


Lemma run_stream_forall (p : StreamingEvent -> bool) (lib : Library)
    (chunks : list pyval) :
  Forall (fun c => forall st, forallb p (events (process_event lib c st)) = true)
         chunks ->
  forall st, forallb p (run_stream lib st chunks) = true.
Proof.
  induction 1 as [|c r Hc _ IH]; intros st; simpl; [reflexivity|].
  rewrite forallb_app. fold (events (process_event lib c st)).
  rewrite Hc. apply IH.
Qed.

Lemma filter_none {A} (p : A -> bool) (l : list A) :
  forallb (fun x => negb (p x)) l = true -> filter p l = [].
Proof.
  induction l as [|x l IH]; simpl; [reflexivity|].
  destruct (p x); simpl; [discriminate | exact IH].
Qed.

Lemma run_stream_starts (lib : Library) (chunks : list pyval) :
  forall st,
    List.length (filter is_message_start (run_stream lib st chunks))
      = List.length (filter carries_role chunks).
Proof.
  induction chunks as [|c r IH]; intros st; simpl; [reflexivity|].
  rewrite filter_app, length_app, IH.
  destruct (process_event_starts lib c st) as (m & tl & Hev & Htl).
  unfold events in Hev. rewrite Hev, filter_app, (filter_none _ _ Htl), app_nil_r.
  destruct (carries_role c); reflexivity.
Qed.

(** C2, as the claim states it, fails: two chunks carry a role and each
    of them yields a [MessageStart]; the second one comes after the
    content-block events of the chunk between them. *)
Lemma message_start_is_repeated :
  transform_openai_stream_to_anthropic Ref.lib
    [role_chunk; text_chunk "Hi"; role_chunk]
  = [MessageStart started_message;
     ContentBlockStart 0 empty_text_block;
     ContentBlockDelta 0 (TextDelta (PStr "Hi"));
     MessageStart
       {| sm_id := PStr "chatcmpl-123"; sm_type := "message";
          sm_role := PStr "assistant";
          sm_content := [Block {| cb_type := "text"; cb_text := PStr "Hi" |}];
          sm_model := PStr ""; sm_stop_reason := None;
          sm_stop_sequence := None; sm_usage := None |}].
Proof. vm_compute. reflexivity. Qed.

(** C2 (amended): every chunk whose delta carries a truthy role yields one
    [MessageStart], on each occurrence, as the first event of that chunk;
    the stream has as many [MessageStart] events as it has such chunks.
    When the first chunk carries a role and no later chunk does, the
    stream has exactly one [MessageStart], and it comes before every other
    event, so before every content-block event. *)
Theorem message_start_per_role_chunk :
  (forall (lib : Library) (chunks : list pyval),
      List.length (filter is_message_start
                     (transform_openai_stream_to_anthropic lib chunks))
        = List.length (filter carries_role chunks)) /\
  (forall (lib : Library) (c : pyval) (rest : list pyval),
      carries_role c = true ->
      Forall (fun p => carries_role p = false) rest ->
      exists m tl,
        transform_openai_stream_to_anthropic lib (c :: rest) = MessageStart m :: tl /\
        forallb (fun e => negb (is_message_start e)) tl = true).
Proof.
  split.
  - intros lib chunks. apply run_stream_starts.
  - intros lib c rest Hc Hrest.
    unfold transform_openai_stream_to_anthropic. cbn [run_stream].
    destruct (process_event_starts lib c initial_state) as (m & tl & Hev & Htl).
    unfold events in Hev. rewrite Hev, Hc.
    exists m. eexists. split; [reflexivity|].
    rewrite forallb_app, Htl. cbn [andb].
    apply run_stream_forall.
    eapply Forall_impl; [|exact Hrest].
    intros p Hp st.
    destruct (process_event_starts lib p st) as (m' & tl' & Hev' & Htl').
    rewrite Hev', Hp. exact Htl'.
Qed.

Lemma message_start_per_role_chunk_witness :
  exists m tl,
    transform_openai_stream_to_anthropic Ref.lib
      [role_chunk; text_chunk "Hi"; text_chunk " there"; finish_chunk]
      = MessageStart m :: tl /\
    forallb (fun e => negb (is_message_start e)) tl = true.
Proof.
  apply (proj2 message_start_per_role_chunk Ref.lib role_chunk
           [text_chunk "Hi"; text_chunk " there"; finish_chunk]).
  - reflexivity.
  - repeat constructor.
Defined.




(* ===================================================================== *)
(** * Tool-call arguments that are not JSON *)
(* ===================================================================== *)

(** C3: the response mapper turns tool-call arguments that are not JSON
    into the empty object and appends the [ToolUse]; the stream transducer
    does not: [json.loads] raises inside the loop body, the handler around
    the body swallows the exception, and the chunk yields no event at all,
    neither [ContentBlockStart] nor [ContentBlockDelta]. *)
Theorem malformed_tool_arguments :
  (forall (lib : Library) (d fd : dict) (s : string),
      Dict.get "function" d = Some (PDict fd) -> fd <> [] ->
      Dict.get "arguments" fd = Some (PStr s) ->
      json_loads lib s = None ->
      response_tool_use lib (PDict d)
        = Ok (Some {| tu_id := Dict.get_default "id" (PStr "") d;
                      tu_name := Dict.get_default "name" (PStr "") fd;
                      tu_input := PDict []; tu_type := "tool_use" |})) /\
  (forall (lib : Library) (i : nat) (d fd : dict) (s : string) (st : stream_state),
      Dict.get "function" d = Some (PDict fd) -> fd <> [] ->
      Dict.get "arguments" fd = Some (PStr s) -> s <> "" ->
      json_loads lib s = None ->
      tool_call_delta lib i (PDict d) st = (st, [], Raise JSONDecodeError)) /\
  json_loads Ref.lib "{bad json" = None /\
  (exists m,
      transform_openai_to_anthropic Ref.lib "0" bad_arguments_response = Ok m /\
      msg_content m = [Tool empty_input_tool_use]) /\
  transform_openai_stream_to_anthropic Ref.lib [bad_arguments_chunk] = [].
Proof.
  split; [|split; [|split; [|split]]].
  - intros lib d fd s Hf Hne Ha Hj.
    unfold response_tool_use. cbn [py_get rbind]. unfold Dict.get_default.
    rewrite Hf. destruct fd as [|kv fd]; [contradiction|].
    cbn [truthy py_get rbind]. unfold Dict.get_default. rewrite Ha.
    unfold loads_or_empty, py_json_loads. rewrite Hj. reflexivity.
  - intros lib i d fd s st Hf Hne Ha Hs Hj.
    unfold tool_call_delta. rewrite gbind_lift. cbn [py_get].
    unfold Dict.get_default. rewrite Hf.
    destruct fd as [|kv fd]; [contradiction|]. cbn [truthy].
    rewrite !gbind_lift. cbn [py_get]. rewrite !gbind_lift.
    unfold Dict.get_default. rewrite Ha.
    assert (Ht : truthy (PStr s) = true).
    { simpl. destruct (String.eqb_spec s ""); [contradiction | reflexivity]. }
    rewrite Ht. unfold gbind, lift, py_json_loads. rewrite Hj. reflexivity.
  - vm_compute. reflexivity.
  - eexists; split; vm_compute; reflexivity.
  - vm_compute. reflexivity.
Qed.

Lemma malformed_tool_arguments_witness :
  response_tool_use Ref.lib bad_arguments_call = Ok (Some empty_input_tool_use) /\
  tool_call_delta Ref.lib 0 bad_arguments_call initial_state
    = (initial_state, [], Raise JSONDecodeError).
Proof.
  split.
  - apply (proj1 malformed_tool_arguments Ref.lib
             [("id", PStr "call_1");
              ("function", PDict [("name", PStr "get_weather");
                                  ("arguments", PStr "{bad json")])]
             [("name", PStr "get_weather"); ("arguments", PStr "{bad json")]
             "{bad json" eq_refl);
      [intros E; discriminate E | reflexivity | vm_compute; reflexivity].
  - apply (proj1 (proj2 malformed_tool_arguments) Ref.lib 0
             [("id", PStr "call_1");
              ("function", PDict [("name", PStr "get_weather");
                                  ("arguments", PStr "{bad json")])]
             [("name", PStr "get_weather"); ("arguments", PStr "{bad json")]
             "{bad json" initial_state eq_refl);
      [intros E; discriminate E | reflexivity | intros E; discriminate E
      | vm_compute; reflexivity].
Defined.

(* ===================================================================== *)
(** * Properties of the SSE parser *)
(* ===================================================================== *)

Lemma lstrip_space_prefix (s : string) :
  lstrip s = match space_prefix s with
             | Some r => lstrip r
             | None => s
             end.
Proof.
  destruct s as [|c1 [|c2 [|c3 r]]]; cbn [lstrip space_prefix];
    try reflexivity.
  - destruct (is_space c1); reflexivity.
  - destruct (is_space c1); [reflexivity|].
    destruct (is_space2 c1 c2); reflexivity.
  - destruct (is_space c1); [reflexivity|].
    destruct (is_space2 c1 c2); [reflexivity|].
    destruct (is_space3 c1 c2 c3); reflexivity.
Qed.

Lemma space_prefix_shorter (s r : string) :
  space_prefix s = Some r -> String.length r < String.length s.
Proof.
  destruct s as [|c1 [|c2 [|c3 r3]]]; cbn [space_prefix String.length];
    try discriminate.
  - destruct (is_space c1); [|discriminate].
    intros H; inversion H; cbn; lia.
  - destruct (is_space c1); [intros H; inversion H; cbn; lia|].
    destruct (is_space2 c1 c2); [|discriminate].
    intros H; inversion H; cbn; lia.
  - destruct (is_space c1); [intros H; inversion H; cbn; lia|].
    destruct (is_space2 c1 c2); [intros H; inversion H; cbn; lia|].
    destruct (is_space3 c1 c2 c3); [|discriminate].
    intros H; inversion H; lia.
Qed.

(** A text that begins with a white-space character still does when more
    text follows it. *)
Lemma space_prefix_app (p x q : string) :
  space_prefix p = Some x -> space_prefix (p ++ q) = Some (x ++ q)%string.
Proof.
  destruct p as [|c1 [|c2 [|c3 r3]]];
    cbn [space_prefix String.append]; try discriminate.
  - destruct (is_space c1); [|discriminate].
    intros H; inversion H. destruct q; reflexivity.
  - destruct (is_space c1); [intros H; inversion H; reflexivity|].
    destruct (is_space2 c1 c2); [|discriminate].
    intros H; inversion H. destruct q; reflexivity.
  - destruct (is_space c1); [intros H; inversion H; reflexivity|].
    destruct (is_space2 c1 c2); [intros H; inversion H; reflexivity|].
    destruct (is_space3 c1 c2 c3); [|discriminate].
    intros H; inversion H. reflexivity.
Qed.

(** What [lstrip] returns begins with no white space. *)
Lemma lstrip_clean (s : string) : space_prefix (lstrip s) = None.
Proof.
  remember (String.length s) as n eqn:Hn.
  revert s Hn. induction n as [n IH] using lt_wf_ind. intros s Hn.
  rewrite lstrip_space_prefix.
  destruct (space_prefix s) as [r|] eqn:Hs; [|exact Hs].
  apply (IH (String.length r)); [|reflexivity].
  subst n. apply space_prefix_shorter, Hs.
Qed.

Lemma lstrip_fixed (s : string) : space_prefix s = None -> lstrip s = s.
Proof. intros H. rewrite lstrip_space_prefix, H. reflexivity. Qed.

Lemma rstrip_cons (c : ascii) (r : string) :
  rstrip (String c r) =
  match space_prefix (String c (rstrip r)) with
  | Some "" => ""
  | _ => String c (rstrip r)
  end.
Proof. reflexivity. Qed.

(** What [rstrip] returns is the beginning of the text. *)
Lemma rstrip_prefix (s : string) : exists q, s = (rstrip s ++ q)%string.
Proof.
  induction s as [|c r [q IH]]; [exists ""; reflexivity|].
  rewrite rstrip_cons.
  destruct (space_prefix (String c (rstrip r))) as [[|x y]|].
  - exists (String c r). reflexivity.
  - exists q. cbn [String.append]. rewrite <- IH. reflexivity.
  - exists q. cbn [String.append]. rewrite <- IH. reflexivity.
Qed.

Lemma rstrip_rstrip (s : string) : rstrip (rstrip s) = rstrip s.
Proof.
  induction s as [|c r IH]; [reflexivity|]. rewrite rstrip_cons.
  destruct (space_prefix (String c (rstrip r))) as [[|x y]|] eqn:Hp;
    [reflexivity| |]; rewrite rstrip_cons, IH, Hp; reflexivity.
Qed.

(** Stripping on the right keeps the first byte of a text that begins
    with no white space. *)
Lemma rstrip_head (c : ascii) (r : string) :
  space_prefix (String c r) = None ->
  exists r', rstrip (String c r) = String c r'.
Proof.
  intros H. rewrite rstrip_cons.
  destruct (space_prefix (String c (rstrip r))) as [[|x y]|] eqn:Hp; eauto.
  destruct (rstrip_prefix r) as [q Hq].
  apply (@space_prefix_app _ _ q) in Hp. cbn [String.append] in Hp.
  rewrite <- Hq in Hp. congruence.
Qed.

Lemma rstrip_clean (s : string) :
  space_prefix s = None -> space_prefix (rstrip s) = None.
Proof.
  intros H. destruct (space_prefix (rstrip s)) as [x|] eqn:Hp; [|reflexivity].
  destruct (rstrip_prefix s) as [q Hq].
  apply (@space_prefix_app _ _ q) in Hp. rewrite <- Hq in Hp. congruence.
Qed.

(** What [strip] returns begins with no white space, and stripping it
    again changes nothing. *)
Lemma strip_clean (s : string) : space_prefix (strip s) = None.
Proof. apply rstrip_clean, lstrip_clean. Qed.

Lemma strip_strip (s : string) : strip (strip s) = strip s.
Proof.
  unfold strip at 1. rewrite (@lstrip_fixed _ (strip_clean s)).
  unfold strip. apply rstrip_rstrip.
Qed.

Lemma strip_head (c : ascii) (r : string) :
  space_prefix (String c r) = None ->
  exists r', strip (String c r) = String c r'.
Proof.
  intros H. unfold strip. rewrite (@lstrip_fixed _ H). apply rstrip_head, H.
Qed.

Lemma prefix_colon (c : ascii) (r : string) :
  prefix ":" (String c r) = Ascii.eqb c ":".
Proof.
  cbn [prefix]. destruct (Ascii.eqb_spec c ":") as [->|Hc].
  - destruct (ascii_dec ":" ":") as [_|H]; [|congruence]. apply prefix_empty.
  - destruct (ascii_dec ":" c) as [H|_]; [congruence|]. reflexivity.
Qed.

Lemma cut_at_colon_prefix (s k v : string) :
  cut_at_colon s = Some (k, v) -> exists q, s = (k ++ q)%string.
Proof.
  revert k v. induction s as [|c r IH]; intros k v; [discriminate|].
  cbn [cut_at_colon]. destruct (Ascii.eqb c ":").
  - intros H; inversion H; subst. eexists. reflexivity.
  - destruct (cut_at_colon r) as [[k' v']|]; [|discriminate].
    intros H; inversion H; subst. destruct (IH _ _ eq_refl) as [q ->].
    exists q. reflexivity.
Qed.

(** X1: a line that [parse_line] accepts gives a key that is not empty
    and begins neither with a colon nor with white space, and both the key
    and the value come back stripped of the white space around them. *)
Theorem parse_line_key_value (line key value : string) :
  SSEParser.parse_line line = Some (key, value) ->
  key <> "" /\ prefix ":" key = false /\ space_prefix key = None /\
  strip key = key /\ strip value = value.
Proof.
  rewrite parse_line_field. unfold line_field.
  pose proof (strip_clean line) as Hc. pose proof (strip_strip line) as Hs.
  destruct (strip line) as [|c r] eqn:Hl; [discriminate|].
  destruct (Ascii.eqb c ":") eqn:Hcolon; [discriminate|].
  cbn [cut_at_colon]. rewrite Hcolon.
  destruct (cut_at_colon r) as [[k v]|] eqn:Hcut.
  - intros H; inversion H; subst key value; clear H.
    destruct (@cut_at_colon_prefix r k v Hcut) as [q Hq].
    assert (Hk : space_prefix (String c k) = None).
    { destruct (space_prefix (String c k)) as [x|] eqn:Hp; [|reflexivity].
      apply (@space_prefix_app _ _ q) in Hp. cbn [String.append] in Hp.
      rewrite <- Hq in Hp. congruence. }
    destruct (@strip_head c k Hk) as [r' Hr'].
    split; [rewrite Hr'; discriminate|].
    split; [rewrite Hr', prefix_colon; exact Hcolon|].
    split; [apply strip_clean|]. split; apply strip_strip.
  - intros H; inversion H; subst key value; clear H.
    split; [discriminate|]. split; [rewrite prefix_colon; exact Hcolon|].
    split; [exact Hc|]. split; [exact Hs | reflexivity].
Qed.

Lemma parse_line_key_value_witness :
  SSEParser.parse_line (em_space ++ " data :  [DONE]" ++ nbsp)
    = Some ("data", "[DONE]") /\
  "data" <> "" /\ prefix ":" "data" = false /\ space_prefix "data" = None /\
  strip "data" = "data" /\ strip "[DONE]" = "[DONE]".
Proof.
  split; [reflexivity|].
  exact (@parse_line_key_value (em_space ++ " data :  [DONE]" ++ nbsp)
           "data" "[DONE]" eq_refl).
Defined.

(** [parse_line] passes over the lines that hold only white space and
    the comments, and over no other line. *)
Lemma parse_line_none (line : string) :
  SSEParser.parse_line line = None <-> blank_or_comment line = true.
Proof.
  rewrite parse_line_field. unfold line_field, blank_or_comment, strip.
  pose proof (lstrip_clean line) as Hc.
  destruct (lstrip line) as [|c r]; [split; reflexivity|].
  destruct (@rstrip_head c r Hc) as [r' ->].
  destruct (Ascii.eqb c ":"); [split; reflexivity|].
  destruct (cut_at_colon (String c r')) as [[k v]|]; split; discriminate.
Qed.

Lemma fields_nil (lines : list string) :
  SSEParser.fields lines = [] <-> forallb blank_or_comment lines = true.
Proof.
  induction lines as [|l r IH]; simpl; [split; auto|].
  destruct (SSEParser.parse_line l) as [kv|] eqn:Hl.
  - split; [discriminate|]. intros H. apply andb_prop in H as [H _].
    apply parse_line_none in H. congruence.
  - apply parse_line_none in Hl. rewrite Hl. exact IH.
Qed.

Lemma dict_set_nonempty (k : string) (v : pyval) (d : dict) : Dict.set k v d <> [].
Proof.
  destruct d as [|[k' v'] d]; simpl; [discriminate|].
  destruct (String.eqb k k'); discriminate.
Qed.

Lemma headers_fold_nonempty (fs : list (string * string)) :
  forall acc,
    acc <> [] ->
    fold_left
      (fun event kv =>
         if String.eqb (fst kv) "data" then event
         else Dict.set (fst kv) (PStr (snd kv)) event)
      fs acc <> [].
Proof.
  induction fs as [|kv r IH]; simpl; intros acc Hacc; [exact Hacc|].
  apply IH. destruct (String.eqb (fst kv) "data"); [exact Hacc|].
  apply dict_set_nonempty.
Qed.

(** A record with a field has a data line or a header. *)
Lemma fields_data_or_header (fs : list (string * string)) :
  fs <> [] ->
  SSEParser.data_lines fs <> [] \/ SSEParser.headers fs <> [].
Proof.
  unfold SSEParser.headers, SSEParser.data_lines.
  destruct fs as [|kv r]; intros H; [congruence|]. simpl.
  destruct (String.eqb (fst kv) "data") eqn:Hk; simpl.
  - left; discriminate.
  - right. apply headers_fold_nonempty. discriminate.
Qed.

(** X2: [parse_event] returns [None] exactly for a record all of whose
    lines hold only white space or are comments; the event it returns
    otherwise is never the empty dict; and when the [data] values of the
    record, joined by newlines, make up the sentinel, the event is
    [{"event": "done"}] whatever other fields the record has. *)
Theorem parse_event_result (lib : Library) (record : string) :
  (SSEParser.parse_event lib record = None <->
   forallb blank_or_comment (split_lines record) = true) /\
  (forall event, SSEParser.parse_event lib record = Some event -> event <> []) /\
  (data_payload record = Some "[DONE]" ->
   SSEParser.parse_event lib record = Some [("event", PStr "done")]).
Proof.
  rewrite <- fields_nil. unfold SSEParser.parse_event, data_payload.
  rewrite fields_values. fold (SSEParser.data_lines (SSEParser.fields (split_lines record))).
  set (fs := SSEParser.fields (split_lines record)).
  split; [|split].
  - split.
    + intros H. destruct fs as [|kv r] eqn:Hfs; [reflexivity|]. exfalso.
      destruct (@fields_data_or_header (kv :: r)) as [Hd|Hh]; [discriminate| |].
      * destruct (SSEParser.data_lines (kv :: r)); [congruence|].
        cbn [nonempty] in H. destruct (String.eqb _ _); [discriminate|].
        destruct (json_loads lib _); discriminate.
      * destruct (SSEParser.data_lines (kv :: r)).
        -- cbn [nonempty] in H.
           destruct (SSEParser.headers (kv :: r)); [congruence|discriminate].
        -- cbn [nonempty] in H. destruct (String.eqb _ _); [discriminate|].
           destruct (json_loads lib _); discriminate.
    + intros ->. reflexivity.
  - intros event.
    destruct (nonempty (SSEParser.data_lines fs)).
    + destruct (String.eqb _ _).
      * intros H; inversion H; discriminate.
      * destruct (json_loads lib _); intros H; inversion H;
          apply dict_set_nonempty.
    + destruct (SSEParser.headers fs); [discriminate|].
      intros H; inversion H; discriminate.
  - destruct (SSEParser.data_lines fs) as [|d0 dl]; [discriminate|].
    intros H. assert (H' : join nl (d0 :: dl) = "[DONE]") by congruence.
    cbn [nonempty]. rewrite H'. reflexivity.
Qed.

Lemma parse_event_result_witness :
  SSEParser.parse_event Ref.lib ("event: ping" ++ nl ++ "data: [DONE]" ++ nbsp)
    = Some [("event", PStr "done")].
Proof.
  apply (parse_event_result Ref.lib
           ("event: ping" ++ nl ++ "data: [DONE]" ++ nbsp)).
  reflexivity.
Defined.

(* ===================================================================== *)
(** * Properties of the stream transducer: blocks, indices and text *)
(* ===================================================================== *)

Lemma block_starts_app (a b : list StreamingEvent) :
  block_starts (a ++ b) = block_starts a + block_starts b.
Proof. unfold block_starts. rewrite filter_app, length_app. reflexivity. Qed.

Lemma stops_in_range_app (a b : list StreamingEvent) :
  forall n,
    stops_in_range n (a ++ b)
      = stops_in_range n a && stops_in_range (n + block_starts a) b.
Proof.
  induction a as [|e a IH]; intros n; simpl.
  - rewrite Nat.add_0_r. reflexivity.
  - destruct e; rewrite ?IH; unfold block_starts; simpl;
      rewrite ?Nat.add_succ_r, ?andb_assoc; reflexivity.
Qed.

Lemma streamed_text_app (a b : list StreamingEvent) :
  streamed_text (a ++ b) = (streamed_text a ++ streamed_text b)%string.
Proof.
  induction a as [|e a IH]; simpl; [reflexivity|].
  destruct e as [m|i b0|i [[| | | |s|l|d]|x]|i|s u|]; try exact IH.
  rewrite IH, sappend_assoc. reflexivity.
Qed.

Lemma stops_in_range_mono (evs : list StreamingEvent) :
  forall n m, n <= m -> stops_in_range n evs = true -> stops_in_range m evs = true.
Proof.
  induction evs as [|e r IH]; intros n m Hnm; simpl; [reflexivity|].
  destruct e; eauto with arith.
  intros H. apply andb_prop in H as [Hi Hr].
  apply Nat.ltb_lt in Hi. apply andb_true_intro; split.
  - apply Nat.ltb_lt. lia.
  - eapply IH; eassumption.
Qed.

Lemma stops_seq (n : nat) :
  forall k, stops_in_range (k + n) (map ContentBlockStop (seq k n)) = true.
Proof.
  induction n as [|n IH]; intros k; simpl; [reflexivity|].
  apply andb_true_intro; split; [apply Nat.ltb_lt; lia|].
  replace (k + S n) with (S k + n) by lia. apply IH.
Qed.

Lemma keeps_at_gbind {A B} (c : gen A) (k : A -> gen B) (st : stream_state) :
  keeps_inv_at c st -> (forall a, keeps_inv (k a)) -> keeps_inv_at (gbind c k) st.
Proof.
  intros Hc Hk evs H. specialize (Hc evs H).
  unfold gbind, state_of, events in *.
  destruct (c st) as [[st1 evs1] [a|e]]; simpl in *.
  - specialize (Hk a st1 _ Hc). unfold state_of, events in Hk.
    destruct (k a st1) as [[st2 evs2] r]; simpl in *.
    rewrite app_assoc. exact Hk.
  - exact Hc.
Qed.

Lemma keeps_gbind {A B} (c : gen A) (k : A -> gen B) :
  keeps_inv c -> (forall a, keeps_inv (k a)) -> keeps_inv (gbind c k).
Proof. intros Hc Hk st. apply keeps_at_gbind; [apply Hc | exact Hk]. Qed.

Lemma keeps_get_state {B} (k : stream_state -> gen B) :
  (forall st, keeps_inv_at (k st) st) -> keeps_inv (gbind get_state k).
Proof.
  intros Hk st evs H. specialize (Hk st evs H).
  unfold gbind, get_state, state_of, events in *.
  destruct (k st st) as [[st2 evs2] r]; exact Hk.
Qed.

Lemma keeps_lift {A} (r : result A) : keeps_inv (lift r).
Proof. intros st evs H. cbn. rewrite app_nil_r. exact H. Qed.

Lemma keeps_gret {A} (a : A) : keeps_inv (gret a).
Proof. intros st evs H. cbn. rewrite app_nil_r. exact H. Qed.

Ltac inv_solve :=
  unfold stream_inv;
  cbn [content_blocks current_message sm_content set_head_block append_block
       set_message replace_head state_of events fst snd];
  cbn [tl List.length] in *;
  repeat
    (progress
       (rewrite ?app_nil_r, ?block_starts_app, ?stops_in_range_app, ?filter_app,
          ?length_app, ?streamed_text_app, ?forallb_app, ?sappend_nil_r;
        repeat match goal with
               | H : content_blocks _ = _ |- _ => rewrite H
               | H : sm_content _ = _ |- _ => rewrite H
               | H : stops_in_range _ _ = _ |- _ => rewrite H
               | H : streamed_text _ = _ |- _ => rewrite H
               | H : cb_text _ = _ |- _ => rewrite H
               | H : forallb is_tool_block _ = _ |- _ => rewrite H
               end;
        cbn [app List.length filter is_text_start is_block_start block_starts
             stops_in_range streamed_text andb replace_head cb_text cb_type
             String.append tl forallb is_tool_block]));
  repeat split; try reflexivity; try assumption; try lia.

Lemma content_delta_keeps (delta : pyval) : keeps_inv (content_delta delta).
Proof.
  unfold content_delta. apply keeps_gbind; [apply keeps_lift|]; intros has.
  apply keeps_gbind; [destruct has; [apply keeps_lift|apply keeps_gret]|].
  intros c. destruct (has && truthy c); [|apply keeps_gret].
  intros st evs (Hc & Hl & Hs & Hq & Ht & Hx).
  unfold gbind, get_state, modify, yield, gret, lift, state_of, events.
  destruct (content_blocks st) as [|[b|t] r] eqn:Hb; cbn; rewrite ?Hb; cbn.
  - destruct c; cbn; inv_solve.
  - rewrite Hx. destruct c; cbn; inv_solve.
  - inv_solve.
Qed.

Lemma tool_call_delta_keeps (lib : Library) (i : nat) (tool_call : pyval) :
  keeps_inv (tool_call_delta lib i tool_call).
Proof.
  unfold tool_call_delta.
  apply keeps_gbind; [apply keeps_lift|]; intros f.
  destruct (truthy f); [|apply keeps_gret].
  apply keeps_gbind; [apply keeps_lift|]; intros id.
  apply keeps_gbind; [apply keeps_lift|]; intros name.
  apply keeps_gbind; [apply keeps_lift|]; intros a.
  apply keeps_gbind.
  { destruct (truthy a); [|apply keeps_gret].
    apply keeps_gbind; [apply keeps_lift|]; intros a'. apply keeps_lift. }
  intros input st evs (Hc & Hl & Hs & Hq & Ht & Hx).
  unfold gbind, get_state, modify, yield, gret, lift, state_of, events. cbn.
  destruct (List.length (content_blocks st) <=? i)%nat; cbn;
    destruct (content_blocks st) as [|[b|t'] r] eqn:Hb; inv_solve.
Qed.

Lemma tool_call_loop_keeps (lib : Library) (calls : list pyval) :
  forall i, keeps_inv (tool_call_loop lib i calls).
Proof.
  induction calls as [|c r IH]; intros i; simpl; [apply keeps_gret|].
  apply keeps_gbind; [apply tool_call_delta_keeps|]. intros _. apply IH.
Qed.

Lemma tool_call_deltas_keeps (lib : Library) (delta : pyval) :
  keeps_inv (tool_call_deltas lib delta).
Proof.
  unfold tool_call_deltas. apply keeps_gbind; [apply keeps_lift|]; intros has.
  destruct has; [|apply keeps_gret].
  apply keeps_gbind; [apply keeps_lift|]; intros l.
  apply keeps_gbind; [apply keeps_lift|]; intros calls.
  apply tool_call_loop_keeps.
Qed.

(** The steps that change neither list of blocks and yield no
    content-block event. *)
Ltac keeps_message :=
  let Hc := fresh in let Hl := fresh in let Hs := fresh in
  let Ht := fresh in let Hx := fresh in let Hb := fresh in
  let Hq := fresh in
  unfold keeps_inv, keeps_inv_at; intros;
  match goal with
  | H : stream_inv _ _ |- _ => destruct H as (Hc & Hl & Hs & Hq & Ht & Hx)
  end; cbn;
  match type of Hl with
  | List.length (content_blocks ?st) = _ =>
      destruct (content_blocks st) as [|[?|?] ?] eqn:Hb
  end; inv_solve.

Lemma message_start_keeps (event delta : pyval) :
  keeps_inv (message_start event delta).
Proof.
  unfold message_start. apply keeps_gbind; [apply keeps_lift|]; intros r.
  destruct (truthy r); [|apply keeps_gret].
  apply keeps_gbind; [apply keeps_lift|]; intros i.
  apply keeps_gbind; [keeps_message|]; intros _.
  apply keeps_gbind; [apply keeps_lift|]; intros mo.
  apply keeps_gbind; [keeps_message|]; intros _.
  apply keeps_gbind; [apply keeps_lift|]; intros ro.
  apply keeps_gbind; [keeps_message|]; intros _.
  apply keeps_get_state; intros st. keeps_message.
Qed.

Lemma yield_stops_keeps (st : stream_state) :
  keeps_inv_at
    (yield_all (map ContentBlockStop (seq 0 (List.length (content_blocks st)))))
    st.
Proof.
  intros evs (Hc & Hl & Hs & Hq & Ht & Hx). rewrite yield_all_run.
  assert (Hf : forall l, filter is_text_start (map ContentBlockStop l) = []).
  { induction l; simpl; auto. }
  assert (Hb : forall l, block_starts (map ContentBlockStop l) = 0).
  { unfold block_starts. induction l; simpl; auto. }
  assert (Hz : forall l, streamed_text (map ContentBlockStop l) = "").
  { induction l; simpl; auto. }
  unfold stream_inv. cbn [state_of events fst snd].
  rewrite block_starts_app, stops_in_range_app, filter_app, length_app,
    streamed_text_app, Hf, Hb, Hz, Hs, sappend_nil_r, Nat.add_0_r, <- Hl.
  cbn [List.length andb]. rewrite Nat.add_0_r.
  repeat split; try assumption. apply (stops_seq _ 0).
Qed.

Lemma finish_keeps (event choice : pyval) : keeps_inv (finish event choice).
Proof.
  unfold finish. apply keeps_gbind; [apply keeps_lift|]; intros fr.
  destruct (truthy fr); [|apply keeps_gret].
  apply keeps_get_state; intros st.
  apply keeps_at_gbind; [apply yield_stops_keeps|]; intros _.
  apply keeps_gbind; [apply keeps_lift|]; intros sr.
  apply keeps_gbind; [keeps_message|]; intros _.
  apply keeps_gbind; [apply keeps_lift|]; intros has.
  apply keeps_gbind.
  { destruct has; [|apply keeps_gret].
    apply keeps_gbind; [apply keeps_lift|]; intros usage_data.
    apply keeps_gbind; [apply keeps_lift|]; intros it.
    apply keeps_gbind; [apply keeps_lift|]; intros ot. keeps_message. }
  intros _. apply keeps_get_state; intros st'.
  apply keeps_at_gbind; [keeps_message|]. intros _. keeps_message.
Qed.

Lemma process_event_keeps (lib : Library) (event : pyval) :
  keeps_inv (process_event lib event).
Proof.
  unfold process_event. apply keeps_gbind; [apply keeps_lift|]; intros has.
  destruct has; [|apply keeps_gret].
  apply keeps_gbind; [apply keeps_lift|]; intros cs.
  apply keeps_gbind; [apply keeps_lift|]; intros choice.
  apply keeps_gbind; [apply keeps_lift|]; intros delta.
  apply keeps_gbind; [|intros _; apply finish_keeps].
  unfold before_finish.
  apply keeps_gbind; [apply message_start_keeps|]; intros _.
  apply keeps_gbind; [apply content_delta_keeps|]; intros _.
  apply tool_call_deltas_keeps.
Qed.

Lemma initial_inv : stream_inv initial_state [].
Proof. repeat split. Qed.

(** The invariant holds after every chunk. *)
Lemma run_stream_inv (lib : Library) (chunks : list pyval) :
  forall st evs,
    stream_inv st evs ->
    stream_inv (run_state lib st chunks) (evs ++ run_stream lib st chunks).
Proof.
  induction chunks as [|c r IH]; intros st evs H; simpl.
  - rewrite app_nil_r. exact H.
  - rewrite app_assoc. apply IH. apply (@process_event_keeps lib c st evs H).
Qed.

Lemma tool_call_loop_text_index (lib : Library) (calls : list pyval) :
  forall i st,
    forallb text_index_zero (events (tool_call_loop lib i calls st)) = true.
Proof.
  induction calls as [|c r IH]; intros i st; cbn [tool_call_loop].
  - reflexivity.
  - apply gbind_forall; intros; [unfold tool_call_delta; gen_forall | apply IH].
Qed.

Lemma process_event_text_index (lib : Library) (event : pyval) (st : stream_state) :
  forallb text_index_zero (events (process_event lib event st)) = true.
Proof.
  unfold process_event.
  apply gbind_forall; [intros; apply lift_forall | intros has ?].
  destruct has; [|reflexivity].
  do 3 (apply gbind_forall; [intros; apply lift_forall | intros ? ?]).
  apply gbind_forall; [intros | intros; apply finish_forall; reflexivity].
  unfold before_finish.
  apply gbind_forall; [intros; unfold message_start; gen_forall | intros ? ?].
  apply gbind_forall; [intros; unfold content_delta; gen_forall | intros ? ?].
  unfold tool_call_deltas.
  apply gbind_forall; [intros; apply lift_forall | intros has ?].
  destruct has; [|reflexivity].
  do 2 (apply gbind_forall; [intros; apply lift_forall | intros ? ?]).
  apply tool_call_loop_text_index.
Qed.

(** X3: after any chunks, the message under construction holds exactly
    the blocks opened so far, and there are as many of them as
    [ContentBlockStart] events were yielded. *)
Theorem blocks_match_starts (lib : Library) (chunks : list pyval) :
  let st := run_state lib initial_state chunks in
  sm_content (current_message st) = content_blocks st /\
  List.length (content_blocks st)
    = block_starts (transform_openai_stream_to_anthropic lib chunks).
Proof.
  destruct (@run_stream_inv lib chunks _ _ initial_inv) as (Hc & Hl & _).
  split; assumption.
Qed.

(** X4: every [ContentBlockStop] of the stream carries an index below
    the number of [ContentBlockStart] events yielded before it: no block
    is closed that was not opened. *)
Theorem stops_follow_starts (lib : Library) (chunks : list pyval) :
  stops_in_range 0 (transform_openai_stream_to_anthropic lib chunks) = true.
Proof.
  destruct (@run_stream_inv lib chunks _ _ initial_inv) as (_ & _ & Hs & _).
  exact Hs.
Qed.

(** X5: when the first block of the stream is a text block, its text is
    the concatenation of the text deltas yielded so far. *)
Theorem text_block_accumulates (lib : Library) (chunks : list pyval)
    (b : ContentBlock) (r : list ContentBlockType) :
  content_blocks (run_state lib initial_state chunks) = Block b :: r ->
  cb_text b = PStr (streamed_text (transform_openai_stream_to_anthropic lib chunks)).
Proof.
  destruct (@run_stream_inv lib chunks _ _ initial_inv) as (_ & _ & _ & _ & _ & Hx).
  intros Hb. simpl in Hx. rewrite Hb in Hx. exact Hx.
Qed.

Lemma text_block_accumulates_witness :
  content_blocks
    (run_state Ref.lib initial_state
       [role_chunk; text_chunk "Hi"; text_chunk " there"; finish_chunk])
    = [Block {| cb_type := "text"; cb_text := PStr "Hi there" |}] /\
  PStr "Hi there"
    = PStr (streamed_text
              (transform_openai_stream_to_anthropic Ref.lib
                 [role_chunk; text_chunk "Hi"; text_chunk " there"; finish_chunk])).
Proof.
  split; [reflexivity|].
  exact (@text_block_accumulates Ref.lib
           [role_chunk; text_chunk "Hi"; text_chunk " there"; finish_chunk]
           {| cb_type := "text"; cb_text := PStr "Hi there" |} [] eq_refl).
Defined.

(** X6: a stream starts at most one text block; the events about it, its
    [ContentBlockStart] and the text deltas, carry the index 0; and every
    block after the first is a tool use. *)
Theorem one_text_block (lib : Library) (chunks : list pyval) :
  List.length (filter is_text_start
                 (transform_openai_stream_to_anthropic lib chunks)) <= 1 /\
  forallb text_index_zero (transform_openai_stream_to_anthropic lib chunks) = true /\
  forallb is_tool_block
    (tl (content_blocks (run_state lib initial_state chunks))) = true.
Proof.
  destruct (@run_stream_inv lib chunks _ _ initial_inv)
    as (_ & _ & _ & Hq & Ht & _).
  simpl in Ht. split; [|split].
  - unfold transform_openai_stream_to_anthropic. rewrite Ht.
    destruct (content_blocks _) as [|[?|?] ?]; lia.
  - apply run_stream_forall. apply Forall_forall. intros c _ st.
    apply process_event_text_index.
  - exact Hq.
Qed.

Lemma run_stream_filter (lib : Library) (chunks : list pyval) :
  forall st,
    run_stream lib st (filter has_delta chunks) = run_stream lib st chunks /\
    run_state lib st (filter has_delta chunks) = run_state lib st chunks.
Proof.
  induction chunks as [|c r IH]; intros st; [split; reflexivity|].
  cbn [filter]. destruct (has_delta c) eqn:Hh.
  - cbn [run_stream run_state].
    rewrite (proj1 (IH _)), (proj2 (IH _)). split; reflexivity.
  - unfold has_delta in Hh.
    destruct (chunk_delta c) as [d|] eqn:Hd; [discriminate|].
    destruct (@process_event_skip lib c st Hd) as [He Hs].
    cbn [run_stream run_state]. unfold events in He. rewrite He, Hs.
    unfold state_of in Hs. rewrite Hs. apply IH.
Qed.

(** X7: a chunk that is no object with a [choices] list headed by an
    object is passed over: dropping such chunks from the input changes
    neither the events yielded nor the state the loop ends in. *)
Theorem unusable_chunks_are_skipped (lib : Library) (chunks : list pyval) :
  transform_openai_stream_to_anthropic lib (filter has_delta chunks)
    = transform_openai_stream_to_anthropic lib chunks /\
  run_state lib initial_state (filter has_delta chunks)
    = run_state lib initial_state chunks.
Proof. apply run_stream_filter. Qed.

(* ===================================================================== *)
(** * Properties of the stream transducer: the closing events *)
(* ===================================================================== *)

Lemma stop_after_delta_weaken (evs : list StreamingEvent) (b : bool) :
  stop_after_delta false evs = true -> stop_after_delta b evs = true.
Proof.
  destruct evs as [|e r]; [reflexivity|]. destruct e; simpl; auto.
  discriminate.
Qed.

Lemma stop_after_delta_app (a b : list StreamingEvent) :
  forall f,
    stop_after_delta f a = true -> stop_after_delta false b = true ->
    stop_after_delta f (a ++ b) = true.
Proof.
  induction a as [|e a IH]; intros f Ha Hb; simpl.
  - apply stop_after_delta_weaken, Hb.
  - destruct e; simpl in *; auto.
    apply andb_prop in Ha as [-> Ha]. simpl. auto.
Qed.

Lemma no_stop_after_delta (evs : list StreamingEvent) :
  forallb (fun e => negb (is_message_stop e)) evs = true ->
  forall f, stop_after_delta f evs = true.
Proof.
  induction evs as [|e r IH]; intros H f; [reflexivity|].
  simpl in H. apply andb_prop in H as [He Hr].
  destruct e; simpl in *; auto. discriminate.
Qed.

(** The finish clause yields the [ContentBlockStop] events and then
    either nothing more, or [MessageDelta] and [MessageStop]. *)
Lemma finish_events (event choice : pyval) (st : stream_state) :
  exists stops closing,
    events (finish event choice st) = map ContentBlockStop stops ++ closing /\
    (closing = [] \/ exists s u, closing = [MessageDelta s u; MessageStop]).
Proof.
  unfold finish. rewrite gbind_lift.
  destruct (py_get choice "finish_reason" PNone) as [fr|e];
    [|exists [], []; split; [reflexivity|left; reflexivity]].
  destruct (truthy fr);
    [|exists [], []; split; [reflexivity|left; reflexivity]].
  unfold gbind at 1. cbn [get_state]. rewrite gbind_yield_all.
  cbn [events fst snd app].
  exists (seq 0 (List.length (content_blocks st))).
  eexists. split; [reflexivity|].
  rewrite gbind_lift.
  destruct (table_get stop_reason_map fr "end_turn") as [sr|e];
    [|left; reflexivity].
  unfold gbind, modify, lift, get_state, yield, gret.
  destruct (py_in "usage" event) as [[|]|e]; cbn; eauto.
  destruct (py_item event "usage") as [usage_data|e]; cbn; eauto.
  destruct (py_get usage_data "prompt_tokens" (PInt 0)) as [it|e]; cbn; eauto.
  destruct (py_get usage_data "completion_tokens" (PInt 0)) as [ot|e]; cbn; eauto.
Qed.

Lemma process_event_closing (lib : Library) (event : pyval) (st : stream_state) :
  stop_after_delta false (events (process_event lib event st)) = true.
Proof.
  destruct (chunk_delta event) as [delta|] eqn:Hd.
  - destruct (@process_event_run lib event delta st Hd) as (d & c & _ & _ & _ & ->).
    rewrite gbind_events. apply stop_after_delta_app.
    + apply no_stop_after_delta. apply before_finish_forall; reflexivity.
    + destruct (outcome _); [|reflexivity].
      destruct (finish_events event (PDict c)
                  (state_of (before_finish lib event delta st)))
        as (stops & closing & -> & Hc).
      apply stop_after_delta_app.
      * apply no_stop_after_delta. apply forallb_forall.
        intros e He. apply in_map_iff in He as (i & <- & _). reflexivity.
      * destruct Hc as [->|(s & u & ->)]; reflexivity.
  - destruct (@process_event_skip lib event st Hd) as [-> _]. reflexivity.
Qed.

(** X8: in the events of a stream every [MessageStop] comes directly
    after a [MessageDelta]: the stop reason and the usage are always
    yielded before the message is closed. *)
Theorem message_stop_follows_delta (lib : Library) (chunks : list pyval) :
  stop_after_delta false (transform_openai_stream_to_anthropic lib chunks) = true.
Proof.
  unfold transform_openai_stream_to_anthropic. generalize initial_state.
  induction chunks as [|c r IH]; intros st; [reflexivity|].
  cbn [run_stream]. apply stop_after_delta_app; [|apply IH].
  apply (process_event_closing lib c st).
Qed.

(** X9: the table of the stream transducer and the table of the response
    mapper give every finish reason the same stop reason, so a truthy
    finish reason is mapped alike on both paths. *)
Theorem stop_reason_tables_agree (finish_reason : pyval) :
  table_get stop_reason_map finish_reason "end_turn"
    = table_get OPENAI_TO_ANTHROPIC_STOP_REASON_MAP finish_reason "end_turn" /\
  (truthy finish_reason = true ->
   _map_finish_reason_to_stop_reason finish_reason
     = rbind (table_get stop_reason_map finish_reason "end_turn")
         (fun r => Ok (Some r))).
Proof.
  assert (H : table_get stop_reason_map finish_reason "end_turn"
              = table_get OPENAI_TO_ANTHROPIC_STOP_REASON_MAP finish_reason "end_turn").
  { destruct finish_reason as [| | | |s| |]; try reflexivity.
    unfold table_get, stop_reason_map, OPENAI_TO_ANTHROPIC_STOP_REASON_MAP.
    cbn [assoc].
    destruct (String.eqb s "stop"); [reflexivity|].
    destruct (String.eqb s "length"); [reflexivity|].
    destruct (String.eqb s "tool_calls"), (String.eqb s "function_call");
      reflexivity. }
  split; [exact H|].
  intros Ht. unfold _map_finish_reason_to_stop_reason. rewrite H.
  destruct finish_reason; try reflexivity. discriminate.
Qed.

Lemma stop_reason_tables_agree_witness :
  _map_finish_reason_to_stop_reason (PStr "function_call")
    = rbind (table_get stop_reason_map (PStr "function_call") "end_turn")
        (fun r => Ok (Some r)).
Proof.
  apply (stop_reason_tables_agree (PStr "function_call")). reflexivity.
Defined.

(* ===================================================================== *)
(** * Properties of the request mapper: messages, parameters and tools *)
(* ===================================================================== *)

Lemma get_copy_same (src dst : string) (params d : dict) :
  Dict.get dst (copy_key src dst params d) =
  match Dict.get src params with
  | Some v => Some v
  | None => Dict.get dst d
  end.
Proof.
  unfold copy_key. destruct (Dict.get src params);
    [apply dict_get_set_same | reflexivity].
Qed.

(** Look a key up in a target request built by [Dict.set] and
    [copy_key]. *)
Ltac get_through :=
  repeat first
    [ rewrite get_copy_other by (intros E; discriminate E)
    | rewrite dict_get_set_other by (intros E; discriminate E)
    | rewrite get_copy_same
    | rewrite dict_get_set_same ].

(** The target request, entry by entry. *)
Lemma transform_request_entries (lib : Library) (params out : dict) :
  transform_anthropic_to_openai lib params = Ok out ->
  exists model msgs messages o,
    Dict.get "model" params = Some model /\
    Dict.get "messages" params = Some msgs /\
    _transform_messages lib msgs (Dict.get_default "system" PNone params)
      = Ok messages /\
    match Dict.get "tools" params with
    | Some tools =>
        if truthy tools then
          exists t, _transform_tools_to_functions tools = Ok t /\
                    o = Dict.set "tools" (PList t)
                          (sampling_params params model messages)
        else o = sampling_params params model messages
    | None => o = sampling_params params model messages
    end /\
    out = match Dict.get "tool_choice" params with
          | Some tc =>
              if truthy tc then Dict.set "tool_choice" (_transform_tool_choice tc) o
              else o
          | None => o
          end.
Proof.
  unfold transform_anthropic_to_openai; intros H.
  destruct (py_item (PDict params) "model") as [model|] eqn:Hm;
    [|discriminate H].
  cbn [rbind] in H.
  destruct (py_item (PDict params) "messages") as [msgs|] eqn:Hs;
    [|discriminate H].
  cbn [rbind] in H.
  destruct (_transform_messages lib msgs _) as [messages|] eqn:Ht;
    [|discriminate H].
  cbn [rbind] in H. fold (sampling_params params model messages) in H.
  simpl in Hm, Hs.
  destruct (Dict.get "model" params) as [model'|]; [|discriminate].
  destruct (Dict.get "messages" params) as [msgs'|]; [|discriminate].
  inversion Hm; inversion Hs; subst model' msgs'.
  exists model, msgs, messages.
  destruct (Dict.get "tools" params) as [tools|].
  - destruct (truthy tools).
    + destruct (_transform_tools_to_functions tools) as [t|]; [|discriminate H].
      cbn [rbind] in H. inversion H. eexists. repeat split; eauto.
    + cbn [rbind] in H. inversion H. eexists. repeat split; eauto.
  - cbn [rbind] in H. inversion H. eexists. repeat split; eauto.
Qed.

Lemma sampling_params_get (params : dict) (model : pyval) (messages : list pyval) :
  let o := sampling_params params model messages in
  Dict.get "model" o = Some model /\
  Dict.get "messages" o = Some (PList messages) /\
  Dict.get "max_tokens" o = Dict.get "max_tokens" params /\
  Dict.get "temperature" o = Dict.get "temperature" params /\
  Dict.get "top_p" o = Dict.get "top_p" params /\
  Dict.get "stream" o = Dict.get "stream" params /\
  Dict.get "stop" o = Dict.get "stop_sequences" params /\
  Dict.get "tools" o = None.
Proof.
  unfold sampling_params. cbv zeta.
  repeat split; get_through; try reflexivity;
    match goal with
    | |- match ?x with _ => _ end = _ => destruct x; reflexivity
    end.
Qed.

(** X10: the sampling parameters of a request go to the target request
    unchanged, whatever their values: [model], [max_tokens],
    [temperature], [top_p] and [stream] under their own names, and
    [stop_sequences] under the name [stop]; a parameter absent from the
    source is absent from the target. *)
Theorem sampling_parameters_copied (lib : Library) (params out : dict) :
  transform_anthropic_to_openai lib params = Ok out ->
  Dict.get "model" out = Dict.get "model" params /\
  Dict.get "max_tokens" out = Dict.get "max_tokens" params /\
  Dict.get "temperature" out = Dict.get "temperature" params /\
  Dict.get "top_p" out = Dict.get "top_p" params /\
  Dict.get "stream" out = Dict.get "stream" params /\
  Dict.get "stop" out = Dict.get "stop_sequences" params.
Proof.
  intros H.
  destruct (transform_request_entries _ _ H)
    as (model & msgs & messages & o & Hm & _ & _ & Ho & ->).
  destruct (sampling_params_get params model messages)
    as (G1 & _ & G3 & G4 & G5 & G6 & G7 & _).
  assert (Hget : forall k, k <> "tools" -> k <> "tool_choice" ->
            Dict.get k
              match Dict.get "tool_choice" params with
              | Some tc =>
                  if truthy tc
                  then Dict.set "tool_choice" (_transform_tool_choice tc) o
                  else o
              | None => o
              end
            = Dict.get k (sampling_params params model messages)).
  { intros k K1 K2.
    assert (Dict.get k o = Dict.get k (sampling_params params model messages)) as <-.
    { destruct (Dict.get "tools" params) as [tools|]; [|subst o; reflexivity].
      destruct (truthy tools); [|subst o; reflexivity].
      destruct Ho as (t & _ & ->). apply dict_get_set_other, K1. }
    destruct (Dict.get "tool_choice" params) as [tc|]; [|reflexivity].
    destruct (truthy tc); [|reflexivity]. apply dict_get_set_other, K2. }
  rewrite !Hget by (intros E; discriminate E).
  rewrite Hm. repeat split; assumption.
Qed.

Lemma sampling_parameters_copied_witness :
  exists out,
    transform_anthropic_to_openai Ref.lib weather_request = Ok out /\
    Dict.get "model" out = Some (PStr "gpt-4") /\
    Dict.get "max_tokens" out = Some (PInt 100) /\
    Dict.get "temperature" out = None /\
    Dict.get "stop" out = Some (PList [PStr "END"]).
Proof.
  destruct (transform_anthropic_to_openai Ref.lib weather_request) as [out|] eqn:H;
    [|vm_compute in H; discriminate H].
  exists out. split; [reflexivity|].
  destruct (sampling_parameters_copied _ _ H) as (G1 & G2 & G3 & _ & _ & G6).
  rewrite G1, G2, G3, G6. repeat split; reflexivity.
Defined.

Lemma plain_message_target (lib : Library) (msg : pyval) :
  plain_message msg = true ->
  transform_message lib msg = Ok [role_and_content msg].
Proof.
  destruct msg as [| | | | | |d]; try discriminate.
  unfold plain_message, transform_message, role_and_content, Dict.get_default.
  simpl.
  destruct (Dict.get "role" d) as [role|]; [|discriminate].
  destruct (Dict.get "content" d) as [[| | | |s| |]|]; try discriminate.
  reflexivity.
Qed.

Lemma plain_messages_target (lib : Library) (msgs : list pyval) :
  forallb plain_message msgs = true ->
  transform_message_list lib msgs = Ok (map role_and_content msgs).
Proof.
  induction msgs as [|m r IH]; simpl; [reflexivity|].
  intros H. apply andb_prop in H as [Hm Hr].
  rewrite (plain_message_target lib m Hm), (IH Hr). reflexivity.
Qed.

(** X11: source messages whose content is a string go to the target
    request one for one and in order, each with its role and its content
    and nothing else; a truthy system prompt becomes one system message
    before them, a falsy one (absent, [None], the empty string) none. *)
Theorem plain_messages_pass_through (lib : Library) (params out : dict)
    (msgs : list pyval) :
  Dict.get "messages" params = Some (PList msgs) ->
  forallb plain_message msgs = true ->
  transform_anthropic_to_openai lib params = Ok out ->
  Dict.get "messages" out
    = Some (PList (system_message (Dict.get_default "system" PNone params)
                     ++ map role_and_content msgs)).
Proof.
  intros Hmsgs Hplain H.
  destruct (transform_request_entries _ _ H)
    as (model & msgs' & messages & o & _ & Hm & Ht & Ho & ->).
  rewrite Hmsgs in Hm. inversion Hm; subst msgs'; clear Hm.
  unfold _transform_messages in Ht. cbn [py_iter rbind] in Ht.
  rewrite (plain_messages_target lib msgs Hplain) in Ht. cbn [rbind] in Ht.
  fold (system_message (Dict.get_default "system" PNone params)) in Ht.
  inversion Ht; subst messages; clear Ht.
  destruct (sampling_params_get params model
              (system_message (Dict.get_default "system" PNone params)
                 ++ map role_and_content msgs)) as (_ & G & _).
  assert (Dict.get "messages" o = Some
            (PList (system_message (Dict.get_default "system" PNone params)
                      ++ map role_and_content msgs))) as Go.
  { destruct (Dict.get "tools" params) as [tools|]; [|subst o; exact G].
    destruct (truthy tools); [|subst o; exact G].
    destruct Ho as (t & _ & ->).
    rewrite dict_get_set_other by (intros E; discriminate E). exact G. }
  destruct (Dict.get "tool_choice" params) as [tc|]; [|exact Go].
  destruct (truthy tc); [|exact Go].
  rewrite dict_get_set_other by (intros E; discriminate E). exact Go.
Qed.

Lemma plain_messages_pass_through_witness :
  exists out,
    transform_anthropic_to_openai Ref.lib weather_request = Ok out /\
    Dict.get "messages" out
      = Some (PList [PDict [("role", PStr "system"); ("content", PStr "Be brief.")];
                     PDict [("role", PStr "user"); ("content", PStr "Hello")];
                     PDict [("role", PStr "assistant"); ("content", PStr "Hi")]]).
Proof.
  destruct (transform_anthropic_to_openai Ref.lib weather_request) as [out|] eqn:H;
    [|vm_compute in H; discriminate H].
  exists out. split; [reflexivity|].
  exact (@plain_messages_pass_through Ref.lib weather_request out _
           eq_refl eq_refl H).
Defined.

Lemma transform_tool_function (tool f : pyval) :
  transform_tool tool = Ok f -> tool_function tool f.
Proof.
  destruct tool as [| | | | | |d]; try discriminate.
  unfold transform_tool. simpl. intros H; inversion H.
  exists d. split; reflexivity.
Qed.

Lemma transform_tool_list_functions (tools : list pyval) :
  forall fs, transform_tool_list tools = Ok fs -> Forall2 tool_function tools fs.
Proof.
  induction tools as [|t r IH]; simpl; intros fs H.
  - inversion H. constructor.
  - destruct (transform_tool t) as [f|] eqn:Hf; [|discriminate H].
    cbn [rbind] in H.
    destruct (transform_tool_list r) as [fs'|]; [|discriminate H].
    cbn [rbind] in H. inversion H. constructor; [|apply IH; reflexivity].
    apply transform_tool_function, Hf.
Qed.

(** X12: when the source request has a truthy [tools], the target
    request has one function definition for each tool, in order, with the
    tool's [name], [description] and [input_schema] (as [parameters]), each
    replaced by the empty string or the empty object when the tool lacks
    it; when [tools] is absent or falsy, the target has no [tools]. *)
Theorem tools_become_functions (lib : Library) (params out : dict) :
  transform_anthropic_to_openai lib params = Ok out ->
  match Dict.get "tools" params with
  | Some tools =>
      if truthy tools then
        exists ts fs,
          py_iter tools = Ok ts /\
          Dict.get "tools" out = Some (PList fs) /\
          Forall2 tool_function ts fs
      else Dict.get "tools" out = None
  | None => Dict.get "tools" out = None
  end.
Proof.
  intros H.
  destruct (transform_request_entries _ _ H)
    as (model & msgs & messages & o & _ & _ & _ & Ho & ->).
  destruct (sampling_params_get params model messages)
    as (_ & _ & _ & _ & _ & _ & _ & G).
  assert (Hget :
            Dict.get "tools"
              match Dict.get "tool_choice" params with
              | Some tc =>
                  if truthy tc
                  then Dict.set "tool_choice" (_transform_tool_choice tc) o
                  else o
              | None => o
              end = Dict.get "tools" o).
  { destruct (Dict.get "tool_choice" params) as [tc|]; [|reflexivity].
    destruct (truthy tc); [|reflexivity].
    apply dict_get_set_other. intros E; discriminate E. }
  rewrite Hget.
  destruct (Dict.get "tools" params) as [tools|]; [|subst o; exact G].
  destruct (truthy tools); [|subst o; exact G].
  destruct Ho as (t & Ht & ->).
  unfold _transform_tools_to_functions in Ht.
  destruct (py_iter tools) as [ts|]; [|discriminate Ht]. cbn [rbind] in Ht.
  exists ts, t. split; [reflexivity|]. split; [apply dict_get_set_same|].
  apply transform_tool_list_functions, Ht.
Qed.

Lemma tools_become_functions_witness :
  exists out fs,
    transform_anthropic_to_openai Ref.lib weather_request = Ok out /\
    Dict.get "tools" out = Some (PList fs) /\
    List.length fs = 2.
Proof.
  destruct (transform_anthropic_to_openai Ref.lib weather_request) as [out|] eqn:H;
    [|vm_compute in H; discriminate H].
  pose proof (@tools_become_functions Ref.lib weather_request out H) as T.
  cbv beta iota delta [weather_request weather_tools Dict.get String.eqb
                         Ascii.eqb Bool.eqb truthy py_iter] in T.
  destruct T as (ts & fs & Hts & Hfs & Hall).
  exists out, fs. split; [reflexivity|]. split; [exact Hfs|].
  inversion Hts; subst ts.
  inversion Hall as [|? ? ? ? _ Hall']; subst.
  inversion Hall' as [|? ? ? ? _ Hall'']; subst.
  inversion Hall''. reflexivity.
Defined.

Lemma unknown_blocks_add (lib : Library) (blocks : list pyval) :
  forall acc,
    forallb unknown_block blocks = true -> add_blocks lib acc blocks = Ok acc.
Proof.
  induction blocks as [|b r IH]; intros acc H; [reflexivity|].
  simpl in H. apply andb_prop in H as [Hb Hr].
  cbn [add_blocks].
  assert (add_block lib acc b = Ok acc) as ->.
  { destruct b as [| | | | | |d]; try discriminate. simpl in Hb |- *.
    destruct (is_str "text" _ && Dict.has "text" d); [discriminate|].
    destruct (is_str "tool_use" _); [discriminate|].
    destruct (is_str "tool_result" _); [discriminate|]. reflexivity. }
  cbn [rbind]. apply IH, Hr.
Qed.

Lemma silent_message_target (lib : Library) (msg : pyval) :
  silent_message msg = true -> transform_message lib msg = Ok [].
Proof.
  destruct msg as [| | | | | |d]; try discriminate.
  unfold silent_message, transform_message. simpl.
  destruct (Dict.get "role" d) as [role|]; [|discriminate].
  destruct (Dict.get "content" d) as [[| | | |s|blocks|x]|]; try discriminate;
    try reflexivity.
  intros H. simpl. unfold _transform_content_blocks.
  rewrite (unknown_blocks_add lib blocks no_parts H). reflexivity.
Qed.

Lemma transform_message_list_silent (lib : Library) (msgs : list pyval) :
  transform_message_list lib (filter (fun m => negb (silent_message m)) msgs)
    = transform_message_list lib msgs.
Proof.
  induction msgs as [|m r IH]; [reflexivity|].
  cbn [filter]. destruct (silent_message m) eqn:Hm; cbn [negb].
  - cbn [transform_message_list]. rewrite (silent_message_target lib m Hm).
    cbn [rbind]. rewrite IH. destruct (transform_message_list lib r); reflexivity.
  - cbn [transform_message_list]. rewrite IH. reflexivity.
Qed.

(** X13: a source message with a role contributes nothing to the target
    request when its content is neither a string nor a list, or is a list
    (the empty list too) of blocks none of which is a text block with a
    text, a tool use or a tool result: the mapper gives the same result as
    on the request without such messages. *)
Theorem silent_messages_are_dropped (lib : Library) (msgs : list pyval)
    (system_prompt : pyval) :
  _transform_messages lib
    (PList (filter (fun m => negb (silent_message m)) msgs)) system_prompt
    = _transform_messages lib (PList msgs) system_prompt.
Proof.
  unfold _transform_messages. cbn [py_iter rbind].
  rewrite transform_message_list_silent. reflexivity.
Qed.

(* ===================================================================== *)
(** * Tool uses from the request to the response *)
(* ===================================================================== *)

(** X14: a [tool_use] block of a request, written as a tool call by the
    request mapper and read back by the response mapper, gives the
    [ToolUse] with the block's id, name and input, whenever [json.loads]
    reads back what [json.dumps] wrote for that input. *)
Theorem tool_use_round_trip (lib : Library) (block : dict) :
  json_loads lib (json_dumps lib (Dict.get_default "input" (PDict []) block))
    = Some (Dict.get_default "input" (PDict []) block) ->
  response_tool_use lib (tool_call_of_block lib block)
    = Ok (Some (tool_use_of_block block)).
Proof.
  intros H. unfold response_tool_use, tool_call_of_block, loads_or_empty.
  simpl. rewrite H. reflexivity.
Qed.

Lemma tool_use_round_trip_witness :
  response_tool_use Ref.lib (tool_call_of_block Ref.lib weather_block)
    = Ok (Some {| tu_id := PStr "toolu_1"; tu_name := PStr "get_weather";
                  tu_input := PDict [("location", PStr "San Francisco");
                                     ("days", PInt 3)];
                  tu_type := "tool_use" |}).
Proof.
  apply (tool_use_round_trip Ref.lib weather_block). vm_compute. reflexivity.
Defined.

(* ===================================================================== *)
(** * Properties of the legacy text extractor *)
(* ===================================================================== *)

Lemma add_blocks_text_parts (lib : Library) (blocks : list pyval) :
  forall acc p,
    add_blocks lib acc blocks = Ok p ->
    exists ts, text_blocks blocks = Ok ts /\ text_parts p = text_parts acc ++ ts.
Proof.
  induction blocks as [|b r IH]; intros acc p H.
  - inversion H. exists []. rewrite app_nil_r. split; reflexivity.
  - cbn [add_blocks] in H.
    destruct (add_block lib acc b) as [acc'|] eqn:Hb; [|discriminate H].
    cbn [rbind] in H. destruct (IH _ _ H) as (ts & Hts & Hp).
    destruct b as [| | | | | |d]; try discriminate Hb.
    cbn [text_blocks py_get py_in py_item rbind]. rewrite Hts.
    simpl in Hb. unfold Dict.has in *.
    destruct (is_str "text" (Dict.get_default "type" PNone d)); simpl in Hb |- *.
    + destruct (Dict.get "text" d) as [x|] eqn:Hx; simpl in Hb |- *.
      * inversion Hb; subst acc'. simpl in Hp. unfold Dict.get_default in Hp.
        rewrite Hx in Hp. rewrite <- app_assoc in Hp.
        eexists; split; [reflexivity|exact Hp].
      * exists ts. split; [reflexivity|].
        destruct (is_str "tool_use" _); [inversion Hb; subst acc'; exact Hp|].
        destruct (is_str "tool_result" _); inversion Hb; subst acc'; exact Hp.
    + exists ts. split; [reflexivity|].
      destruct (is_str "tool_use" _); [inversion Hb; subst acc'; exact Hp|].
      destruct (is_str "tool_result" _); inversion Hb; subst acc'; exact Hp.
Qed.

(** X15: on a message with list content, the [content] of the combined
    target message is what [_extract_text_from_content_blocks] returns on
    the blocks: the texts of the text blocks joined by newlines, the empty
    string when there are tool uses only. *)
Theorem combined_content_is_extracted_text (lib : Library) (role : pyval)
    (blocks : list pyval) (p : block_parts) (m : dict) :
  add_blocks lib no_parts blocks = Ok p ->
  main_message role p = Ok [PDict m] ->
  exists text,
    _extract_text_from_content_blocks blocks = Ok text /\
    Dict.get "content" m = Some (PStr text).
Proof.
  intros Hp Hm.
  destruct (add_blocks_text_parts _ _ _ Hp) as (ts & Hts & Hparts).
  simpl in Hparts. subst ts.
  unfold _extract_text_from_content_blocks. rewrite Hts. cbn [rbind].
  unfold main_message in Hm.
  destruct (text_parts p) as [|t ts] eqn:Et.
  - cbn [nonempty orb] in Hm |- *.
    destruct (tool_calls p) as [|c cs]; cbn [nonempty] in Hm; [discriminate Hm|].
    cbn [rbind] in Hm. inversion Hm. exists "". split; reflexivity.
  - cbn [nonempty orb] in Hm |- *.
    destruct (py_join nl (t :: ts)) as [c|]; [|discriminate Hm].
    cbn [rbind] in Hm. exists c. split; [reflexivity|].
    destruct (tool_calls p) as [|c' cs]; cbn [nonempty] in Hm; inversion Hm;
      reflexivity.
Qed.

Lemma combined_content_is_extracted_text_witness :
  exists text,
    _extract_text_from_content_blocks mixed_blocks = Ok text /\
    Dict.get "content"
      [("role", PStr "assistant"); ("content", PStr "and now");
       ("tool_calls", PList [tool_call_of_block Ref.lib
                               [("type", PStr "tool_use"); ("id", PStr "t2");
                                ("name", PStr "add");
                                ("input", PDict [("a", PInt 1)])]])]
      = Some (PStr text).
Proof.
  eapply (@combined_content_is_extracted_text Ref.lib (PStr "assistant")
            mixed_blocks); reflexivity.
Defined.

(* ===================================================================== *)
(** * Properties of the response mapper: the content of the message *)
(* ===================================================================== *)

Lemma response_tool_use_call (lib : Library) (tool_call : pyval)
    (t : option ToolUse) :
  response_tool_use lib tool_call = Ok t ->
  match t with
  | Some u => has_function tool_call = true /\
              tool_use_of_call lib tool_call (Tool u)
  | None => has_function tool_call = false
  end.
Proof.
  unfold response_tool_use. intros H.
  destruct tool_call as [| | | | | |d]; try discriminate H.
  cbn [py_get rbind has_function] in H |- *.
  destruct (truthy (Dict.get_default "function" PNone d));
    [|inversion H; reflexivity].
  destruct (Dict.get_default "function" PNone d) as [| | | | | |fd] eqn:Hf;
    try discriminate H.
  cbn [py_get rbind] in H. unfold loads_or_empty, py_json_loads in H.
  destruct (Dict.get_default "arguments" (PStr "{}") fd) as [| | | |a| |] eqn:Ha;
    try discriminate H.
  assert (Hx : (match
                  match json_loads lib a with
                  | Some x => Ok x
                  | None => Raise JSONDecodeError
                  end
                with
                | Ok v => Ok v
                | Raise JSONDecodeError => Ok (PDict [])
                | Raise e => Raise e
                end)
               = Ok (match json_loads lib a with
                     | Some v => v
                     | None => PDict []
                     end)).
  { destruct (json_loads lib a); reflexivity. }
  rewrite Hx in H. cbn [rbind] in H. inversion H.
  split; [reflexivity|]. exists d, fd, a. rewrite Hf. repeat split. exact Ha.
Qed.

(** The tool uses are those of the calls with a function, one for one
    and in the order of the calls. *)
Lemma response_tool_uses_calls (lib : Library) (calls : list pyval) :
  forall r,
    response_tool_uses lib calls = Ok r ->
    Forall2 (tool_use_of_call lib) (filter has_function calls) r.
Proof.
  induction calls as [|c cs IH]; intros r H.
  - inversion H. constructor.
  - cbn [response_tool_uses] in H.
    destruct (response_tool_use lib c) as [t|] eqn:Hc; [|discriminate H].
    cbn [rbind] in H.
    destruct (response_tool_uses lib cs) as [ts|]; [|discriminate H].
    cbn [rbind] in H. specialize (IH ts eq_refl).
    apply response_tool_use_call in Hc. cbn [filter].
    destruct t as [u|].
    + destruct Hc as [-> Hu]. inversion H. constructor; assumption.
    + rewrite Hc. inversion H; subst r. exact IH.
Qed.

(** X16: the content of the message returned is the text block, present
    exactly when the response message has a truthy [content], followed by
    the tool uses of the tool calls with a truthy [function], one for one
    and in the order of the calls: each has the id of its call, the name of
    its function and the decoded arguments as input.  The message has the
    role ["assistant"], the type ["message"] and no stop sequence. *)
Theorem response_content_order (lib : Library) (u : string) (resp : dict)
    (m : Message) :
  transform_openai_to_anthropic lib u resp = Ok m ->
  exists message tools,
    response_message resp = PDict message /\
    msg_content m = response_text message ++ tools /\
    Forall2 (tool_use_of_call lib)
      (filter has_function (response_tool_calls message)) tools /\
    msg_role m = "assistant" /\ msg_type m = "message" /\
    msg_stop_sequence m = None.
Proof.
  unfold transform_openai_to_anthropic, response_message. intros H.
  destruct (first_choice resp) as [choice|]; [|discriminate H].
  cbn [rbind] in H.
  destruct (py_get choice "message" (PDict [])) as [message|] eqn:Hmsg;
    [|discriminate H].
  cbn [rbind] in H.
  destruct (response_content lib message) as [content|] eqn:Hc; [|discriminate H].
  cbn [rbind] in H.
  destruct (py_get choice "finish_reason" PNone) as [fr|]; [|discriminate H].
  cbn [rbind] in H.
  destruct (_map_finish_reason_to_stop_reason fr) as [sr|]; [|discriminate H].
  cbn [rbind] in H.
  destruct (py_get _ "prompt_tokens" _) as [it|]; [|discriminate H].
  cbn [rbind] in H.
  destruct (py_get _ "completion_tokens" _) as [ot|]; [|discriminate H].
  cbn [rbind] in H. inversion H; subst m; clear H. cbn.
  destruct choice as [| | | | | |cd]; try discriminate Hmsg.
  simpl in Hmsg. inversion Hmsg as [Hmsg']. rewrite Hmsg'.
  unfold response_content in Hc.
  destruct message as [| | | | | |md]; try discriminate Hc.
  cbn [py_get py_item rbind] in Hc.
  exists md.
  assert (Htext :
            (if truthy (Dict.get_default "content" PNone md)
             then rbind (match Dict.get "content" md with
                         | Some x => Ok x
                         | None => Raise KeyError
                         end)
                    (fun t => Ok [Block {| cb_type := "text"; cb_text := t |}])
             else Ok []) = Ok (response_text md)).
  { unfold response_text, Dict.get_default.
    destruct (Dict.get "content" md) as [x|]; [|reflexivity].
    destruct (truthy x); reflexivity. }
  rewrite Htext in Hc. cbn [rbind] in Hc.
  unfold response_tool_calls.
  destruct (truthy (Dict.get_default "tool_calls" PNone md)) eqn:Htc.
  - unfold Dict.get_default in *.
    destruct (Dict.get "tool_calls" md) as [l|]; [|discriminate Htc].
    cbn [rbind] in Hc.
    destruct (py_iter l) as [calls|]; [|discriminate Hc]. cbn [rbind] in Hc.
    destruct (response_tool_uses lib calls) as [tools|] eqn:Ht; [|discriminate Hc].
    cbn [rbind] in Hc. inversion Hc; subst content.
    exists tools. repeat split; try reflexivity.
    apply response_tool_uses_calls, Ht.
  - cbn [rbind] in Hc. inversion Hc; subst content.
    exists []. repeat split. constructor.
Qed.

Lemma response_content_order_witness :
  exists m,
    transform_openai_to_anthropic Ref.lib "0" bad_arguments_response = Ok m /\
    msg_content m = [] ++ [Tool empty_input_tool_use] /\
    msg_role m = "assistant".
Proof.
  destruct (transform_openai_to_anthropic Ref.lib "0" bad_arguments_response)
    as [m|] eqn:H; [|vm_compute in H; discriminate H].
  destruct (response_content_order _ _ _ H)
    as (message & tools & _ & _ & _ & Hrole & _).
  exists m. split; [reflexivity|]. split; [|exact Hrole].
  vm_compute in H. inversion H. reflexivity.
Defined.

(* ===================================================================== *)
(** * Properties of [Messages.create] *)
(* ===================================================================== *)

(** On a body that is an object, or that could not be read, the message
    is the one of [map_openai_error_to_anthropic]. *)
Lemma error_message_of_dict (lib : Library) (d : dict) :
  error_message_of_body lib (PDict d) = Ok (error_message lib (Some d)).
Proof.
  unfold error_message_of_body, error_message.
  destruct (truthy (PDict d)); [|reflexivity].
  cbn [py_in py_item rbind]. unfold Dict.has.
  destruct (Dict.get "error" d) as [e|].
  - destruct e; reflexivity.
  - destruct (Dict.get "message" d); reflexivity.
Qed.

Lemma error_of_response_class (lib : Library) (response : http_response)
    (e : api_error) :
  error_of_response lib response = Ok e ->
  err_class e = error_class_of_status (status_code response) /\
  err_response e = Some response.
Proof.
  unfold error_of_response.
  destruct (error_message_of_body lib _); [|discriminate].
  cbn [rbind]. intros H; inversion H. split; reflexivity.
Qed.

Lemma send_error_response (lib : Library) (uuid4_hex : string)
    (self : Messages) (stream : pyval) (openai_params : dict)
    (response : http_response) (text : list string) :
  post self (request_url self) (request_headers self) openai_params
    = Responded response text ->
  status_code response <> 200%Z ->
  let r := send lib uuid4_hex self stream openai_params in
  is_raised r = true /\
  (json_body response = None ->
   r = RaisedAPIError
         (map_openai_error_to_anthropic lib (status_code response) None
            (Some response))) /\
  (forall d, json_body response = Some (PDict d) ->
   r = RaisedAPIError
         (map_openai_error_to_anthropic lib (status_code response) (Some d)
            (Some response))) /\
  (forall e, r = RaisedAPIError e ->
   err_class e = error_class_of_status (status_code response) /\
   err_response e = Some response).
Proof.
  intros Hpost Hstatus. unfold send. rewrite Hpost.
  apply Z.eqb_neq in Hstatus. rewrite Hstatus. cbn [negb]. cbv zeta.
  split; [|split; [|split]].
  - destruct (error_of_response lib response); reflexivity.
  - intros Hb. unfold error_of_response. rewrite Hb. reflexivity.
  - intros d Hb. unfold error_of_response. rewrite Hb, error_message_of_dict.
    reflexivity.
  - intros e He.
    destruct (error_of_response lib response) as [e'|] eqn:H'; [|discriminate He].
    inversion He; subst e'. eapply error_of_response_class; eassumption.
Qed.

(** The response mapper returns on every response of the ChatCompletion
    shape. *)
Lemma transform_response_total (lib : Library) (u : string) (resp : dict) :
  response_shape_ok resp = true ->
  exists m, transform_openai_to_anthropic lib u resp = Ok m.
Proof.
  unfold response_shape_ok. intros H. apply andb_prop in H as [Hc Hu].
  destruct (first_choice_total resp Hc) as (choice & Hfc & Hok & _).
  simpl in Hok. apply andb_prop in Hok as [Hm Hh].
  destruct (response_content_total lib _ Hm) as (content & Hcontent & _).
  destruct (Dict.get_default "usage" (PDict []) resp) as [| | | | |l|usage] eqn:Husage;
    try discriminate.
  assert (Hsr : exists sr,
             _map_finish_reason_to_stop_reason
               (Dict.get_default "finish_reason" PNone choice) = Ok sr).
  { unfold _map_finish_reason_to_stop_reason, table_get.
    destruct (Dict.get_default "finish_reason" PNone choice);
      simpl in *; try discriminate; eauto. }
  destruct Hsr as [sr Hsr].
  eexists. unfold transform_openai_to_anthropic. rewrite Hfc. simpl.
  rewrite Hcontent. simpl. rewrite Hsr. simpl. rewrite Husage. simpl.
  reflexivity.
Qed.

Lemma send_outcomes (lib : Library) (uuid4_hex : string)
    (self : Messages) (stream : pyval) (openai_params : dict) :
  let sent := post self (request_url self) (request_headers self) openai_params in
  let r := send lib uuid4_hex self stream openai_params in
  (forall response text,
      sent = Responded response text -> status_code response = 200%Z ->
      (truthy stream = true ->
       r = Streaming (transform_openai_stream_to_anthropic lib
                        (parse_openai_streaming_response lib text))) /\
      (truthy stream = false ->
       (forall d, json_body response = Some (PDict d) ->
                  response_shape_ok d = true ->
                  exists m, transform_openai_to_anthropic lib uuid4_hex d = Ok m /\
                            r = Returned m) /\
       ((forall d, json_body response = Some (PDict d) ->
                   response_shape_ok d = false) ->
        exists e, r = RaisedWrapped e))) /\
  (forall message,
      sent = HTTPError message \/ sent = OtherException message ->
      exists e,
        r = RaisedAPIError e /\ err_class e = InternalServerError /\
        err_message e = PStr message /\ err_response e = None).
Proof.
  cbv zeta. unfold send. split.
  - intros response text -> Hs. rewrite Hs. cbn [Z.eqb Pos.eqb negb].
    split; [intros ->; reflexivity|]. intros ->. split.
    + intros d Hb Hok. destruct (transform_response_total lib uuid4_hex d Hok)
        as [m Hm].
      exists m. split; [exact Hm|]. unfold message_of_response.
      rewrite Hb, Hm. reflexivity.
    + intros Hbad. unfold message_of_response.
      destruct (json_body response) as [[| | | | | |d]|]; eauto.
      destruct (transform_openai_to_anthropic lib uuid4_hex d) as [m|] eqn:Hm;
        eauto.
      specialize (Hbad d eq_refl).
      rewrite (response_shape_necessary _ _ _ Hm) in Hbad. discriminate Hbad.
  - intros message [-> | ->]; eexists; repeat split.
Qed.

(** X17: once the request mapper has returned, a response whose status
    is not 200 never gives a message or a stream, whether streaming was
    asked for or not.  When its body is an object, or cannot be read as
    JSON, [create] raises the error that [map_openai_error_to_anthropic]
    builds from the status, the body and the response; whenever it raises
    an error built from the response, the class of the error is the one of
    the status and the response is attached to it. *)
Theorem error_response_raises (lib : Library) (uuid4_hex : string)
    (self : Messages)
    (model messages max_tokens temperature top_p stop_sequences stream
     system tools tool_choice : pyval) (kwargs openai_params : dict)
    (response : http_response) (text : list string) :
  transform_anthropic_to_openai lib
    (create_params model messages max_tokens temperature top_p stop_sequences
       stream system tools tool_choice kwargs) = Ok openai_params ->
  post self (request_url self) (request_headers self) openai_params
    = Responded response text ->
  status_code response <> 200%Z ->
  let r := create lib uuid4_hex self model messages max_tokens temperature
             top_p stop_sequences stream system tools tool_choice kwargs in
  is_raised r = true /\
  (json_body response = None ->
   r = RaisedAPIError
         (map_openai_error_to_anthropic lib (status_code response) None
            (Some response))) /\
  (forall d, json_body response = Some (PDict d) ->
   r = RaisedAPIError
         (map_openai_error_to_anthropic lib (status_code response) (Some d)
            (Some response))) /\
  (forall e, r = RaisedAPIError e ->
   err_class e = error_class_of_status (status_code response) /\
   err_response e = Some response).
Proof.
  intros Hp Hpost Hstatus. unfold create. rewrite Hp.
  apply (@send_error_response lib uuid4_hex self stream openai_params
           response text Hpost Hstatus).
Qed.

Lemma error_response_raises_witness :
  create Ref.lib "0" (fixed_server unauthorized [])
    (PStr "gpt-4") (PList [PDict [("role", PStr "user"); ("content", PStr "Hi")]])
    (PInt 10) PNone PNone PNone (PBool true) PNone PNone PNone []
  = RaisedAPIError
      {| err_class := AuthenticationError;
         err_message := PStr "Invalid API key";
         err_request := None;
         err_response := Some unauthorized |}.
Proof.
  refine (proj1 (proj2 (proj2
    (@error_response_raises Ref.lib "0" (fixed_server unauthorized [])
       (PStr "gpt-4")
       (PList [PDict [("role", PStr "user"); ("content", PStr "Hi")]])
       (PInt 10) PNone PNone PNone (PBool true) PNone PNone PNone [] _
       unauthorized [] eq_refl eq_refl _))) _ eq_refl).
  intros E; discriminate E.
Defined.

(** X18: once the request mapper has returned, on a response with status
    200 [create] with a truthy [stream] returns the events that the
    transducer yields on the payloads that the framer yields on the text of
    the response, whatever its body; with a falsy [stream] it returns the
    message of the response mapper when the body is an object of the
    ChatCompletion shape, and in every other case it raises the
    [InternalServerError] built by the handler, never the exception of the
    mapper itself.  A request that fails in transport raises an
    [InternalServerError] whose message is the text of the transport error
    and which carries no response. *)
Theorem create_outcomes (lib : Library) (uuid4_hex : string)
    (self : Messages)
    (model messages max_tokens temperature top_p stop_sequences stream
     system tools tool_choice : pyval) (kwargs openai_params : dict) :
  transform_anthropic_to_openai lib
    (create_params model messages max_tokens temperature top_p stop_sequences
       stream system tools tool_choice kwargs) = Ok openai_params ->
  let sent := post self (request_url self) (request_headers self) openai_params in
  let r := create lib uuid4_hex self model messages max_tokens temperature
             top_p stop_sequences stream system tools tool_choice kwargs in
  (forall response text,
      sent = Responded response text -> status_code response = 200%Z ->
      (truthy stream = true ->
       r = Streaming (transform_openai_stream_to_anthropic lib
                        (parse_openai_streaming_response lib text))) /\
      (truthy stream = false ->
       (forall d, json_body response = Some (PDict d) ->
                  response_shape_ok d = true ->
                  exists m, transform_openai_to_anthropic lib uuid4_hex d = Ok m /\
                            r = Returned m) /\
       ((forall d, json_body response = Some (PDict d) ->
                   response_shape_ok d = false) ->
        exists e, r = RaisedWrapped e))) /\
  (forall message,
      sent = HTTPError message \/ sent = OtherException message ->
      exists e,
        r = RaisedAPIError e /\ err_class e = InternalServerError /\
        err_message e = PStr message /\ err_response e = None).
Proof.
  intros Hp. unfold create. rewrite Hp.
  apply (@send_outcomes lib uuid4_hex self stream openai_params).
Qed.

Lemma create_outcomes_witness :
  exists m,
    transform_openai_to_anthropic Ref.lib "0" empty_response = Ok m /\
    create Ref.lib "0"
      (fixed_server {| status_code := 200; json_body := Some (PDict empty_response) |} [])
      (PStr "gpt-4") (PList [PDict [("role", PStr "user"); ("content", PStr "Hi")]])
      (PInt 10) PNone PNone PNone PNone PNone PNone PNone []
    = Returned m.
Proof.
  refine (proj1 (proj2 (proj1
    (@create_outcomes Ref.lib "0"
       (fixed_server {| status_code := 200;
                        json_body := Some (PDict empty_response) |} [])
       (PStr "gpt-4")
       (PList [PDict [("role", PStr "user"); ("content", PStr "Hi")]])
       (PInt 10) PNone PNone PNone PNone PNone PNone PNone [] _ eq_refl)
    _ _ eq_refl eq_refl) eq_refl) empty_response eq_refl eq_refl).
Defined.

(* ===================================================================== *)
(** * Properties of the base URL *)
(* ===================================================================== *)

Lemma rstrip_char_cons (ch c : ascii) (r : string) :
  rstrip_char ch (String c r) =
  match rstrip_char ch r with
  | "" => if Ascii.eqb c ch then "" else String c ""
  | r' => String c r'
  end.
Proof. reflexivity. Qed.

Lemma rstrip_char_snoc (ch : ascii) (s : string) :
  rstrip_char ch (s ++ String ch "") = rstrip_char ch s.
Proof.
  induction s as [|c r IH].
  - simpl. rewrite Ascii.eqb_refl. reflexivity.
  - cbn [String.append]. rewrite !rstrip_char_cons, IH. reflexivity.
Qed.

Lemma rstrip_char_end (ch : ascii) (s : string) :
  forall t, rstrip_char ch s <> (t ++ String ch "")%string.
Proof.
  induction s as [|c r IH]; intros t.
  - destruct t; discriminate.
  - rewrite rstrip_char_cons. destruct (rstrip_char ch r) as [|c' r'] eqn:Hr.
    + destruct (Ascii.eqb c ch) eqn:Hc.
      * destruct t; discriminate.
      * destruct t as [|c0 [|c1 t']]; simpl; intros E; inversion E; subst.
        rewrite Ascii.eqb_refl in Hc. discriminate.
    + destruct t as [|c0 t']; simpl; intros E; inversion E; subst.
      apply (IH t'). assumption.
Qed.

Lemma rstrip_char_idem (ch : ascii) (s : string) :
  rstrip_char ch (rstrip_char ch s) = rstrip_char ch s.
Proof.
  induction s as [|c r IH]; [reflexivity|]. rewrite rstrip_char_cons.
  destruct (rstrip_char ch r) as [|c' r'] eqn:Hr.
  - destruct (Ascii.eqb c ch) eqn:Hc; [reflexivity|].
    rewrite rstrip_char_cons. simpl. rewrite Hc. reflexivity.
  - rewrite rstrip_char_cons, IH. reflexivity.
Qed.

(** X19: the base URL kept by a [Messages] object never ends with a
    slash; a slash more or less at the end of the base URL given makes no
    difference to the URL a request is posted to; and the stripping that
    [AnthropicClient] does before it builds its [Messages] object changes
    nothing. *)
Theorem base_url_has_no_trailing_slash (key url : string)
    (http_client : string -> dict -> dict -> post_result) :
  (forall t, base_url (Messages_init key url http_client)
               <> (t ++ String slash "")%string) /\
  request_url (Messages_init key (url ++ String slash "") http_client)
    = request_url (Messages_init key url http_client) /\
  AnthropicClient_init key url http_client = Messages_init key url http_client.
Proof.
  split; [|split].
  - intros t. apply rstrip_char_end.
  - unfold request_url, Messages_init. cbn [base_url].
    rewrite rstrip_char_snoc. reflexivity.
  - unfold AnthropicClient_init, Messages_init. rewrite rstrip_char_idem.
    reflexivity.
Qed.

(* ===================================================================== *)
(** * Properties of the logging helpers *)
(* ===================================================================== *)

Lemma pyval_nested_ind (P : pyval -> Prop) :
  P PNone -> (forall b, P (PBool b)) -> (forall n, P (PInt n)) ->
  (forall f, P (PFloat f)) -> (forall s, P (PStr s)) ->
  (forall l, Forall P l -> P (PList l)) ->
  (forall d, Forall (fun kv => P (snd kv)) d -> P (PDict d)) ->
  forall v, P v.
Proof.
  intros HN HB HI HF HS HL HD. fix IH 1. intros [|b|n|f|s|l|d].
  - exact HN.
  - apply HB.
  - apply HI.
  - apply HF.
  - apply HS.
  - apply HL. induction l as [|x l IHl]; constructor; [apply IH | exact IHl].
  - apply HD. induction d as [|kv d IHd]; constructor; [apply IH | exact IHd].
Qed.

Lemma fold_left_ext {A B} (f g : A -> B -> A) (l : list B) :
  (forall a b, f a b = g a b) ->
  forall a, fold_left f l a = fold_left g l a.
Proof.
  intros H. induction l as [|b l IH]; intros a; simpl; [reflexivity|].
  rewrite H. apply IH.
Qed.

Lemma sanitize_dict (lower : string -> string) (d : dict) :
  sanitize_for_logging lower (PDict d) =
  PDict (fold_left
           (fun sanitized kv =>
              Dict.set (fst kv) (sanitized_value lower kv) sanitized)
           d []).
Proof.
  cbn [sanitize_for_logging]. f_equal. apply fold_left_ext.
  intros a [k v]. unfold sanitized_value. cbn [fst snd].
  destruct (is_sensitive lower k); [reflexivity|]. destruct v; reflexivity.
Qed.

(** An entry of [Dict.set k x d] is the new entry or an entry of [d]. *)
Lemma in_dict_set (k k' : string) (x x' : pyval) (d : dict) :
  In (k, x) (Dict.set k' x' d) -> (k = k' /\ x = x') \/ In (k, x) d.
Proof.
  induction d as [|[k0 x0] d IH]; simpl.
  - intros [E|[]]. inversion E. left; split; reflexivity.
  - destruct (String.eqb k' k0) eqn:Hk.
    + apply String.eqb_eq in Hk. subst k0. simpl.
      intros [E|H]; [inversion E; left; split; reflexivity | right; right; exact H].
    + simpl. intros [E|H]; [right; left; exact E|].
      destruct (IH H) as [?|?]; [left; assumption | right; right; assumption].
Qed.

Lemma fold_set_entries {A} (key : A -> string) (val : A -> pyval) (l : list A) :
  forall acc k x,
    In (k, x) (fold_left (fun acc a => Dict.set (key a) (val a) acc) l acc) ->
    In (k, x) acc \/ exists a, In a l /\ k = key a /\ x = val a.
Proof.
  induction l as [|a l IH]; intros acc k x H; simpl in H; [left; exact H|].
  destruct (IH _ _ _ H) as [Hacc|(a' & Ha' & Hk & Hx)].
  - apply in_dict_set in Hacc as [[-> ->]|Hacc]; [|left; exact Hacc].
    right. exists a. split; [left; reflexivity|split; reflexivity].
  - right. exists a'. split; [right; exact Ha'|split; assumption].
Qed.

(** X20: in what [log_request] writes for the headers, every header
    whose name contains ["authorization"], in any case, has the value
    ["***"], and every other header has a value it had before; for the
    headers that [create] sends, the API key is not among the values. *)
Theorem authorization_headers_are_masked (lower : string -> string) :
  (forall (headers : dict) (k : string) (v : pyval),
      In (k, v) (sanitized_headers lower headers) ->
      if contains "authorization" (lower k) then v = masked
      else In (k, v) headers) /\
  (lower "Authorization" = "authorization" ->
   lower "Content-Type" = "content-type" ->
   forall self,
     sanitized_headers lower (request_headers self)
       = [("Authorization", masked); ("Content-Type", PStr "application/json")]).
Proof.
  split.
  - intros headers k v H. unfold sanitized_headers in H.
    apply (@fold_set_entries _ fst
             (fun kv => if contains "authorization" (lower (fst kv))
                        then masked else snd kv)) in H.
    destruct H as [[]|([k' v'] & Hin & -> & ->)]. cbn [fst snd].
    destruct (contains "authorization" (lower k')); [reflexivity | exact Hin].
  - intros H1 H2 self. unfold sanitized_headers, request_headers.
    cbn [fold_left fst snd]. rewrite H1, H2. reflexivity.
Qed.

Lemma authorization_headers_are_masked_witness :
  sanitized_headers ascii_lower
    (request_headers (Messages_init "sk-secret" "https://api.openai.com/v1"
                        (fun _ _ _ => HTTPError "")))
  = [("Authorization", masked); ("Content-Type", PStr "application/json")].
Proof.
  apply (proj2 (authorization_headers_are_masked ascii_lower)); reflexivity.
Defined.

Lemma sanitize_kind (lower : string -> string) (v : pyval) :
  match v with
  | PDict _ | PList _ => True
  | _ => sanitize_for_logging lower v = v
  end.
Proof. destruct v; try reflexivity; exact I. Qed.

Lemma forallb_in {A} (p : A -> bool) (l : list A) :
  (forall x, In x l -> p x = true) -> forallb p l = true.
Proof. intros H. apply forallb_forall. exact H. Qed.

(** X21: in what [sanitize_for_logging] returns, no entry with a
    sensitive key (one that contains [api_key], [token], [authorization]
    or [password], in any case) has a value other than ["***"], at any
    depth of objects and lists. *)
Theorem sanitized_data_has_no_secret (lower : string -> string) (data : pyval) :
  no_secret lower (sanitize_for_logging lower data) = true.
Proof.
  induction data as [|b|n|f|s|l IH|d IH] using pyval_nested_ind;
    try reflexivity.
  - cbn [sanitize_for_logging no_secret]. apply forallb_in.
    intros x Hx. apply in_map_iff in Hx as (y & <- & Hy).
    rewrite Forall_forall in IH. apply IH, Hy.
  - rewrite sanitize_dict. cbn [no_secret]. apply forallb_in.
    intros [k x] Hx.
    apply (@fold_set_entries _ fst (sanitized_value lower)) in Hx.
    destruct Hx as [[]|([k' v'] & Hin & -> & ->)]. cbn [fst snd].
    unfold sanitized_value. cbn [fst snd].
    destruct (is_sensitive lower k'); [reflexivity|].
    rewrite Forall_forall in IH. apply (IH _ Hin).
Qed.

Lemma keys_dict_set (k : string) (x : pyval) (d : dict) :
  Dict.keys (Dict.set k x d)
    = if Dict.has k d then Dict.keys d else Dict.keys d ++ [k].
Proof.
  unfold Dict.has. induction d as [|[k0 x0] d IH]; [reflexivity|].
  simpl. destruct (String.eqb k k0); [reflexivity|].
  simpl. rewrite IH. destruct (Dict.get k d); reflexivity.
Qed.

Lemma dict_has_in (k : string) (d : dict) :
  Dict.has k d = true <-> In k (Dict.keys d).
Proof.
  unfold Dict.has. induction d as [|[k0 x0] d IH]; simpl.
  - split; [discriminate | intros []].
  - destruct (String.eqb k k0) eqn:Hk.
    + apply String.eqb_eq in Hk. subst. split; auto.
    + apply String.eqb_neq in Hk. rewrite IH. split; [auto|].
      intros [E|H]; [congruence | exact H].
Qed.

Lemma dict_set_new (k : string) (x : pyval) (d : dict) :
  ~ In k (Dict.keys d) -> Dict.set k x d = d ++ [(k, x)].
Proof.
  induction d as [|[k0 x0] d IH]; simpl; intros H; [reflexivity|].
  destruct (String.eqb k k0) eqn:Hk.
  - apply String.eqb_eq in Hk. subst. tauto.
  - rewrite IH; [reflexivity | tauto].
Qed.

(** The keys of a dict built entry by entry are all different. *)
Lemma fold_set_nodup {A} (key : A -> string) (val : A -> pyval) (l : list A) :
  forall acc,
    NoDup (Dict.keys acc) ->
    NoDup (Dict.keys
             (fold_left (fun acc a => Dict.set (key a) (val a) acc) l acc)).
Proof.
  induction l as [|a l IH]; intros acc H; simpl; [exact H|].
  apply IH. rewrite keys_dict_set.
  destruct (Dict.has (key a) acc) eqn:Hh; [exact H|].
  apply NoDup_app; [exact H | repeat constructor; intros [] |].
  intros x Hx [<-|[]]. apply dict_has_in in Hx. congruence.
Qed.

(** Building a dict again from its own entries gives the same dict. *)
Lemma fold_set_same (val : string * pyval -> pyval) (d : dict) :
  (forall kv, In kv d -> val kv = snd kv) ->
  forall acc,
    NoDup (Dict.keys (acc ++ d)) ->
    fold_left (fun acc kv => Dict.set (fst kv) (val kv) acc) d acc = acc ++ d.
Proof.
  induction d as [|[k x] d IH]; intros Hval acc Hn; simpl.
  - rewrite app_nil_r. reflexivity.
  - rewrite (Hval (k, x)) by (left; reflexivity). cbn [snd].
    assert (Hk : ~ In k (Dict.keys acc)).
    { unfold Dict.keys in *. rewrite map_app in Hn. simpl in Hn.
      apply NoDup_remove_2 in Hn. intros Hin. apply Hn.
      apply in_or_app. left; exact Hin. }
    rewrite (@dict_set_new k x acc Hk), IH.
    + rewrite <- app_assoc. reflexivity.
    + intros kv Hin. apply Hval. right; exact Hin.
    + rewrite <- app_assoc. exact Hn.
Qed.

(** X22: [sanitize_for_logging] is idempotent: sanitizing what it
    returned changes nothing. *)
Theorem sanitize_is_idempotent (lower : string -> string) (data : pyval) :
  sanitize_for_logging lower (sanitize_for_logging lower data)
    = sanitize_for_logging lower data.
Proof.
  induction data as [|b|n|f|s|l IH|d IH] using pyval_nested_ind;
    try reflexivity.
  - cbn [sanitize_for_logging]. f_equal. rewrite map_map.
    apply map_ext_in. intros x Hx. rewrite Forall_forall in IH. apply IH, Hx.
  - rewrite sanitize_dict.
    set (r := fold_left
                (fun sanitized kv =>
                   Dict.set (fst kv) (sanitized_value lower kv) sanitized)
                d []).
    rewrite sanitize_dict. f_equal.
    apply (@fold_set_same (sanitized_value lower) r).
    + intros [k x] Hx. unfold r in Hx.
      apply (@fold_set_entries _ fst (sanitized_value lower)) in Hx.
      destruct Hx as [[]|([k' v'] & Hin & -> & ->)].
      unfold sanitized_value. cbn [fst snd].
      destruct (is_sensitive lower k'); [reflexivity|].
      rewrite Forall_forall in IH. apply (IH _ Hin).
    + simpl. apply fold_set_nodup. constructor.
Qed.

(* ===================================================================== *)
(** * Tool calls on both paths *)
(* ===================================================================== *)

(** X23: when [json.loads] reads ["{}"] as the empty object and rejects
    the empty string, a tool call that the response mapper turns into a
    [ToolUse], and whose arguments are JSON, gives the same [ToolUse] in
    the stream transducer: it is appended and announced by
    [ContentBlockStart] when the chunk index is not below the number of
    blocks, and its input is yielded in a [ContentBlockDelta]. *)
Theorem tool_call_same_on_both_paths (lib : Library) (i : nat)
    (tool_call : pyval) (u : ToolUse) (st : stream_state) :
  json_loads lib "{}" = Some (PDict []) ->
  json_loads lib "" = None ->
  response_tool_use lib tool_call = Ok (Some u) ->
  arguments_are_json lib tool_call = true ->
  tool_call_delta lib i tool_call st =
  if (List.length (content_blocks st) <=? i)%nat then
    (append_block (Tool u) st,
     [ContentBlockStart i (Tool u); ContentBlockDelta i (InputDelta (tu_input u))],
     Ok tt)
  else (st, [ContentBlockDelta i (InputDelta (tu_input u))], Ok tt).
Proof.
  intros Hobj Hempty Hr Hj.
  destruct tool_call as [| | | | | |d]; try discriminate Hr.
  unfold response_tool_use in Hr. unfold tool_call_delta.
  cbn [py_get rbind] in Hr. rewrite gbind_lift. cbn [py_get].
  unfold arguments_are_json in Hj.
  destruct (truthy (Dict.get_default "function" PNone d)) eqn:Hf;
    [|discriminate Hr].
  destruct (Dict.get_default "function" PNone d) as [| | | | | |fd];
    try discriminate Hr.
  cbn [py_get rbind] in Hr. rewrite !gbind_lift. cbn [py_get].
  rewrite !gbind_lift.
  unfold Dict.get_default in Hr |- *. unfold loads_or_empty, py_json_loads in Hr.
  destruct (Dict.get "arguments" fd) as [a|].
  - destruct a as [| | | |s| |]; try discriminate Hr.
    cbn [truthy]. destruct (String.eqb s "") eqn:Hs.
    + apply String.eqb_eq in Hs. subst s. rewrite Hempty in Hr.
      cbn [rbind] in Hr. inversion Hr; subst u. cbn [negb].
      unfold gbind, gret, get_state, modify, yield.
      destruct (List.length (content_blocks st) <=? i)%nat; reflexivity.
    + cbn [orb negb] in Hj |- *.
      destruct (json_loads lib s) as [x|] eqn:Hx; [|discriminate Hj].
      cbn [rbind] in Hr. inversion Hr; subst u.
      unfold gbind, gret, get_state, modify, yield, lift, py_json_loads.
      rewrite Hx.
      destruct (List.length (content_blocks st) <=? i)%nat; reflexivity.
  - rewrite Hobj in Hr. cbn [rbind] in Hr. inversion Hr; subst u.
    cbn [truthy]. unfold gbind, gret, get_state, modify, yield.
    destruct (List.length (content_blocks st) <=? i)%nat; reflexivity.
Qed.

Lemma tool_call_same_on_both_paths_witness :
  exists u,
    response_tool_use Ref.lib weather_call = Ok (Some u) /\
    tool_call_delta Ref.lib 0 weather_call initial_state
      = (append_block (Tool u) initial_state,
         [ContentBlockStart 0 (Tool u);
          ContentBlockDelta 0 (InputDelta (PDict [("location", PStr "Paris")]))],
         Ok tt).
Proof.
  destruct (response_tool_use Ref.lib weather_call) as [[u|]|] eqn:H;
    try (vm_compute in H; discriminate H).
  exists u. split; [reflexivity|].
  rewrite (@tool_call_same_on_both_paths Ref.lib 0 weather_call u initial_state
             eq_refl eq_refl H eq_refl).
  vm_compute in H. inversion H. reflexivity.
Defined.

(* ===================================================================== *)
(** * Properties of [Messages.create]: the arguments *)
(* ===================================================================== *)

Lemma dict_update_get (k : string) (kwargs : dict) :
  forall p,
    Dict.get k kwargs = None ->
    Dict.get k (dict_update p kwargs) = Dict.get k p.
Proof.
  unfold dict_update. induction kwargs as [|[k' v'] r IH]; intros p H;
    [reflexivity|].
  simpl in H |- *. destruct (String.eqb k k') eqn:Hk; [discriminate H|].
  rewrite (IH _ H). apply dict_get_set_other. apply String.eqb_neq, Hk.
Qed.

Lemma set_unless_none_other (k k' : string) (v : pyval) (d : dict) :
  k <> k' -> Dict.get k (set_unless_none k' v d) = Dict.get k d.
Proof.
  intros H. destruct v; try reflexivity; apply dict_get_set_other, H.
Qed.

Lemma set_unless_none_same (k : string) (v : pyval) (d : dict) :
  Dict.get k d = None ->
  Dict.get k (set_unless_none k v d) <> Some PNone.
Proof.
  intros H. destruct v; simpl; rewrite ?H, ?dict_get_set_same; discriminate.
Qed.

Lemma transform_tool_choice_not_none (tc : pyval) :
  _transform_tool_choice tc <> PNone.
Proof.
  unfold _transform_tool_choice. destruct tc; try discriminate.
  - destruct (String.eqb s "auto"); [discriminate|].
    destruct (_ || _); discriminate.
  - destruct (is_str _ _); [|discriminate].
    destruct (truthy _); discriminate.
Qed.

(** X24: an optional argument of [create] left at [None] never reaches
    the target request as a null: when the extra keyword arguments have
    other names than the parameters of [create], no optional entry of the
    target request ([temperature], [top_p], [stop], [stream], [tools],
    [tool_choice]) has the value [None]. *)
Theorem no_null_parameters (lib : Library)
    (model messages max_tokens temperature top_p stop_sequences stream
     system tools tool_choice : pyval) (kwargs out : dict) (k : string) :
  (forall n, In n named_parameters -> Dict.get n kwargs = None) ->
  transform_anthropic_to_openai lib
    (create_params model messages max_tokens temperature top_p stop_sequences
       stream system tools tool_choice kwargs) = Ok out ->
  In k optional_keys ->
  Dict.get k out <> Some PNone.
Proof.
  intros Hkw H Hk.
  set (params := create_params model messages max_tokens temperature top_p
                   stop_sequences stream system tools tool_choice kwargs) in *.
  assert (Hp : forall n, In n ["temperature"; "top_p"; "stop_sequences"; "stream"] ->
                         Dict.get n params <> Some PNone).
  { intros n Hn. unfold params, create_params.
    rewrite dict_update_get
      by (apply Hkw; simpl in Hn |- *; intuition (subst; auto 12)).
    simpl in Hn. destruct Hn as [<-|[<-|[<-|[<-|[]]]]];
      repeat (rewrite set_unless_none_other by (intros E; discriminate E));
      apply set_unless_none_same;
      repeat (rewrite set_unless_none_other by (intros E; discriminate E));
      reflexivity. }
  destruct (transform_request_entries _ _ H)
    as (mo & msgs & ms & o & _ & _ & _ & Ho & Hout).
  destruct (sampling_params_get params mo ms)
    as (_ & _ & _ & G4 & G5 & G6 & G7 & G8).
  assert (Ho' : forall n, n <> "tools" ->
                  Dict.get n o = Dict.get n (sampling_params params mo ms)).
  { intros n Hn. destruct (Dict.get "tools" params) as [t|]; [|subst o; reflexivity].
    destruct (truthy t); [|subst o; reflexivity].
    destruct Ho as (fs & _ & ->). apply dict_get_set_other, Hn. }
  assert (Htools : Dict.get "tools" o <> Some PNone).
  { destruct (Dict.get "tools" params) as [t|]; [|subst o; rewrite G8; discriminate].
    destruct (truthy t); [|subst o; rewrite G8; discriminate].
    destruct Ho as (fs & _ & ->). rewrite dict_get_set_same. discriminate. }
  assert (Hget : forall n, n <> "tool_choice" -> Dict.get n out = Dict.get n o).
  { intros n Hn. subst out. destruct (Dict.get "tool_choice" params) as [tc|];
      [|reflexivity].
    destruct (truthy tc); [|reflexivity]. apply dict_get_set_other, Hn. }
  simpl in Hk. destruct Hk as [<-|[<-|[<-|[<-|[<-|[<-|[]]]]]]].
  - rewrite Hget, Ho', G4 by (intros E; discriminate E). apply Hp; simpl; auto.
  - rewrite Hget, Ho', G5 by (intros E; discriminate E). apply Hp; simpl; auto.
  - rewrite Hget, Ho', G7 by (intros E; discriminate E). apply Hp; simpl; auto.
  - rewrite Hget, Ho', G6 by (intros E; discriminate E). apply Hp; simpl; auto.
  - rewrite Hget by (intros E; discriminate E). exact Htools.
  - subst out. destruct (Dict.get "tool_choice" params) as [tc|] eqn:Htc.
    + destruct (truthy tc).
      * rewrite dict_get_set_same. intros E; inversion E.
        eapply transform_tool_choice_not_none; eassumption.
      * rewrite Ho' by (intros E; discriminate E).
        rewrite sampling_params_no_tool_choice. discriminate.
    + rewrite Ho' by (intros E; discriminate E).
      rewrite sampling_params_no_tool_choice. discriminate.
Qed.

Lemma no_null_parameters_witness :
  exists out,
    transform_anthropic_to_openai Ref.lib create_params_example = Ok out /\
    Dict.get "temperature" out <> Some PNone.
Proof.
  destruct (transform_anthropic_to_openai Ref.lib create_params_example)
    as [out|] eqn:H; [|vm_compute in H; discriminate H].
  exists out. split; [reflexivity|].
  refine (@no_null_parameters Ref.lib _ _ _ _ _ _ _ _ _ _ _ out "temperature"
            _ H _).
  - intros n Hn. simpl in Hn.
    repeat (destruct Hn as [<-|Hn]; [reflexivity|]). destruct Hn.
  - simpl; auto.
Defined.

(* ===================================================================== *)
(** * Properties of the stream transducer: the message started *)
(* ===================================================================== *)

(** X25: a chunk whose delta carries a truthy role yields first a
    [MessageStart] whose message has the [id] and the [model] of the chunk,
    each the empty string when the chunk lacks it, and the role of the
    delta; its other fields are those of the message under construction. *)
Theorem message_start_fields (lib : Library) (d delta : dict) (role : pyval)
    (st : stream_state) :
  chunk_delta (PDict d) = Some (PDict delta) ->
  Dict.get "role" delta = Some role -> truthy role = true ->
  exists tl,
    events (process_event lib (PDict d) st) =
    MessageStart
      {| sm_id := Dict.get_default "id" (PStr "") d;
         sm_type := sm_type (current_message st);
         sm_role := role;
         sm_content := sm_content (current_message st);
         sm_model := Dict.get_default "model" (PStr "") d;
         sm_stop_reason := sm_stop_reason (current_message st);
         sm_stop_sequence := sm_stop_sequence (current_message st);
         sm_usage := sm_usage (current_message st) |} :: tl.
Proof.
  intros Hd Hrole Ht.
  destruct (@process_event_run lib (PDict d) (PDict delta) st Hd)
    as (d' & c & Hd' & _ & _ & ->).
  unfold before_finish. rewrite !gbind_events.
  assert (Hm : message_start (PDict d) (PDict delta) st =
               (set_message (fun m =>
                  {| sm_id := Dict.get_default "id" (PStr "") d;
                     sm_type := sm_type m;
                     sm_role := role;
                     sm_content := sm_content m;
                     sm_model := Dict.get_default "model" (PStr "") d;
                     sm_stop_reason := sm_stop_reason m;
                     sm_stop_sequence := sm_stop_sequence m;
                     sm_usage := sm_usage m |}) st,
                [MessageStart
                   {| sm_id := Dict.get_default "id" (PStr "") d;
                      sm_type := sm_type (current_message st);
                      sm_role := role;
                      sm_content := sm_content (current_message st);
                      sm_model := Dict.get_default "model" (PStr "") d;
                      sm_stop_reason := sm_stop_reason (current_message st);
                      sm_stop_sequence := sm_stop_sequence (current_message st);
                      sm_usage := sm_usage (current_message st) |}],
                Ok tt)).
  { unfold message_start. rewrite gbind_lift. cbn [py_get].
    unfold Dict.get_default at 1. rewrite Hrole, Ht.
    rewrite gbind_lift. cbn [py_get py_item]. rewrite Hrole.
    reflexivity. }
  rewrite Hm. cbn [events fst snd app]. eexists. reflexivity.
Qed.

Lemma message_start_fields_witness :
  exists tl,
    events (process_event Ref.lib role_chunk initial_state)
      = MessageStart started_message :: tl.
Proof.
  exact (@message_start_fields Ref.lib
           [("id", PStr "chatcmpl-123");
            ("choices", PList [PDict [("delta", PDict [("role", PStr "assistant")])]])]
           [("role", PStr "assistant")] (PStr "assistant") initial_state
           eq_refl eq_refl eq_refl).
Defined.

(* ===================================================================== *)
(** * Properties of the request mapper: requests that are mapped *)
(* ===================================================================== *)

Lemma source_message_total (lib : Library) (msg : pyval) :
  source_message_ok msg = true -> exists out, transform_message lib msg = Ok out.
Proof.
  destruct msg as [| | | | | |d]; try discriminate.
  unfold source_message_ok, transform_message. cbn [py_item].
  destruct (Dict.get "role" d) as [role|]; [|discriminate].
  destruct (Dict.get "content" d) as [content|]; [|discriminate].
  cbn [rbind]. destruct content as [| | | | |blocks|]; eauto.
  intros Hb.
  destruct (@add_blocks_total lib blocks no_parts Hb eq_refl) as (p & Hp & Hs).
  assert (Hm : exists main, main_message role p = Ok main).
  { unfold main_message, py_join.
    destruct (str_items_total _ Hs) as [ss ->]. simpl.
    destruct (nonempty (text_parts p) || nonempty (tool_calls p)); [|eauto].
    destruct (nonempty (text_parts p)); simpl; eauto. }
  destruct Hm as [main Hm].
  unfold _transform_content_blocks. rewrite Hp. cbn [rbind]. rewrite Hm.
  cbn [rbind].
  repeat match goal with
         | |- context [if ?b then _ else _] => destruct b; simpl
         | |- context [match ?x with PList _ => _ | _ => _ end] =>
             destruct x; simpl
         end; eauto.
Qed.

Lemma source_messages_total (lib : Library) (msgs : list pyval) :
  forallb source_message_ok msgs = true ->
  exists out, transform_message_list lib msgs = Ok out.
Proof.
  induction msgs as [|m r IH]; simpl; [eauto|].
  intros H. apply andb_prop in H as [Hm Hr].
  destruct (source_message_total lib m Hm) as [o ->].
  destruct (IH Hr) as [os ->]. simpl. eauto.
Qed.

Lemma tool_objects_total (tools : list pyval) :
  forallb is_object tools = true -> exists fs, transform_tool_list tools = Ok fs.
Proof.
  induction tools as [|t r IH]; simpl; [eauto|].
  intros H. apply andb_prop in H as [Ht Hr].
  destruct t; try discriminate Ht. destruct (IH Hr) as [fs ->].
  unfold transform_tool. simpl. eauto.
Qed.

(** X26: the request mapper returns, and raises nothing, on every
    request that has a model, a list of messages each with a role and a
    content (a list content being made of objects whose text, in a text
    block, is a string), and tools that are absent, falsy or a list of
    objects. *)
Theorem well_formed_request_is_mapped (lib : Library) (params : dict) :
  request_ok params = true ->
  exists out, transform_anthropic_to_openai lib params = Ok out.
Proof.
  unfold request_ok, Dict.has. intros H.
  apply andb_prop in H as [H Htools]. apply andb_prop in H as [Hmodel Hmsgs].
  unfold transform_anthropic_to_openai. cbn [py_item].
  destruct (Dict.get "model" params) as [model|]; [|discriminate Hmodel].
  destruct (Dict.get "messages" params) as [[| | | | |msgs|]|];
    try discriminate Hmsgs.
  cbn [rbind]. unfold _transform_messages. cbn [py_iter rbind].
  destruct (source_messages_total lib msgs Hmsgs) as [out ->]. cbn [rbind].
  destruct (Dict.get "tools" params) as [tools|]; [|cbn [rbind]; eauto].
  destruct (truthy tools) eqn:Ht; [|cbn [rbind]; eauto].
  cbn [negb orb] in Htools.
  destruct tools as [| | | | |l|]; try discriminate Htools.
  unfold _transform_tools_to_functions. cbn [py_iter rbind].
  destruct (tool_objects_total l Htools) as [fs ->]. cbn [rbind]. eauto.
Qed.

Lemma well_formed_request_is_mapped_witness :
  exists out, transform_anthropic_to_openai Ref.lib weather_request = Ok out.
Proof.
  apply (well_formed_request_is_mapped Ref.lib weather_request). reflexivity.
Defined.
